(** * langchain-xinference: adapters over the Xinference REST client

    A shallow embedding of [langchain_xinference/embeddings.py] and
    [langchain_xinference/llms.py].  The two classes are thin adapters: they
    probe one authentication endpoint, build two client handles, merge
    configuration dictionaries and reshape the (JSON) answers of the remote
    cluster.  The model therefore consists of

    - JSON-like Python values ([pyval]) with the handful of interpreter
      primitives the adapters apply to them (truthiness, subscripting,
      [dict.get], iteration, [float(...)], string concatenation);
    - exceptions as data ([exn]) and a writer/error monad [M] that records
      every call made to a collaborator (HTTP probe, client, model handle,
      progress observer);
    - Python generators as finite lazy traces ([gen]);
    - the collaborators themselves as records of oracles ([environment],
      [restful_client], [model_handle]).
*)

From stdpp Require Import gmap strings list fin_maps.

Local Set Warnings "-register-all".
Local Open Scope string_scope.
Local Open Scope list_scope.

(** ** Python values *)

(** The values that travel through the adapters are what [json] decoding
    produces.  The type [F] of double-precision floats is left abstract. *)
Inductive pyval (F : Type) : Type :=
| PNone
| PBool (b : bool)
| PInt (z : Z)
| PFloat (f : F)
| PStr (s : string)
| PList (l : list (pyval F))
| PDict (d : gmap string (pyval F)).

Arguments PNone {F}.
Arguments PBool {F} b.
Arguments PInt {F} z.
Arguments PFloat {F} f.
Arguments PStr {F} s.
Arguments PList {F} l.
Arguments PDict {F} d.

(** What the interpreter does with floats and with [str(...)], taken as an
    interface: [float_of_Z] is [float(int)] ([None] for [OverflowError]),
    [float_of_string] is [float(str)] ([None] for [ValueError]),
    [float_is_zero] decides [x == 0.0], and [py_str] is the text an f-string
    substitutes for a value (a [str] is substituted unchanged). *)
Class PyRuntime (F : Type) := {
  float_of_Z : Z -> option F;
  float_of_string : string -> option F;
  float_is_zero : F -> bool;
  py_str : pyval F -> string;
  py_str_PStr : forall s, py_str (PStr s) = s
}.

(** ** Exceptions and results *)

(** The exception classes the adapters meet, each with its message.  The
    subclass relation is not modelled: [except RuntimeError] is a match on
    [RuntimeError] itself, and none of the other classes listed here is one
    of its subclasses. *)
Inductive exn : Type :=
| ImportError (msg : string)
| ValueError (msg : string)
| TypeError (msg : string)
| KeyError (key : string)
| IndexError (msg : string)
| AttributeError (msg : string)
| RuntimeError (msg : string)
| OverflowError (msg : string)
| ValidationError (field : string)
| ConnectionError (msg : string).

Inductive result (A : Type) : Type :=
| Ok (a : A)
| Raise (e : exn).

Arguments Ok {A} a.
Arguments Raise {A} e.

Definition rbind {A B} (r : result A) (f : A -> result B) : result B :=
  match r with
  | Ok a => f a
  | Raise e => Raise e
  end.

Fixpoint rmap_list {A B} (f : A -> result B) (l : list A) : result (list B) :=
  match l with
  | [] => Ok []
  | x :: xs => rbind (f x) (fun y => rbind (rmap_list f xs) (fun ys => Ok (y :: ys)))
  end.

Definition is_raise {A} (r : result A) : bool :=
  match r with
  | Ok _ => false
  | Raise _ => true
  end.

Section Primitives.
Context {F : Type} `{PyRuntime F}.

Definition py_type_name (v : pyval F) : string :=
  match v with
  | PNone => "NoneType"
  | PBool _ => "bool"
  | PInt _ => "int"
  | PFloat _ => "float"
  | PStr _ => "str"
  | PList _ => "list"
  | PDict _ => "dict"
  end.

(** [bool(v)], also the test of [if v:]. *)
Definition py_truthy (v : pyval F) : bool :=
  match v with
  | PNone => false
  | PBool b => b
  | PInt z => negb (z =? 0)%Z
  | PFloat f => negb (float_is_zero f)
  | PStr s => negb (String.eqb s EmptyString)
  | PList l => negb (bool_decide (length l = 0))
  | PDict d => negb (bool_decide (size d = 0))
  end.

(** [d.get(key, dflt)] *)
Definition dict_get (d : gmap string (pyval F)) (key : string) (dflt : pyval F) : pyval F :=
  default dflt (d !! key).

(** [v[key]] for a string key. *)
Definition py_getitem (v : pyval F) (key : string) : result (pyval F) :=
  match v with
  | PDict d =>
      match d !! key with
      | Some x => Ok x
      | None => Raise (KeyError key)
      end
  | PList _ => Raise (TypeError "list indices must be integers or slices, not str")
  | PStr _ => Raise (TypeError "string indices must be integers, not 'str'")
  | _ => Raise (TypeError ("'" +:+ py_type_name v +:+ "' object is not subscriptable"))
  end.

(** [v[0]] *)
Definition py_getitem0 (v : pyval F) : result (pyval F) :=
  match v with
  | PList (x :: _) => Ok x
  | PList [] => Raise (IndexError "list index out of range")
  | PStr (String c _) => Ok (PStr (String c EmptyString))
  | PStr EmptyString => Raise (IndexError "string index out of range")
  | PDict _ => Raise (KeyError "0")
  | _ => Raise (TypeError ("'" +:+ py_type_name v +:+ "' object is not subscriptable"))
  end.

Fixpoint string_chars (s : string) : list (pyval F) :=
  match s with
  | EmptyString => []
  | String c s' => PStr (String c EmptyString) :: string_chars s'
  end.

(** The items a [for] loop (or [map]) draws from [v]; a dict gives its
    keys (here in the order of the finite map, not in insertion order). *)
Definition py_iter (v : pyval F) : result (list (pyval F)) :=
  match v with
  | PList l => Ok l
  | PStr s => Ok (string_chars s)
  | PDict d => Ok ((fun kv => PStr kv.1) <$> map_to_list d)
  | _ => Raise (TypeError ("'" +:+ py_type_name v +:+ "' object is not iterable"))
  end.

(** [float(v)] *)
Definition py_float (v : pyval F) : result F :=
  match v with
  | PFloat f => Ok f
  | PInt z =>
      match float_of_Z z with
      | Some f => Ok f
      | None => Raise (OverflowError "int too large to convert to float")
      end
  | PBool b =>
      match float_of_Z (if b then 1 else 0) with
      | Some f => Ok f
      | None => Raise (OverflowError "int too large to convert to float")
      end
  | PStr s =>
      match float_of_string s with
      | Some f => Ok f
      | None => Raise (ValueError ("could not convert string to float: " +:+ s))
      end
  | _ => Raise (TypeError ("float() argument must be a string or a real number, not '"
                             +:+ py_type_name v +:+ "'"))
  end.

(** [acc + token] for a [str] accumulator, as in [acc += token]. *)
Definition py_str_add (acc : string) (token : pyval F) : result string :=
  match token with
  | PStr t => Ok (acc +:+ t)
  | _ => Raise (TypeError ("can only concatenate str (not '" +:+ py_type_name token
                             +:+ "') to str"))
  end.

(** [{**a, **b}] where [a] is a dict and [b] is whatever the caller passed:
    the entries of [b] win on a shared key. *)
Definition py_dict_merge (a : gmap string (pyval F)) (b : pyval F)
  : result (gmap string (pyval F)) :=
  match b with
  | PDict g => Ok (g ∪ a)
  | _ => Raise (TypeError ("'" +:+ py_type_name b +:+ "' object is not a mapping"))
  end.

End Primitives.

(** ** Collaborators, effects and generators *)

Section Effects.
Context {F : Type}.

(** Every interaction of an adapter with a collaborator, in the order in
    which it happens.  [EvNewToken] is [run_manager.on_llm_new_token]; its
    second argument is the [log_probs] keyword when one is passed (the
    [verbose] keyword is not recorded). *)
Inductive event : Type :=
| EvHttpGet (url : string)
| EvGetModel (model_uid : string)
| EvCreateEmbedding (text : string)
| EvGenerate (prompt : string) (generate_config : gmap string (pyval F))
| EvNewToken (token : pyval F) (log_probs : option (pyval F)).

(** A computation: the events it caused and how it ended. *)
Definition M (A : Type) : Type := (list event * result A)%type.

Definition mret {A} (a : A) : M A := ([], Ok a).

Definition mbind {A B} (m : M A) (f : A -> M B) : M B :=
  match m with
  | (evs, Ok a) => let '(evs', r) := f a in (evs ++ evs', r)
  | (evs, Raise e) => (evs, Raise e)
  end.

Definition raise {A} (e : exn) : M A := ([], Raise e).

Definition lift {A} (r : result A) : M A := ([], r).

(** A call to a collaborator is recorded, then answered. *)
Definition call {A} (ev : event) (answer : result A) : M A := ([ev], answer).

Definition notify (ev : event) : M unit := ([ev], Ok tt).

Fixpoint mmap_list {A B} (f : A -> M B) (l : list A) : M (list B) :=
  match l with
  | [] => mret []
  | x :: xs =>
      mbind (f x) (fun y => mbind (mmap_list f xs) (fun ys => mret (y :: ys)))
  end.

(** A generator run to its end: each [GYield] carries the events that
    happen when the generator is resumed, the value it then yields, and
    what follows; a consumer that stops early never causes the rest. *)
Inductive gen (A : Type) : Type :=
| GStop (evs : list event)
| GRaise (evs : list event) (e : exn)
| GYield (evs : list event) (a : A) (k : gen A).

Arguments GStop {A} evs.
Arguments GRaise {A} evs e.
Arguments GYield {A} evs a k.

(** Events that occur before the generator's own first step. *)
Definition gen_after {A} (evs : list event) (g : gen A) : gen A :=
  match g with
  | GStop evs' => GStop (evs ++ evs')
  | GRaise evs' e => GRaise (evs ++ evs') e
  | GYield evs' a k => GYield (evs ++ evs') a k
  end.

(** A generator whose body starts with the computation [m]. *)
Definition gen_bind {A B} (m : M A) (f : A -> gen B) : gen B :=
  match m with
  | (evs, Ok a) => gen_after evs (f a)
  | (evs, Raise e) => GRaise evs e
  end.

Fixpoint gen_yields {A} (g : gen A) : list A :=
  match g with
  | GStop _ => []
  | GRaise _ _ => []
  | GYield _ a k => a :: gen_yields k
  end.

Fixpoint gen_error {A} (g : gen A) : option exn :=
  match g with
  | GStop _ => None
  | GRaise _ e => Some e
  | GYield _ _ k => gen_error k
  end.

Fixpoint gen_events {A} (g : gen A) : list event :=
  match g with
  | GStop evs => evs
  | GRaise evs _ => evs
  | GYield evs _ k => evs ++ gen_events k
  end.

(** [for x in g: acc = body(acc, x)] *)
Fixpoint for_each {A S} (g : gen A) (body : S -> A -> result S) (acc : S) : M S :=
  match g with
  | GStop evs => (evs, Ok acc)
  | GRaise evs e => (evs, Raise e)
  | GYield evs a k =>
      mbind (evs, body acc a) (fun acc' => for_each k body acc')
  end.

(** The handle [client.get_model(uid)] returns. *)
Record model_handle : Type := {
  create_embedding : string -> result (pyval F);
  generate : string -> gmap string (pyval F) -> result (pyval F)
}.

(** A [RESTfulClient] or [AsyncRESTfulClient] object. *)
Record restful_client : Type := {
  get_model : string -> result model_handle
}.

(** What [requests.get] returns: the status and the outcome of
    [response.json()]. *)
Record http_response : Type := {
  status_code : Z;
  json : result (pyval F)
}.

(** The surroundings of a constructor call.  The two client constructors
    are answered by oracles: whatever requests they send themselves are not
    part of the recorded events. *)
Record environment : Type := {
  xinference_installed : bool;
  xinference_client_installed : bool;
  requests_get : string -> result http_response;
  RESTfulClient : string -> option string -> result restful_client;
  AsyncRESTfulClient : string -> option string -> result restful_client
}.

(** [handle.get_model(uid)] on an attribute that may hold [None]. *)
Definition call_get_model (handle : option restful_client) (uid : string) : M model_handle :=
  match handle with
  | None => raise (AttributeError "'NoneType' object has no attribute 'get_model'")
  | Some c => call (EvGetModel uid) (get_model c uid)
  end.

(** The two-stage import at the head of both constructors. *)
Definition import_clients (env : environment) : M unit :=
  if xinference_installed env then mret tt
  else if xinference_client_installed env then mret tt
  else raise (ImportError
    ("Could not import RESTfulClient from xinference. Please install it"
     +:+ " with `pip install xinference` or `pip install xinference_client`.")).

End Effects.

Arguments event F : clear implicits.
Arguments M F A : clear implicits.
Arguments gen F A : clear implicits.
Arguments model_handle F : clear implicits.
Arguments restful_client F : clear implicits.
Arguments http_response F : clear implicits.
Arguments environment F : clear implicits.
Arguments GStop {F A} evs.
Arguments GRaise {F A} evs e.
Arguments GYield {F A} evs a k.

Declare Scope py_scope.
Delimit Scope py_scope with py.
Notation "x <- m ;; k" := (mbind m (fun x => k))
  (at level 100, m at next level, right associativity) : py_scope.
Notation "m ;;; k" := (mbind m (fun _ => k))
  (at level 100, right associativity) : py_scope.
Notation "x <~ m ;; k" := (gen_bind m (fun x => k))
  (at level 100, m at next level, right associativity) : py_scope.
Local Open Scope py_scope.

(** ** [embeddings.py]: class [XinferenceEmbeddings] *)

Module XinferenceEmbeddings.
Section Adapter.
Context {F : Type} `{PyRuntime F}.

(** The attributes of an instance. *)
Record adapter : Type := {
  client : option (restful_client F);
  async_client : option (restful_client F);
  server_url : string;
  model_uid : string;
  _headers : gmap string string;
  _cluster_authed : bool
}.

Definition set_cluster_authed (self : adapter) (b : bool) : adapter :=
  {| client := client self; async_client := async_client self;
     server_url := server_url self; model_uid := model_uid self;
     _headers := _headers self; _cluster_authed := b |}.

Definition set_header (self : adapter) (k v : string) : adapter :=
  {| client := client self; async_client := async_client self;
     server_url := server_url self; model_uid := model_uid self;
     _headers := <[k := v]> (_headers self);
     _cluster_authed := _cluster_authed self |}.

Definition set_clients (self : adapter) (c a : option (restful_client F)) : adapter :=
  {| client := c; async_client := a;
     server_url := server_url self; model_uid := model_uid self;
     _headers := _headers self; _cluster_authed := _cluster_authed self |}.

Definition _check_cluster_authenticated (env : environment F) (self : adapter) : M F adapter :=
  let url := server_url self +:+ "/v1/cluster/auth" in
  response <- call (EvHttpGet url) (requests_get env url);;
  if (status_code response =? 404)%Z then
    mret (set_cluster_authed self false)
  else
    (if negb (status_code response =? 200)%Z then
       body <- lift (json response);;
       detail <- lift (py_getitem body "detail");;
       raise (RuntimeError ("Failed to get cluster information, detail: " +:+ py_str detail))
     else mret tt);;;
    response_data <- lift (json response);;
    auth <- lift (py_getitem response_data "auth");;
    mret (set_cluster_authed self (py_truthy auth)).

Definition __init__ (env : environment F)
    (server_url model_uid api_key : option string) : M F adapter :=
  import_clients env;;;
  match server_url with
  | None => raise (ValueError "Please provide server URL")
  | Some url =>
    match model_uid with
    | None => raise (ValueError "Please provide the model UID")
    | Some uid =>
      let self := {| client := None; async_client := None;
                     server_url := url; model_uid := uid;
                     _headers := ∅; _cluster_authed := false |} in
      self <- _check_cluster_authenticated env self;;
      let self :=
        match api_key with
        | Some key =>
            if _cluster_authed self
            then set_header self "Authorization" ("Bearer " +:+ key)
            else self
        | None => self
        end in
      c <- lift (RESTfulClient env url api_key);;
      a <- match AsyncRESTfulClient env url api_key with
           | Ok a => mret (Some a)
           | Raise (RuntimeError _) => mret None
           | Raise e => raise e
           end;;
      mret (set_clients self (Some c) a)
    end
  end.

(** [r["data"][0]["embedding"]] *)
Definition embedding_of_response (r : pyval F) : result (pyval F) :=
  rbind (py_getitem r "data") (fun data =>
  rbind (py_getitem0 data) (fun first =>
  py_getitem first "embedding")).

(** [list(map(float, e))] *)
Definition float_list (e : pyval F) : result (list F) :=
  rbind (py_iter e) (rmap_list py_float).

Definition embed_documents (self : adapter) (texts : list string) : M F (list (list F)) :=
  model <- call_get_model (client self) (model_uid self);;
  embeddings <- mmap_list (fun text =>
      r <- call (EvCreateEmbedding text) (create_embedding model text);;
      lift (embedding_of_response r)) texts;;
  lift (rmap_list float_list embeddings).

Definition aembed_documents (self : adapter) (texts : list string) : M F (list (list F)) :=
  model <- call_get_model (async_client self) (model_uid self);;
  embeddings <- mmap_list (fun text =>
      r <- call (EvCreateEmbedding text) (create_embedding model text);;
      lift (embedding_of_response r)) texts;;
  lift (rmap_list float_list embeddings).

Definition embed_query (self : adapter) (text : string) : M F (list F) :=
  model <- call_get_model (client self) (model_uid self);;
  embedding_res <- call (EvCreateEmbedding text) (create_embedding model text);;
  embedding <- lift (embedding_of_response embedding_res);;
  lift (float_list embedding).

Definition aembed_query (self : adapter) (text : string) : M F (list F) :=
  model <- call_get_model (async_client self) (model_uid self);;
  embedding_res <- call (EvCreateEmbedding text) (create_embedding model text);;
  embedding <- lift (embedding_of_response embedding_res);;
  lift (float_list embedding).

End Adapter.
Arguments adapter F : clear implicits.
End XinferenceEmbeddings.

(** ** [llms.py]: class [Xinference] *)

Module Xinference.
Section Adapter.
Context {F : Type} `{PyRuntime F}.

Record adapter : Type := {
  client : option (restful_client F);
  async_client : option (restful_client F);
  server_url : string;
  model_uid : string;
  model_kwargs : gmap string (pyval F);
  _headers : gmap string string;
  _cluster_authed : bool
}.

Definition set_cluster_authed (self : adapter) (b : bool) : adapter :=
  {| client := client self; async_client := async_client self;
     server_url := server_url self; model_uid := model_uid self;
     model_kwargs := model_kwargs self;
     _headers := _headers self; _cluster_authed := b |}.

Definition set_header (self : adapter) (k v : string) : adapter :=
  {| client := client self; async_client := async_client self;
     server_url := server_url self; model_uid := model_uid self;
     model_kwargs := model_kwargs self;
     _headers := <[k := v]> (_headers self);
     _cluster_authed := _cluster_authed self |}.

Definition set_clients (self : adapter) (c a : option (restful_client F)) : adapter :=
  {| client := c; async_client := a;
     server_url := server_url self; model_uid := model_uid self;
     model_kwargs := model_kwargs self;
     _headers := _headers self; _cluster_authed := _cluster_authed self |}.

Definition _check_cluster_authenticated (env : environment F) (self : adapter) : M F adapter :=
  let url := server_url self +:+ "/v1/cluster/auth" in
  response <- call (EvHttpGet url) (requests_get env url);;
  if (status_code response =? 404)%Z then
    mret (set_cluster_authed self false)
  else
    (if negb (status_code response =? 200)%Z then
       body <- lift (json response);;
       detail <- lift (py_getitem body "detail");;
       raise (RuntimeError ("Failed to get cluster information, detail: " +:+ py_str detail))
     else mret tt);;;
    response_data <- lift (json response);;
    auth <- lift (py_getitem response_data "auth");;
    mret (set_cluster_authed self (py_truthy auth)).

Definition __init__ (env : environment F)
    (server_url model_uid api_key : option string)
    (model_kwargs : gmap string (pyval F)) : M F adapter :=
  import_clients env;;;
  let model_kwargs := if py_truthy (PDict model_kwargs) then model_kwargs else ∅ in
  match server_url with
  | None => raise (ValueError "Please provide server URL")
  | Some url =>
    match model_uid with
    | None => raise (ValueError "Please provide the model UID")
    | Some uid =>
      let self := {| client := None; async_client := None;
                     server_url := url; model_uid := uid;
                     model_kwargs := model_kwargs;
                     _headers := ∅; _cluster_authed := false |} in
      self <- _check_cluster_authenticated env self;;
      let self :=
        match api_key with
        | Some key =>
            if _cluster_authed self
            then set_header self "Authorization" ("Bearer " +:+ key)
            else self
        | None => self
        end in
      c <- lift (RESTfulClient env url api_key);;
      a <- match AsyncRESTfulClient env url api_key with
           | Ok a => mret (Some a)
           | Raise (RuntimeError _) => mret None
           | Raise e => raise e
           end;;
      mret (set_clients self (Some c) a)
    end
  end.

(** [if stop: generate_config["stop"] = stop] *)
Definition with_stop (stop : option (list string)) (generate_config : gmap string (pyval F))
  : gmap string (pyval F) :=
  match stop with
  | Some (s :: l) => <["stop" := PList (PStr <$> (s :: l))]> generate_config
  | _ => generate_config
  end.

(** The loop of [_stream_generate] and [_astream_generate] over the
    fragments of the streaming response.  The optional [run_manager] is
    modelled by its truth value: [true] for an observer, [false] for
    [None]. *)
Fixpoint generate_loop (run_manager : bool) (chunks : list (pyval F)) : gen F (pyval F) :=
  match chunks with
  | [] => GStop []
  | chunk :: rest =>
      match chunk with
      | PDict d =>
          let choices := dict_get d "choices" (PList []) in
          if py_truthy choices then
            match py_getitem0 choices with
            | Raise e => GRaise [] e
            | Ok (PDict choice) =>
                let token := dict_get choice "text" (PStr EmptyString) in
                let log_probs := dict_get choice "logprobs" PNone in
                GYield (if run_manager then [EvNewToken token (Some log_probs)] else [])
                       token (generate_loop run_manager rest)
            | Ok _ => generate_loop run_manager rest
            end
          else generate_loop run_manager rest
      | _ => generate_loop run_manager rest
      end
  end.

Definition _stream_generate (model : model_handle F) (prompt : string)
    (run_manager : bool) (generate_config : gmap string (pyval F)) : gen F (pyval F) :=
  streaming_response <~ call (EvGenerate prompt generate_config)
                             (generate model prompt generate_config);;
  chunks <~ lift (py_iter streaming_response);;
  generate_loop run_manager chunks.

Definition _astream_generate (model : model_handle F) (prompt : string)
    (run_manager : bool) (generate_config : gmap string (pyval F)) : gen F (pyval F) :=
  streaming_response <~ call (EvGenerate prompt generate_config)
                             (generate model prompt generate_config);;
  chunks <~ lift (py_iter streaming_response);;
  generate_loop run_manager chunks.

Definition _call (self : adapter) (prompt : string) (stop : option (list string))
    (run_manager : bool) (kwargs : gmap string (pyval F)) : M F (pyval F) :=
  match client self with
  | None => raise (ValueError "Client is not initialized!")
  | Some c =>
    model <- call (EvGetModel (model_uid self)) (get_model c (model_uid self));;
    let generate_config := dict_get kwargs "generate_config" (PDict ∅) in
    generate_config <- lift (py_dict_merge (model_kwargs self) generate_config);;
    let generate_config := with_stop stop generate_config in
    if py_truthy (PDict generate_config)
       && py_truthy (dict_get generate_config "stream" PNone)
    then
      combined_text_output <-
        for_each (_stream_generate model prompt run_manager generate_config)
                 py_str_add EmptyString;;
      mret (PStr combined_text_output)
    else
      completion <- call (EvGenerate prompt generate_config)
                         (generate model prompt generate_config);;
      lift (rbind (py_getitem completion "choices") (fun choices =>
            rbind (py_getitem0 choices) (fun choice =>
            py_getitem choice "text")))
  end.

Definition _acall (self : adapter) (prompt : string) (stop : option (list string))
    (run_manager : bool) (kwargs : gmap string (pyval F)) : M F (pyval F) :=
  match async_client self with
  | None => raise (ValueError "Client is not initialized!")
  | Some c =>
    model <- call (EvGetModel (model_uid self)) (get_model c (model_uid self));;
    let generate_config := dict_get kwargs "generate_config" (PDict ∅) in
    generate_config <- lift (py_dict_merge (model_kwargs self) generate_config);;
    let generate_config := with_stop stop generate_config in
    if py_truthy (PDict generate_config)
       && py_truthy (dict_get generate_config "stream" PNone)
    then
      combined_text_output <-
        for_each (_astream_generate model prompt run_manager generate_config)
                 py_str_add EmptyString;;
      mret (PStr combined_text_output)
    else
      completion <- call (EvGenerate prompt generate_config)
                         (generate model prompt generate_config);;
      lift (rbind (py_getitem completion "choices") (fun choices =>
            rbind (py_getitem0 choices) (fun choice =>
            py_getitem choice "text")))
  end.

(** [langchain_core.outputs.GenerationChunk]: the text and the optional
    [generation_info] mapping. *)
Record GenerationChunk : Type := {
  text : string;
  generation_info : option (gmap string (pyval F))
}.

(** The constructor [GenerationChunk(text=..., generation_info=...)]; the
    class declares [text: str] and rejects any other value. *)
Definition new_GenerationChunk (text : pyval F)
    (generation_info : option (gmap string (pyval F))) : result GenerationChunk :=
  match text with
  | PStr s => Ok {| text := s; generation_info := generation_info |}
  | _ => Raise (ValidationError "text")
  end.

Definition _stream_response_to_generation_chunk (stream_response : pyval F)
  : result GenerationChunk :=
  let token := PStr EmptyString in
  match stream_response with
  | PDict d =>
      let choices := dict_get d "choices" (PList []) in
      if py_truthy choices then
        rbind (py_getitem0 choices) (fun choice =>
        match choice with
        | PDict choice =>
            let token := dict_get choice "text" (PStr EmptyString) in
            new_GenerationChunk token
              (Some (<["finish_reason" := dict_get choice "finish_reason" PNone]>
                    (<["logprobs" := dict_get choice "logprobs" PNone]> ∅)))
        | _ => Raise (TypeError "choice type error!")
        end)
      else new_GenerationChunk token None
  | _ => Raise (TypeError "stream_response type error!")
  end.

(** The loop of [_stream] and [_astream] over the remote events. *)
Fixpoint stream_loop (run_manager : bool) (events : list (pyval F)) : gen F GenerationChunk :=
  match events with
  | [] => GStop []
  | stream_resp :: rest =>
      if py_truthy stream_resp then
        match _stream_response_to_generation_chunk stream_resp with
        | Raise e => GRaise [] e
        | Ok chunk =>
            GYield (if run_manager then [EvNewToken (PStr (text chunk)) None] else [])
                   chunk (stream_loop run_manager rest)
        end
      else stream_loop run_manager rest
  end.

(** [if "stream" not in generate_config or not generate_config.get("stream", False):
       generate_config["stream"] = True] *)
Definition force_stream (generate_config : gmap string (pyval F)) : gmap string (pyval F) :=
  if match generate_config !! "stream" with None => true | Some _ => false end
     || negb (py_truthy (dict_get generate_config "stream" (PBool false)))
  then <["stream" := PBool true]> generate_config
  else generate_config.

Definition _stream (self : adapter) (prompt : string) (stop : option (list string))
    (run_manager : bool) (kwargs : gmap string (pyval F)) : gen F GenerationChunk :=
  let generate_config := dict_get kwargs "generate_config" (PDict ∅) in
  generate_config <~ lift (py_dict_merge (model_kwargs self) generate_config);;
  let generate_config := with_stop stop generate_config in
  let generate_config := force_stream generate_config in
  match client self with
  | None => GRaise [] (ValueError "Client is not initialized!")
  | Some c =>
    model <~ call (EvGetModel (model_uid self)) (get_model c (model_uid self));;
    response <~ call (EvGenerate prompt generate_config)
                     (generate model prompt generate_config);;
    events <~ lift (py_iter response);;
    stream_loop run_manager events
  end.

Definition _astream (self : adapter) (prompt : string) (stop : option (list string))
    (run_manager : bool) (kwargs : gmap string (pyval F)) : gen F GenerationChunk :=
  let generate_config := dict_get kwargs "generate_config" (PDict ∅) in
  generate_config <~ lift (py_dict_merge (model_kwargs self) generate_config);;
  let generate_config := with_stop stop generate_config in
  let generate_config := force_stream generate_config in
  match async_client self with
  | None => GRaise [] (ValueError "Client is not initialized!")
  | Some c =>
    model <~ call (EvGetModel (model_uid self)) (get_model c (model_uid self));;
    response <~ call (EvGenerate prompt generate_config)
                     (generate model prompt generate_config);;
    events <~ lift (py_iter response);;
    stream_loop run_manager events
  end.

(** The property [_llm_type]. *)
Definition _llm_type : string := "xinference".

(** The property [_identifying_params]: three one-entry dicts unpacked into
    one. *)
Definition _identifying_params (self : adapter) : gmap string (pyval F) :=
  {[ "model_kwargs" := PDict (model_kwargs self) ]}
  ∪ ({[ "model_uid" := PStr (model_uid self) ]}
     ∪ {[ "server_url" := PStr (server_url self) ]}).

End Adapter.
Arguments adapter F : clear implicits.
Arguments GenerationChunk F : clear implicits.
End Xinference.


(** ** Concrete collaborators

    A runtime in which the floats are the integral ones, no string parses
    as a float and only strings, [None] and booleans are rendered by
    [str], and a few servers, handles and adapters on which the operations
    can be run.  The runs below stay within what this runtime shares with
    the interpreter. *)

Definition plain_py_str (v : pyval Z) : string :=
  match v with
  | PStr s => s
  | PNone => "None"
  | PBool true => "True"
  | PBool false => "False"
  | _ => "<object>"
  end.

#[export] Instance Z_runtime : PyRuntime Z := {|
  float_of_Z z := Some z;
  float_of_string _ := None;
  float_is_zero z := (z =? 0)%Z;
  py_str := plain_py_str;
  py_str_PStr := fun s => eq_refl
|}.

(** A streaming fragment [{"choices": [{"text": s}]}]. *)
Definition text_fragment (s : string) : pyval Z :=
  PDict {[ "choices" := PList [PDict {[ "text" := PStr s ]}] ]}.

(** [{"choices": [5]}]: the first choice is not a mapping. *)
Definition bad_choice_fragment : pyval Z :=
  PDict {[ "choices" := PList [PInt 5] ]}.

(** [{"choices": []}] *)
Definition no_choice_fragment : pyval Z :=
  PDict {[ "choices" := PList [] ]}.

(** A model whose embedding of any text is [[1, 2]] and which streams
    [frags] whatever it is asked. *)
Definition sample_model (frags : list (pyval Z)) : model_handle Z :=
  {| create_embedding := fun _ =>
       Ok (PDict {[ "data" := PList [PDict {[ "embedding" := PList [PInt 1; PInt 2] ]}] ]});
     generate := fun _ _ => Ok (PList frags) |}.

Definition sample_client (frags : list (pyval Z)) : restful_client Z :=
  {| get_model := fun _ => Ok (sample_model frags) |}.

(** A cluster that answers the probe with [resp]; the non-blocking client
    cannot be built. *)
Definition sample_env (resp : http_response Z) : environment Z :=
  {| xinference_installed := false;
     xinference_client_installed := true;
     requests_get := fun _ => Ok resp;
     RESTfulClient := fun _ _ => Ok (sample_client []);
     AsyncRESTfulClient := fun _ _ => Raise (RuntimeError "no running event loop") |}.

Definition sample_llm (frags : list (pyval Z)) : Xinference.adapter Z :=
  {| Xinference.client := Some (sample_client frags);
     Xinference.async_client := Some (sample_client frags);
     Xinference.server_url := "http://0.0.0.0:9997";
     Xinference.model_uid := "orca";
     Xinference.model_kwargs := ∅;
     Xinference._headers := ∅;
     Xinference._cluster_authed := false |}.

Definition sample_embeddings : XinferenceEmbeddings.adapter Z :=
  {| XinferenceEmbeddings.client := Some (sample_client []);
     XinferenceEmbeddings.async_client := None;
     XinferenceEmbeddings.server_url := "http://0.0.0.0:9997";
     XinferenceEmbeddings.model_uid := "bge";
     XinferenceEmbeddings._headers := ∅;
     XinferenceEmbeddings._cluster_authed := false |}.

(** [generate_config={"stream": flag}] *)
Definition stream_kwargs (flag : bool) : gmap string (pyval Z) :=
  {[ "generate_config" := PDict {[ "stream" := PBool flag ]} ]}.

(** A model that answers embedding requests by [answer] and generate calls
    by [completion]. *)
Definition model_of (answer : string -> result (pyval Z)) (completion : result (pyval Z))
  : model_handle Z :=
  {| create_embedding := answer; generate := fun _ _ => completion |}.

Definition client_of (model : model_handle Z) : restful_client Z :=
  {| get_model := fun _ => Ok model |}.

(** An embeddings adapter whose two handles lead to [model]. *)
Definition embeddings_on (model : model_handle Z) : XinferenceEmbeddings.adapter Z :=
  {| XinferenceEmbeddings.client := Some (client_of model);
     XinferenceEmbeddings.async_client := Some (client_of model);
     XinferenceEmbeddings.server_url := "http://0.0.0.0:9997";
     XinferenceEmbeddings.model_uid := "bge";
     XinferenceEmbeddings._headers := ∅;
     XinferenceEmbeddings._cluster_authed := false |}.

(** A completion adapter whose two handles lead to [model]. *)
Definition llm_on (model : model_handle Z) : Xinference.adapter Z :=
  {| Xinference.client := Some (client_of model);
     Xinference.async_client := Some (client_of model);
     Xinference.server_url := "http://0.0.0.0:9997";
     Xinference.model_uid := "orca";
     Xinference.model_kwargs := ∅;
     Xinference._headers := ∅;
     Xinference._cluster_authed := false |}.

(** A completion adapter without handles. *)
Definition llm_without_handles : Xinference.adapter Z :=
  {| Xinference.client := None;
     Xinference.async_client := None;
     Xinference.server_url := "http://0.0.0.0:9997";
     Xinference.model_uid := "orca";
     Xinference.model_kwargs := ∅;
     Xinference._headers := ∅;
     Xinference._cluster_authed := false |}.

(** The answer [{"data": [{"embedding": e}]}]. *)
Definition embedding_answer (e : list (pyval Z)) : pyval Z :=
  PDict {[ "data" := PList [PDict {[ "embedding" := PList e ]}] ]}.

(** A cluster that answers the probe with [resp] and builds the
    non-blocking client as [async] says. *)
Definition env_of (resp : http_response Z) (async : result (restful_client Z))
  : environment Z :=
  {| xinference_installed := true;
     xinference_client_installed := false;
     requests_get := fun _ => Ok resp;
     RESTfulClient := fun _ _ => Ok (sample_client []);
     AsyncRESTfulClient := fun _ _ => async |}.

(** A host on which neither client package is installed. *)
Definition env_without_packages : environment Z :=
  {| xinference_installed := false;
     xinference_client_installed := false;
     requests_get := fun _ => Raise (ConnectionError "unreachable");
     RESTfulClient := fun _ _ => Ok (sample_client []);
     AsyncRESTfulClient := fun _ _ => Ok (sample_client []) |}.

(** A model that embeds every text as [e]. *)
Definition embedding_model (e : list (pyval Z)) : model_handle Z :=
  model_of (fun _ => Ok (embedding_answer e)) (Ok PNone).

(** A model whose connection drops on the text ["b"]. *)
Definition flaky_model : model_handle Z :=
  model_of (fun text => if String.eqb text "b"
                        then Raise (ConnectionError "connection reset")
                        else Ok (embedding_answer [PInt 1]))
           (Ok PNone).

(** A model whose embedding of the text ["b"] holds a [null]. *)
Definition null_model : model_handle Z :=
  model_of (fun text => if String.eqb text "b"
                        then Ok (embedding_answer [PNone])
                        else Ok (embedding_answer [PInt 1]))
           (Ok PNone).

(** A model that answers every generate call with [completion]. *)
Definition completion_model (completion : pyval Z) : model_handle Z :=
  model_of (fun _ => Raise (ConnectionError "not an embedding model")) (Ok completion).

(** The probe answer with status [status] and JSON body [body]. *)
Definition answer_of (status : Z) (body : gmap string (pyval Z)) : http_response Z :=
  {| status_code := status; json := Ok (PDict body) |}.

(** [{"choices": [{"text": null}]}] *)
Definition null_text_fragment : pyval Z :=
  PDict {[ "choices" := PList [PDict {[ "text" := PNone ]}] ]}.

(** The chunk made from [text_fragment s]: the text, and a metadata mapping
    whose two entries are [None]. *)
Definition text_chunk (s : string) : Xinference.GenerationChunk Z :=
  {| Xinference.text := s;
     Xinference.generation_info :=
       Some (<[ "finish_reason" := PNone ]> (<[ "logprobs" := PNone ]> ∅)) |}.
(** * Properties *)

Section Properties.
Context {F : Type} `{PyRuntime F}.

Implicit Types (env : environment F) (resp : http_response F).
Implicit Types (model : model_handle F) (v : pyval F).

(** The collaborators needed to build an adapter are available: one of the
    two client packages imports, the probe of [url ++ "/v1/cluster/auth"]
    is answered by [resp], the blocking client is built and the
    non-blocking one is built or fails with [RuntimeError]. *)
Definition buildable env (url : string) (api_key : option string) resp : Prop :=
  xinference_installed env || xinference_client_installed env = true
  /\ requests_get env (url +:+ "/v1/cluster/auth") = Ok resp
  /\ (exists c, RESTfulClient env url api_key = Ok c)
  /\ match AsyncRESTfulClient env url api_key with
     | Ok _ | Raise (RuntimeError _) => True
     | Raise _ => False
     end.

(** The computation [m] ends normally with an adapter whose header table
    is [h]. *)
Definition built_with {A} (headers : A -> gmap string string) (m : M F A)
    (h : gmap string string) : Prop :=
  exists self, m.2 = Ok self /\ headers self = h.



(** The blank instance on which [__init__] runs the probe. *)
Definition emb_blank (url uid : string) : XinferenceEmbeddings.adapter F :=
  {| XinferenceEmbeddings.client := None;
     XinferenceEmbeddings.async_client := None;
     XinferenceEmbeddings.server_url := url;
     XinferenceEmbeddings.model_uid := uid;
     XinferenceEmbeddings._headers := ∅;
     XinferenceEmbeddings._cluster_authed := false |}.

Definition llm_blank (url uid : string) (kw : gmap string (pyval F)) : Xinference.adapter F :=
  {| Xinference.client := None;
     Xinference.async_client := None;
     Xinference.server_url := url;
     Xinference.model_uid := uid;
     Xinference.model_kwargs := if py_truthy (PDict kw) then kw else ∅;
     Xinference._headers := ∅;
     Xinference._cluster_authed := false |}.

(** The header table [__init__] leaves behind once the probe has decided
    [authed]. *)
Definition headers_after (authed : bool) (api_key : option string) : gmap string string :=
  match api_key with
  | Some key => if authed then {[ "Authorization" := "Bearer " +:+ key ]} else ∅
  | None => ∅
  end.

(** The handle stored in an attribute answers [get_model uid] with [model]. *)
Definition serves (handle : option (restful_client F)) (uid : string) model : Prop :=
  exists c, handle = Some c /\ get_model c uid = Ok model.

(** The remote generate calls among the recorded events, with the options
    each one received. *)
Fixpoint generate_calls (evs : list (event F)) : list (string * gmap string (pyval F)) :=
  match evs with
  | [] => []
  | EvGenerate prompt cfg :: rest => (prompt, cfg) :: generate_calls rest
  | _ :: rest => generate_calls rest
  end.

(** The texts sent to the remote embedding call, in order. *)
Fixpoint embedding_calls (evs : list (event F)) : list string :=
  match evs with
  | [] => []
  | EvCreateEmbedding text :: rest => text :: embedding_calls rest
  | _ :: rest => embedding_calls rest
  end.

(** The remote answer [r] has the documented shape
    [{"data": [{"embedding": e}, ...], ...}]. *)
Definition has_embedding (r : pyval F) (e : list (pyval F)) : Prop :=
  exists d item others,
    r = PDict d /\ d !! "data" = Some (PList (PDict item :: others))
    /\ item !! "embedding" = Some (PList e).

(** The numbers [e] convert, one by one, to the floats [fs]. *)
Definition floats_of (e : list (pyval F)) (fs : list F) : Prop :=
  Forall2 (fun x f => py_float x = Ok f) e fs.

(** The streaming fragment [frag] is a mapping whose ["choices"] list
    starts with a mapping whose ["text"] is the string [s]. *)
Definition first_choice_text (frag : pyval F) (s : string) : Prop :=
  exists d choice others,
    frag = PDict d /\ d !! "choices" = Some (PList (PDict choice :: others))
    /\ choice !! "text" = Some (PStr s).

(** The fragment is a mapping whose ["choices"] list is non-empty and
    starts with something that is not a mapping. *)
Definition first_choice_not_mapping (frag : pyval F) : Prop :=
  exists d c others,
    frag = PDict d /\ d !! "choices" = Some (PList (c :: others))
    /\ (forall m, c <> PDict m).

(** The fragment is a mapping that contains a ["choices"] key with an empty
    list. *)
Definition empty_choices (frag : pyval F) : Prop :=
  exists d, frag = PDict d /\ d !! "choices" = Some (PList []).

(** The caller passed [g] as [generate_config], or passed none and [g] is
    empty. *)
Definition call_config (kwargs : gmap string (pyval F)) (g : gmap string (pyval F)) : Prop :=
  dict_get kwargs "generate_config" (PDict ∅) = PDict g.

(** The chunk a fragment with empty choices is turned into. *)
Definition empty_chunk : Xinference.GenerationChunk F :=
  {| Xinference.text := EmptyString; Xinference.generation_info := None |}.

Fixpoint concat_strings (l : list string) : string :=
  match l with
  | [] => EmptyString
  | s :: rest => s +:+ concat_strings rest
  end.


(** The options of a plain call: defaults, then the caller's
    [generate_config], then the explicit stop list. *)
Definition call_options (self : Xinference.adapter F) (g : gmap string (pyval F))
    (stop : option (list string)) : gmap string (pyval F) :=
  Xinference.with_stop stop (g ∪ Xinference.model_kwargs self).

(** A plain call through [handle] whose merged options have a truthy
    ["stream"] flag and to which the remote streams the fragments [frags]. *)
Definition plain_streams (self : Xinference.adapter F) (handle : option (restful_client F))
    (prompt : string) (stop : option (list string)) (kwargs : gmap string (pyval F))
    (frags : list (pyval F)) : Prop :=
  exists model g,
    serves handle (Xinference.model_uid self) model
    /\ call_config kwargs g
    /\ py_truthy (dict_get (call_options self g stop) "stream" PNone) = true
    /\ generate model prompt (call_options self g stop) = Ok (PList frags).

(** A chunk-streaming call through [handle] to which the remote streams the
    events [events]. *)
Definition streams (self : Xinference.adapter F) (handle : option (restful_client F))
    (prompt : string) (stop : option (list string)) (kwargs : gmap string (pyval F))
    (events : list (pyval F)) : Prop :=
  exists model g,
    serves handle (Xinference.model_uid self) model
    /\ call_config kwargs g
    /\ generate model prompt (Xinference.force_stream (call_options self g stop))
       = Ok (PList events).

(** The entry under [key] that the merge of §4.3 prescribes: the explicit
    stop list under ["stop"] when one is supplied, otherwise the caller's
    entry, otherwise the default. *)
Definition expected_option (defaults g : gmap string (pyval F))
    (stop : option (list string)) (key : string) : option (pyval F) :=
  let merged := match g !! key with
                | Some v => Some v
                | None => defaults !! key
                end in
  match stop with
  | Some (s :: l) => if decide (key = "stop") then Some (PList (PStr <$> s :: l)) else merged
  | _ => merged
  end.


(** What the body of [_stream] and [_astream] does once the handle has
    produced [model]. *)
Definition stream_body_after (model : model_handle F) (prompt : string)
    (run_manager : bool) (opts : gmap string (pyval F)) : gen F (Xinference.GenerationChunk F) :=
  response <~ call (EvGenerate prompt opts) (generate model prompt opts);;
  events <~ lift (py_iter response);;
  Xinference.stream_loop run_manager events.

(** What the body of [_call] and [_acall] does once the handle has produced
    [model], with [stream_generate] standing for [_stream_generate] or
    [_astream_generate]. *)
Definition call_body_after
    (stream_generate : model_handle F -> string -> bool -> gmap string (pyval F)
                       -> gen F (pyval F))
    (model : model_handle F) (prompt : string)
    (run_manager : bool) (opts : gmap string (pyval F)) : M F (pyval F) :=
  if py_truthy (PDict opts) && py_truthy (dict_get opts "stream" PNone)
  then
    combined_text_output <-
      for_each (stream_generate model prompt run_manager opts) py_str_add EmptyString;;
    mret (PStr combined_text_output)
  else
    completion <- call (EvGenerate prompt opts) (generate model prompt opts);;
    lift (rbind (py_getitem completion "choices") (fun choices =>
          rbind (py_getitem0 choices) (fun choice =>
          py_getitem choice "text"))).


(** The tokens handed to the progress observer, in order. *)
Fixpoint notified_tokens (evs : list (event F)) : list (pyval F) :=
  match evs with
  | [] => []
  | EvNewToken token _ :: rest => token :: notified_tokens rest
  | _ :: rest => notified_tokens rest
  end.

(** The header table of an instance that was given [api_key] and found
    [authed]. *)
Definition emb_with_header (self : XinferenceEmbeddings.adapter F) (api_key : option string)
  : XinferenceEmbeddings.adapter F :=
  match api_key with
  | Some key =>
      if XinferenceEmbeddings._cluster_authed self
      then XinferenceEmbeddings.set_header self "Authorization" ("Bearer " +:+ key)
      else self
  | None => self
  end.

Definition llm_with_header (self : Xinference.adapter F) (api_key : option string)
  : Xinference.adapter F :=
  match api_key with
  | Some key =>
      if Xinference._cluster_authed self
      then Xinference.set_header self "Authorization" ("Bearer " +:+ key)
      else self
  | None => self
  end.

(** One embedding request: the remote call and the extraction of
    [["data"][0]["embedding"]] from its answer. *)
Definition embedding_request (model : model_handle F) (text : string) : result (pyval F) :=
  rbind (create_embedding model text) XinferenceEmbeddings.embedding_of_response.

(** The probe of [url] ends normally. *)
Definition probe_passes (env : environment F) (url : string) : Prop :=
  exists resp,
    requests_get env (url +:+ "/v1/cluster/auth") = Ok resp
    /\ (status_code resp = 404%Z
        \/ status_code resp = 200%Z
           /\ exists body auth, json resp = Ok (PDict body) /\ body !! "auth" = Some auth).

(** Everything [__init__] needs is in place: a client package imports,
    the probe of [url] ends normally, the blocking client is built and the
    non-blocking one is built or fails with [RuntimeError]. *)
Definition constructible (env : environment F) (url : string) (api_key : option string)
  : Prop :=
  xinference_installed env || xinference_client_installed env = true
  /\ probe_passes env url
  /\ (exists c, RESTfulClient env url api_key = Ok c)
  /\ match AsyncRESTfulClient env url api_key with
     | Ok _ | Raise (RuntimeError _) => True
     | Raise _ => False
     end.

(** The first comprehension of [embed_documents]: one request per text, in
    order, until one fails. *)
Definition embedding_requests (model : model_handle F) (texts : list string)
  : M F (list (pyval F)) :=
  mmap_list (fun text =>
      r <- call (EvCreateEmbedding text) (create_embedding model text);;
      lift (XinferenceEmbeddings.embedding_of_response r)) texts.

(** [completion["choices"][0]["text"]] *)
Definition completion_text (completion : pyval F) : result (pyval F) :=
  rbind (py_getitem completion "choices") (fun choices =>
  rbind (py_getitem0 choices) (fun choice =>
  py_getitem choice "text")).

(** The message of the [TypeError] raised when [v] is unpacked with [**]. *)
Definition not_a_mapping (v : pyval F) : string :=
  "'" +:+ py_type_name v +:+ "' object is not a mapping".
Lemma mbind_mret {A B} (a : A) (f : A -> M F B) : mbind (mret a) f = f a.
Proof. unfold mbind, mret. destruct (f a) as [evs r]. reflexivity. Qed.

Lemma mbind_ok {A B} evs (a : A) (f : A -> M F B) :
  mbind (evs, Ok a) f = (evs ++ (f a).1, (f a).2).
Proof. unfold mbind. destruct (f a) as [evs' r]. reflexivity. Qed.

Lemma mbind_raise {A B} evs e (f : A -> M F B) :
  mbind (evs, Raise e) f = (evs, Raise e).
Proof. reflexivity. Qed.

Lemma mbind_nil {A B} (a : A) (f : A -> M F B) : mbind ([], Ok a) f = f a.
Proof. apply mbind_mret. Qed.

Lemma import_clients_ok env :
  xinference_installed env || xinference_client_installed env = true ->
  import_clients env = mret tt.
Proof.
  unfold import_clients.
  destruct (xinference_installed env), (xinference_client_installed env);
    simpl; intros Hi; congruence.
Qed.

(** *** The authentication probe *)

Lemma emb_check_404 env (self : XinferenceEmbeddings.adapter F) resp :
  requests_get env (XinferenceEmbeddings.server_url self +:+ "/v1/cluster/auth") = Ok resp ->
  status_code resp = 404%Z ->
  XinferenceEmbeddings._check_cluster_authenticated env self
  = ([EvHttpGet (XinferenceEmbeddings.server_url self +:+ "/v1/cluster/auth")],
     Ok (XinferenceEmbeddings.set_cluster_authed self false)).
Proof.
  intros Hget Hst. unfold XinferenceEmbeddings._check_cluster_authenticated.
  rewrite Hget. simpl. rewrite Hst. reflexivity.
Qed.

Lemma emb_check_200 env (self : XinferenceEmbeddings.adapter F) resp body auth :
  requests_get env (XinferenceEmbeddings.server_url self +:+ "/v1/cluster/auth") = Ok resp ->
  status_code resp = 200%Z ->
  json resp = Ok body ->
  py_getitem body "auth" = Ok auth ->
  XinferenceEmbeddings._check_cluster_authenticated env self
  = ([EvHttpGet (XinferenceEmbeddings.server_url self +:+ "/v1/cluster/auth")],
     Ok (XinferenceEmbeddings.set_cluster_authed self (py_truthy auth))).
Proof.
  intros Hget Hst Hjs Hauth. unfold XinferenceEmbeddings._check_cluster_authenticated.
  rewrite Hget. simpl. rewrite Hst. simpl. rewrite Hjs. simpl. rewrite Hauth.
  reflexivity.
Qed.

Lemma emb_check_other env (self : XinferenceEmbeddings.adapter F) resp body detail :
  requests_get env (XinferenceEmbeddings.server_url self +:+ "/v1/cluster/auth") = Ok resp ->
  status_code resp <> 404%Z ->
  status_code resp <> 200%Z ->
  json resp = Ok body ->
  py_getitem body "detail" = Ok detail ->
  XinferenceEmbeddings._check_cluster_authenticated env self
  = ([EvHttpGet (XinferenceEmbeddings.server_url self +:+ "/v1/cluster/auth")],
     Raise (RuntimeError ("Failed to get cluster information, detail: " +:+ py_str detail))).
Proof.
  intros Hget H404 H200 Hjs Hdet. unfold XinferenceEmbeddings._check_cluster_authenticated.
  rewrite Hget. simpl.
  apply Z.eqb_neq in H404. apply Z.eqb_neq in H200. rewrite H404, H200. simpl.
  rewrite Hjs. simpl. rewrite Hdet. reflexivity.
Qed.

Lemma llm_check_404 env (self : Xinference.adapter F) resp :
  requests_get env (Xinference.server_url self +:+ "/v1/cluster/auth") = Ok resp ->
  status_code resp = 404%Z ->
  Xinference._check_cluster_authenticated env self
  = ([EvHttpGet (Xinference.server_url self +:+ "/v1/cluster/auth")],
     Ok (Xinference.set_cluster_authed self false)).
Proof.
  intros Hget Hst. unfold Xinference._check_cluster_authenticated.
  rewrite Hget. simpl. rewrite Hst. reflexivity.
Qed.

Lemma llm_check_200 env (self : Xinference.adapter F) resp body auth :
  requests_get env (Xinference.server_url self +:+ "/v1/cluster/auth") = Ok resp ->
  status_code resp = 200%Z ->
  json resp = Ok body ->
  py_getitem body "auth" = Ok auth ->
  Xinference._check_cluster_authenticated env self
  = ([EvHttpGet (Xinference.server_url self +:+ "/v1/cluster/auth")],
     Ok (Xinference.set_cluster_authed self (py_truthy auth))).
Proof.
  intros Hget Hst Hjs Hauth. unfold Xinference._check_cluster_authenticated.
  rewrite Hget. simpl. rewrite Hst. simpl. rewrite Hjs. simpl. rewrite Hauth.
  reflexivity.
Qed.

Lemma llm_check_other env (self : Xinference.adapter F) resp body detail :
  requests_get env (Xinference.server_url self +:+ "/v1/cluster/auth") = Ok resp ->
  status_code resp <> 404%Z ->
  status_code resp <> 200%Z ->
  json resp = Ok body ->
  py_getitem body "detail" = Ok detail ->
  Xinference._check_cluster_authenticated env self
  = ([EvHttpGet (Xinference.server_url self +:+ "/v1/cluster/auth")],
     Raise (RuntimeError ("Failed to get cluster information, detail: " +:+ py_str detail))).
Proof.
  intros Hget H404 H200 Hjs Hdet. unfold Xinference._check_cluster_authenticated.
  rewrite Hget. simpl.
  apply Z.eqb_neq in H404. apply Z.eqb_neq in H200. rewrite H404, H200. simpl.
  rewrite Hjs. simpl. rewrite Hdet. reflexivity.
Qed.


(** *** Construction *)

Lemma emb_init_missing env server_url model_uid api_key :
  xinference_installed env || xinference_client_installed env = true ->
  server_url = None \/ model_uid = None ->
  XinferenceEmbeddings.__init__ env server_url model_uid api_key
  = ([], Raise (ValueError (match server_url with
                            | None => "Please provide server URL"
                            | Some _ => "Please provide the model UID"
                            end))).
Proof.
  intros Hi Hm. unfold XinferenceEmbeddings.__init__.
  rewrite (import_clients_ok _ Hi). simpl.
  destruct server_url as [url|]; [|reflexivity].
  destruct model_uid as [uid|]; [|reflexivity].
  destruct Hm; discriminate.
Qed.

Lemma llm_init_missing env server_url model_uid api_key kw :
  xinference_installed env || xinference_client_installed env = true ->
  server_url = None \/ model_uid = None ->
  Xinference.__init__ env server_url model_uid api_key kw
  = ([], Raise (ValueError (match server_url with
                            | None => "Please provide server URL"
                            | Some _ => "Please provide the model UID"
                            end))).
Proof.
  intros Hi Hm. unfold Xinference.__init__.
  rewrite (import_clients_ok _ Hi). simpl.
  destruct server_url as [url|]; [|reflexivity].
  destruct model_uid as [uid|]; [|reflexivity].
  destruct Hm; discriminate.
Qed.

Lemma emb_init_probe_ok env url uid api_key resp evs self1 :
  buildable env url api_key resp ->
  XinferenceEmbeddings._check_cluster_authenticated env (emb_blank url uid) = (evs, Ok self1) ->
  XinferenceEmbeddings._headers self1 = ∅ ->
  built_with XinferenceEmbeddings._headers
    (XinferenceEmbeddings.__init__ env (Some url) (Some uid) api_key)
    (headers_after (XinferenceEmbeddings._cluster_authed self1) api_key).
Proof.
  intros (Hi & _ & [c Hc] & Ha) Hprobe Hh.
  unfold built_with, XinferenceEmbeddings.__init__.
  rewrite (import_clients_ok _ Hi). simpl.
  fold (emb_blank url uid). rewrite Hprobe. simpl. rewrite Hc. simpl.
  destruct (AsyncRESTfulClient env url api_key) as [a|e]; simpl.
  - eexists; split; [reflexivity|].
    unfold headers_after. destruct api_key as [key|]; simpl; [|exact Hh].
    destruct (XinferenceEmbeddings._cluster_authed self1); simpl; [|exact Hh].
    rewrite Hh. reflexivity.
  - destruct e; try contradiction. simpl.
    eexists; split; [reflexivity|].
    unfold headers_after. destruct api_key as [key|]; simpl; [|exact Hh].
    destruct (XinferenceEmbeddings._cluster_authed self1); simpl; [|exact Hh].
    rewrite Hh. reflexivity.
Qed.

Lemma emb_init_probe_raise env url uid api_key evs e :
  xinference_installed env || xinference_client_installed env = true ->
  XinferenceEmbeddings._check_cluster_authenticated env (emb_blank url uid) = (evs, Raise e) ->
  XinferenceEmbeddings.__init__ env (Some url) (Some uid) api_key = (evs, Raise e).
Proof.
  intros Hi Hprobe. unfold XinferenceEmbeddings.__init__.
  rewrite (import_clients_ok _ Hi). simpl.
  fold (emb_blank url uid). rewrite Hprobe. reflexivity.
Qed.

Lemma llm_init_probe_ok env url uid api_key kw resp evs self1 :
  buildable env url api_key resp ->
  Xinference._check_cluster_authenticated env (llm_blank url uid kw) = (evs, Ok self1) ->
  Xinference._headers self1 = ∅ ->
  built_with Xinference._headers
    (Xinference.__init__ env (Some url) (Some uid) api_key kw)
    (headers_after (Xinference._cluster_authed self1) api_key).
Proof.
  intros (Hi & _ & [c Hc] & Ha) Hprobe Hh.
  unfold built_with, Xinference.__init__.
  rewrite (import_clients_ok _ Hi), mbind_mret. cbv beta zeta.
  fold (llm_blank url uid kw). rewrite Hprobe. simpl. rewrite Hc. simpl.
  destruct (AsyncRESTfulClient env url api_key) as [a|e]; simpl.
  - eexists; split; [reflexivity|].
    unfold headers_after. destruct api_key as [key|]; simpl; [|exact Hh].
    destruct (Xinference._cluster_authed self1); simpl; [|exact Hh].
    rewrite Hh. reflexivity.
  - destruct e; try contradiction. simpl.
    eexists; split; [reflexivity|].
    unfold headers_after. destruct api_key as [key|]; simpl; [|exact Hh].
    destruct (Xinference._cluster_authed self1); simpl; [|exact Hh].
    rewrite Hh. reflexivity.
Qed.

Lemma llm_init_probe_raise env url uid api_key kw evs e :
  xinference_installed env || xinference_client_installed env = true ->
  Xinference._check_cluster_authenticated env (llm_blank url uid kw) = (evs, Raise e) ->
  Xinference.__init__ env (Some url) (Some uid) api_key kw = (evs, Raise e).
Proof.
  intros Hi Hprobe. unfold Xinference.__init__.
  rewrite (import_clients_ok _ Hi), mbind_mret. cbv beta zeta.
  fold (llm_blank url uid kw). rewrite Hprobe. reflexivity.
Qed.

(** *** Claims about construction *)

(** C7. Building either adapter without a server URL, without a model UID,
    or without both, fails with the configuration error [ValueError] before
    any collaborator is contacted. *)
Theorem init_without_url_or_uid_fails env server_url model_uid api_key kw :
  xinference_installed env || xinference_client_installed env = true ->
  server_url = None \/ model_uid = None ->
  (exists msg, XinferenceEmbeddings.__init__ env server_url model_uid api_key
               = ([], Raise (ValueError msg)))
  /\ (exists msg, Xinference.__init__ env server_url model_uid api_key kw
                  = ([], Raise (ValueError msg))).
Proof.
  intros Hi Hm. split; eexists.
  - apply emb_init_missing; assumption.
  - apply llm_init_missing; assumption.
Qed.

(** C6. Once an adapter is buildable, the header table it ends with is
    decided by the probe: empty after a 404 even with an API key; the bearer
    header after a 200 answer with [auth = true] and an API key; empty after
    a 200 answer with [auth = false], with or without an API key. *)
Theorem bearer_header_follows_probe env url uid api_key kw resp :
  buildable env url api_key resp ->
  (status_code resp = 404%Z ->
     built_with XinferenceEmbeddings._headers
       (XinferenceEmbeddings.__init__ env (Some url) (Some uid) api_key) ∅
     /\ built_with Xinference._headers
          (Xinference.__init__ env (Some url) (Some uid) api_key kw) ∅)
  /\ (forall body key,
        status_code resp = 200%Z -> json resp = Ok (PDict body) ->
        body !! "auth" = Some (PBool true) -> api_key = Some key ->
        built_with XinferenceEmbeddings._headers
          (XinferenceEmbeddings.__init__ env (Some url) (Some uid) api_key)
          {[ "Authorization" := "Bearer " +:+ key ]}
        /\ built_with Xinference._headers
             (Xinference.__init__ env (Some url) (Some uid) api_key kw)
             {[ "Authorization" := "Bearer " +:+ key ]})
  /\ (forall body,
        status_code resp = 200%Z -> json resp = Ok (PDict body) ->
        body !! "auth" = Some (PBool false) ->
        built_with XinferenceEmbeddings._headers
          (XinferenceEmbeddings.__init__ env (Some url) (Some uid) api_key) ∅
        /\ built_with Xinference._headers
             (Xinference.__init__ env (Some url) (Some uid) api_key kw) ∅).
Proof.
  intros Hb. pose proof Hb as (Hi & Hget & _).
  split; [|split].
  - intros Hst. split.
    + pose proof (emb_init_probe_ok env url uid api_key resp _ _ Hb
                    (emb_check_404 env (emb_blank url uid) resp Hget Hst) eq_refl) as Hk.
      simpl in Hk. destruct api_key; exact Hk.
    + pose proof (llm_init_probe_ok env url uid api_key kw resp _ _ Hb
                    (llm_check_404 env (llm_blank url uid kw) resp Hget Hst) eq_refl) as Hk.
      simpl in Hk. destruct api_key; exact Hk.
  - intros body key Hst Hjs Hauth ->.
    assert (Hg : py_getitem (PDict body) "auth" = Ok (PBool true))
      by (simpl; rewrite Hauth; reflexivity).
    split.
    + exact (emb_init_probe_ok env url uid (Some key) resp _ _ Hb
               (emb_check_200 env (emb_blank url uid) resp _ _ Hget Hst Hjs Hg) eq_refl).
    + exact (llm_init_probe_ok env url uid (Some key) kw resp _ _ Hb
               (llm_check_200 env (llm_blank url uid kw) resp _ _ Hget Hst Hjs Hg) eq_refl).
  - intros body Hst Hjs Hauth.
    assert (Hg : py_getitem (PDict body) "auth" = Ok (PBool false))
      by (simpl; rewrite Hauth; reflexivity).
    split.
    + pose proof (emb_init_probe_ok env url uid api_key resp _ _ Hb
                    (emb_check_200 env (emb_blank url uid) resp _ _ Hget Hst Hjs Hg) eq_refl) as Hk.
      simpl in Hk. destruct api_key; exact Hk.
    + pose proof (llm_init_probe_ok env url uid api_key kw resp _ _ Hb
                    (llm_check_200 env (llm_blank url uid kw) resp _ _ Hget Hst Hjs Hg) eq_refl) as Hk.
      simpl in Hk. destruct api_key; exact Hk.
Qed.

(** C5, amended. When the probe answers with a status that is neither 404
    nor 200 and a JSON body that has a ["detail"] field, building either
    adapter fails with [RuntimeError] whose message ends with that detail.
    A 404 answer never makes the probe raise, and neither does a 200 answer
    whose JSON body has an ["auth"] field. *)
Theorem auth_probe_outcomes env url uid api_key kw resp :
  xinference_installed env || xinference_client_installed env = true ->
  requests_get env (url +:+ "/v1/cluster/auth") = Ok resp ->
  (forall body detail,
      status_code resp <> 404%Z -> status_code resp <> 200%Z ->
      json resp = Ok (PDict body) -> body !! "detail" = Some detail ->
      (XinferenceEmbeddings.__init__ env (Some url) (Some uid) api_key).2
      = Raise (RuntimeError ("Failed to get cluster information, detail: " +:+ py_str detail))
      /\ (Xinference.__init__ env (Some url) (Some uid) api_key kw).2
         = Raise (RuntimeError ("Failed to get cluster information, detail: " +:+ py_str detail)))
  /\ (status_code resp = 404%Z ->
      is_raise (XinferenceEmbeddings._check_cluster_authenticated env (emb_blank url uid)).2 = false
      /\ is_raise (Xinference._check_cluster_authenticated env (llm_blank url uid kw)).2 = false)
  /\ (forall body auth,
      status_code resp = 200%Z ->
      json resp = Ok (PDict body) -> body !! "auth" = Some auth ->
      is_raise (XinferenceEmbeddings._check_cluster_authenticated env (emb_blank url uid)).2 = false
      /\ is_raise (Xinference._check_cluster_authenticated env (llm_blank url uid kw)).2 = false).
Proof.
  intros Hi Hget. split; [|split].
  - intros body detail H404 H200 Hjs Hdet.
    assert (Hg : py_getitem (PDict body) "detail" = Ok detail)
      by (simpl; rewrite Hdet; reflexivity).
    split.
    + rewrite (emb_init_probe_raise env url uid api_key _ _ Hi
                 (emb_check_other env (emb_blank url uid) resp _ _ Hget H404 H200 Hjs Hg)).
      reflexivity.
    + rewrite (llm_init_probe_raise env url uid api_key kw _ _ Hi
                 (llm_check_other env (llm_blank url uid kw) resp _ _ Hget H404 H200 Hjs Hg)).
      reflexivity.
  - intros Hst. split.
    + rewrite (emb_check_404 env (emb_blank url uid) resp Hget Hst). reflexivity.
    + rewrite (llm_check_404 env (llm_blank url uid kw) resp Hget Hst). reflexivity.
  - intros body auth Hst Hjs Hauth.
    assert (Hg : py_getitem (PDict body) "auth" = Ok auth)
      by (simpl; rewrite Hauth; reflexivity).
    split.
    + rewrite (emb_check_200 env (emb_blank url uid) resp _ _ Hget Hst Hjs Hg). reflexivity.
    + rewrite (llm_check_200 env (llm_blank url uid kw) resp _ _ Hget Hst Hjs Hg). reflexivity.
Qed.

(** *** Asynchronous operations without a non-blocking handle *)

(** The guard of [Xinference._acall] and [Xinference._astream]. *)
Lemma llm_async_guard (self : Xinference.adapter F) prompt stop run_manager kwargs g :
  Xinference.async_client self = None ->
  call_config kwargs g ->
  Xinference._acall self prompt stop run_manager kwargs
  = ([], Raise (ValueError "Client is not initialized!"))
  /\ Xinference._astream self prompt stop run_manager kwargs
     = GRaise [] (ValueError "Client is not initialized!").
Proof.
  intros Hnone Hcfg. unfold Xinference._acall, Xinference._astream.
  rewrite Hnone. split; [reflexivity|].
  unfold call_config in Hcfg. rewrite Hcfg. reflexivity.
Qed.

(** [aembed_documents] and [aembed_query] have no such guard: with
    [async_client] stored as [None] the attribute access raises
    [AttributeError]. *)
Lemma embeddings_async_unguarded (self : XinferenceEmbeddings.adapter F) texts text :
  XinferenceEmbeddings.async_client self = None ->
  XinferenceEmbeddings.aembed_documents self texts
  = ([], Raise (AttributeError "'NoneType' object has no attribute 'get_model'"))
  /\ XinferenceEmbeddings.aembed_query self text
     = ([], Raise (AttributeError "'NoneType' object has no attribute 'get_model'")).
Proof.
  intros Hnone. unfold XinferenceEmbeddings.aembed_documents, XinferenceEmbeddings.aembed_query.
  rewrite Hnone. split; reflexivity.
Qed.

(** *** Embedding documents *)

Lemma has_embedding_extract (r : pyval F) e :
  has_embedding r e -> XinferenceEmbeddings.embedding_of_response r = Ok (PList e).
Proof.
  intros (d & item & others & -> & Hdata & Hemb).
  unfold XinferenceEmbeddings.embedding_of_response. simpl.
  rewrite Hdata. simpl. rewrite Hemb. reflexivity.
Qed.

Lemma floats_of_run e fs : floats_of e fs -> rmap_list py_float e = Ok fs.
Proof.
  induction 1 as [|x f e fs Hx _ IH]; simpl; [reflexivity|].
  rewrite Hx. simpl. rewrite IH. reflexivity.
Qed.

Lemma float_lists_run (embs : list (list (pyval F))) vecs :
  Forall2 floats_of embs vecs ->
  rmap_list XinferenceEmbeddings.float_list (PList <$> embs) = Ok vecs.
Proof.
  induction 1 as [|e fs embs vecs He _ IH]; [reflexivity|].
  change (rmap_list XinferenceEmbeddings.float_list (PList <$> e :: embs))
    with (rbind (XinferenceEmbeddings.float_list (PList e)) (fun y =>
          rbind (rmap_list XinferenceEmbeddings.float_list (PList <$> embs)) (fun ys =>
          Ok (y :: ys)))).
  rewrite IH. unfold XinferenceEmbeddings.float_list. simpl.
  rewrite (floats_of_run _ _ He). reflexivity.
Qed.

Lemma embedding_requests_run model (texts : list string) embs :
  Forall2 (fun t e => exists r, create_embedding model t = Ok r /\ has_embedding r e)
          texts embs ->
  mmap_list (F:=F) (fun text =>
      r <- call (EvCreateEmbedding text) (create_embedding model text);;
      lift (XinferenceEmbeddings.embedding_of_response r)) texts
  = (EvCreateEmbedding <$> texts, Ok (PList <$> embs)).
Proof.
  induction 1 as [|t e texts embs (r & Hr & He) _ IH]; [reflexivity|].
  cbn [mmap_list]. rewrite IH, Hr. unfold call, lift. cbn [mbind].
  rewrite (has_embedding_extract _ _ He). simpl. rewrite app_nil_r. reflexivity.
Qed.

(** C8. When the remote answers every text with a well-shaped embedding
    whose numbers convert to floats, [embed_documents] sends exactly one
    embedding request per text, in input order and nothing else after
    fetching the model, and returns the converted embeddings in the same
    order, one per text. *)
Theorem embed_documents_one_call_per_text
    (self : XinferenceEmbeddings.adapter F) model (texts : list string) embs vecs :
  serves (XinferenceEmbeddings.client self) (XinferenceEmbeddings.model_uid self) model ->
  Forall2 (fun t e => exists r, create_embedding model t = Ok r /\ has_embedding r e)
          texts embs ->
  Forall2 floats_of embs vecs ->
  XinferenceEmbeddings.embed_documents self texts
  = (EvGetModel (XinferenceEmbeddings.model_uid self) :: (EvCreateEmbedding <$> texts),
     Ok vecs)
  /\ embedding_calls (XinferenceEmbeddings.embed_documents self texts).1 = texts
  /\ length vecs = length texts.
Proof.
  intros (c & Hc & Hm) Hreq Hfl.
  assert (Hrun : XinferenceEmbeddings.embed_documents self texts
                 = (EvGetModel (XinferenceEmbeddings.model_uid self)
                      :: (EvCreateEmbedding <$> texts), Ok vecs)).
  { unfold XinferenceEmbeddings.embed_documents, call_get_model. rewrite Hc.
    rewrite Hm. unfold call at 1. rewrite mbind_ok.
    rewrite (embedding_requests_run _ _ _ Hreq), mbind_ok.
    unfold lift. rewrite (float_lists_run _ _ Hfl). simpl.
    rewrite app_nil_r. reflexivity. }
  split; [exact Hrun|]. split.
  - rewrite Hrun. simpl. clear. induction texts as [|t texts IH]; simpl; [reflexivity|].
    f_equal. exact IH.
  - apply Forall2_length in Hreq. apply Forall2_length in Hfl. congruence.
Qed.

(** *** Strings, truthiness, generators *)

Lemma string_append_assoc (a b c : string) : (a +:+ b) +:+ c = a +:+ (b +:+ c).
Proof.
  induction a as [|x a IH]; [reflexivity|].
  change (String x ((a +:+ b) +:+ c) = String x (a +:+ (b +:+ c))).
  f_equal. exact IH.
Qed.

Lemma string_append_nil_r (a : string) : a +:+ EmptyString = a.
Proof.
  induction a as [|x a IH]; [reflexivity|].
  change (String x (a +:+ EmptyString) = String x a).
  f_equal. exact IH.
Qed.

Lemma dict_truthy_lookup (d : gmap string (pyval F)) k v :
  d !! k = Some v -> py_truthy (PDict d) = true.
Proof.
  intros Hk. simpl. destruct (bool_decide (size d = 0)) eqn:E; [|reflexivity].
  apply bool_decide_eq_true in E. apply map_size_empty_inv in E. subst d.
  rewrite lookup_empty in Hk. discriminate.
Qed.

Lemma dict_get_Some (d : gmap string (pyval F)) k v dflt :
  d !! k = Some v -> dict_get d k dflt = v.
Proof. intros Hk. unfold dict_get. rewrite Hk. reflexivity. Qed.

Lemma gen_yields_after {A} evs (g : gen F A) : gen_yields (gen_after evs g) = gen_yields g.
Proof. destruct g; reflexivity. Qed.

Lemma gen_error_after {A} evs (g : gen F A) : gen_error (gen_after evs g) = gen_error g.
Proof. destruct g; reflexivity. Qed.

Lemma gen_events_after {A} evs (g : gen F A) :
  gen_events (gen_after evs g) = evs ++ gen_events g.
Proof. destruct g; simpl; try reflexivity. rewrite app_assoc. reflexivity. Qed.

Lemma for_each_after {A S} evs (g : gen F A) (body : S -> A -> result S) acc :
  for_each (gen_after evs g) body acc
  = (evs ++ (for_each g body acc).1, (for_each g body acc).2).
Proof.
  destruct g as [evs'|evs' e|evs' a k]; simpl; try reflexivity.
  destruct (body acc a) as [acc'|e]; simpl; [|reflexivity].
  destruct (for_each k body acc') as [evs'' r]. simpl.
  rewrite app_assoc. reflexivity.
Qed.

Lemma generate_calls_app (l1 l2 : list (event F)) :
  generate_calls (l1 ++ l2) = generate_calls l1 ++ generate_calls l2.
Proof.
  induction l1 as [|ev l1 IH]; simpl; [reflexivity|].
  destruct ev; simpl; rewrite IH; reflexivity.
Qed.

Lemma for_each_no_generate {A S} (g : gen F A) (body : S -> A -> result S) acc :
  generate_calls (gen_events g) = [] ->
  generate_calls (for_each g body acc).1 = [].
Proof.
  revert acc. induction g as [evs|evs e|evs a k IH]; intros acc Hg; simpl in *;
    try assumption.
  rewrite generate_calls_app in Hg. apply app_eq_nil in Hg as [Hevs Hk].
  destruct (body acc a) as [acc'|e]; simpl; [|assumption].
  specialize (IH acc' Hk). destruct (for_each k body acc') as [evs' r]. simpl in *.
  rewrite generate_calls_app, Hevs, IH. reflexivity.
Qed.

(** *** Fragments *)

Lemma wf_fragment_truthy (frag : pyval F) s :
  first_choice_text frag s -> py_truthy frag = true.
Proof. intros (d & choice & others & -> & Hch & _). eapply dict_truthy_lookup, Hch. Qed.

Lemma wf_fragment_chunk (frag : pyval F) s :
  first_choice_text frag s ->
  exists info, Xinference._stream_response_to_generation_chunk frag
               = Ok {| Xinference.text := s; Xinference.generation_info := Some info |}.
Proof.
  intros (d & choice & others & -> & Hch & Htext).
  eexists. unfold Xinference._stream_response_to_generation_chunk.
  rewrite (dict_get_Some _ _ _ _ Hch). cbn [py_truthy length bool_decide].
  cbn [py_getitem0 rbind]. rewrite (dict_get_Some _ _ _ _ Htext).
  reflexivity.
Qed.

Lemma wf_fragment_generate_step (frag : pyval F) s run_manager rest :
  first_choice_text frag s ->
  exists evs, Xinference.generate_loop run_manager (frag :: rest)
              = GYield evs (PStr s) (Xinference.generate_loop run_manager rest).
Proof.
  intros (d & choice & others & -> & Hch & Htext).
  eexists. cbn [Xinference.generate_loop].
  rewrite (dict_get_Some _ _ _ _ Hch). cbn [py_truthy length bool_decide].
  cbn [py_getitem0]. rewrite (dict_get_Some _ _ _ _ Htext).
  reflexivity.
Qed.

Lemma not_mapping_fragment (frag : pyval F) :
  first_choice_not_mapping frag ->
  py_truthy frag = true
  /\ Xinference._stream_response_to_generation_chunk frag
     = Raise (TypeError "choice type error!")
  /\ forall run_manager rest,
       Xinference.generate_loop run_manager (frag :: rest)
       = Xinference.generate_loop run_manager rest.
Proof.
  intros (d & c & others & -> & Hch & Hc).
  split; [eapply dict_truthy_lookup, Hch|]. split.
  - unfold Xinference._stream_response_to_generation_chunk.
    rewrite (dict_get_Some _ _ _ _ Hch). cbn [py_truthy length bool_decide].
    cbn [py_getitem0 rbind].
    destruct c; try reflexivity. exfalso. eapply Hc. reflexivity.
  - intros run_manager rest. cbn [Xinference.generate_loop].
    rewrite (dict_get_Some _ _ _ _ Hch). cbn [py_truthy length bool_decide].
    cbn [py_getitem0].
    destruct c; try reflexivity. exfalso. eapply Hc. reflexivity.
Qed.

Lemma empty_choices_fragment (frag : pyval F) :
  empty_choices frag ->
  py_truthy frag = true
  /\ Xinference._stream_response_to_generation_chunk frag = Ok empty_chunk
  /\ forall run_manager rest,
       Xinference.generate_loop run_manager (frag :: rest)
       = Xinference.generate_loop run_manager rest.
Proof.
  intros (d & -> & Hch).
  split; [eapply dict_truthy_lookup, Hch|]. split.
  - unfold Xinference._stream_response_to_generation_chunk.
    rewrite (dict_get_Some _ _ _ _ Hch). reflexivity.
  - intros run_manager rest. cbn [Xinference.generate_loop].
    rewrite (dict_get_Some _ _ _ _ Hch). reflexivity.
Qed.

(** *** The two loops over well-formed fragments *)

Lemma stream_loop_wf_app run_manager (pre : list (pyval F)) texts rest :
  Forall2 first_choice_text pre texts ->
  exists chunks,
    Xinference.text <$> chunks = texts
    /\ gen_yields (Xinference.stream_loop run_manager (pre ++ rest))
       = chunks ++ gen_yields (Xinference.stream_loop run_manager rest)
    /\ gen_error (Xinference.stream_loop run_manager (pre ++ rest))
       = gen_error (Xinference.stream_loop run_manager rest).
Proof.
  induction 1 as [|frag s pre texts Hwf _ (chunks & Ht & Hy & He)].
  - exists []. repeat split.
  - destruct (wf_fragment_chunk _ _ Hwf) as [info Hconv].
    exists ({| Xinference.text := s; Xinference.generation_info := Some info |} :: chunks).
    change ((frag :: pre) ++ rest) with (frag :: (pre ++ rest)).
    cbn [Xinference.stream_loop].
    rewrite (wf_fragment_truthy _ _ Hwf), Hconv. cbn [gen_yields gen_error].
    rewrite Hy, He. repeat split. cbn. rewrite Ht. reflexivity.
Qed.

Lemma stream_loop_wf run_manager (frags : list (pyval F)) texts :
  Forall2 first_choice_text frags texts ->
  gen_error (Xinference.stream_loop run_manager frags) = None
  /\ Xinference.text <$> gen_yields (Xinference.stream_loop run_manager frags) = texts
  /\ length (gen_yields (Xinference.stream_loop run_manager frags)) = length frags.
Proof.
  intros Hwf.
  destruct (stream_loop_wf_app run_manager frags texts [] Hwf) as (chunks & Ht & Hy & He).
  rewrite app_nil_r in Hy, He. cbn in Hy, He. rewrite app_nil_r in Hy.
  rewrite Hy, He. repeat split; [exact Ht|].
  apply Forall2_length in Hwf. rewrite Hwf, <- Ht, length_fmap. reflexivity.
Qed.

Lemma generate_loop_wf_app run_manager (pre : list (pyval F)) texts rest acc :
  Forall2 first_choice_text pre texts ->
  (for_each (Xinference.generate_loop run_manager (pre ++ rest)) py_str_add acc).2
  = (for_each (Xinference.generate_loop run_manager rest) py_str_add
       (acc +:+ concat_strings texts)).2.
Proof.
  intros Hwf. revert acc.
  induction Hwf as [|frag s pre texts Hwf _ IH]; intros acc.
  - cbn [app concat_strings]. rewrite string_append_nil_r. reflexivity.
  - destruct (wf_fragment_generate_step _ _ run_manager (pre ++ rest) Hwf) as [evs Hstep].
    change ((frag :: pre) ++ rest) with (frag :: (pre ++ rest)).
    rewrite Hstep. cbn [for_each py_str_add]. rewrite mbind_ok. cbn [snd].
    rewrite IH. cbn [concat_strings]. rewrite string_append_assoc. reflexivity.
Qed.

Lemma generate_loop_wf run_manager (frags : list (pyval F)) texts acc :
  Forall2 first_choice_text frags texts ->
  (for_each (Xinference.generate_loop run_manager frags) py_str_add acc).2
  = Ok (acc +:+ concat_strings texts).
Proof.
  intros Hwf.
  pose proof (generate_loop_wf_app run_manager frags texts [] acc Hwf) as Hrun.
  rewrite app_nil_r in Hrun. exact Hrun.
Qed.

Lemma concat_strings_app (l1 l2 : list string) :
  concat_strings (l1 ++ l2) = concat_strings l1 +:+ concat_strings l2.
Proof.
  induction l1 as [|s l1 IH]; [reflexivity|].
  cbn [app concat_strings]. rewrite IH, string_append_assoc. reflexivity.
Qed.


Lemma stream_loop_no_generate run_manager (events : list (pyval F)) :
  generate_calls (gen_events (Xinference.stream_loop run_manager events)) = [].
Proof.
  induction events as [|ev events IH]; [reflexivity|].
  cbn [Xinference.stream_loop].
  destruct (py_truthy ev); [|exact IH].
  destruct (Xinference._stream_response_to_generation_chunk ev) as [chunk|e];
    [|reflexivity].
  cbn [gen_events]. rewrite generate_calls_app, IH.
  destruct run_manager; reflexivity.
Qed.

Lemma generate_loop_no_generate run_manager (chunks : list (pyval F)) :
  generate_calls (gen_events (Xinference.generate_loop run_manager chunks)) = [].
Proof.
  induction chunks as [|chunk chunks IH]; [reflexivity|].
  cbn [Xinference.generate_loop].
  destruct chunk; try exact IH.
  destruct (py_truthy (dict_get d "choices" (PList []))); [|exact IH].
  destruct (py_getitem0 (dict_get d "choices" (PList []))) as [c|e]; [|reflexivity].
  destruct c; try exact IH.
  cbn [gen_events]. rewrite generate_calls_app, IH.
  destruct run_manager; reflexivity.
Qed.

(** The chunks come out in the order of the events that are kept: all of
    them when every kept event converts. *)
Lemma stream_loop_all_convert run_manager (events : list (pyval F)) chunks :
  rmap_list Xinference._stream_response_to_generation_chunk (List.filter py_truthy events)
  = Ok chunks ->
  gen_yields (Xinference.stream_loop run_manager events) = chunks
  /\ gen_error (Xinference.stream_loop run_manager events) = None.
Proof.
  revert chunks. induction events as [|ev events IH]; intros chunks Hconv.
  - cbn in Hconv. inversion Hconv; subst. split; reflexivity.
  - cbn [List.filter] in Hconv. cbn [Xinference.stream_loop].
    destruct (py_truthy ev); [|exact (IH chunks Hconv)].
    cbn [rmap_list] in Hconv.
    destruct (Xinference._stream_response_to_generation_chunk ev) as [chunk|e];
      cbn [rbind] in Hconv; [|discriminate Hconv].
    destruct (rmap_list Xinference._stream_response_to_generation_chunk
                (List.filter py_truthy events)) as [rest|e];
      cbn [rbind] in Hconv; [|discriminate Hconv].
    inversion Hconv; subst.
    destruct (IH rest eq_refl) as [Hy He].
    cbn [gen_yields gen_error]. rewrite Hy, He. split; reflexivity.
Qed.

(** The stream stops at the first kept event that does not convert, with the
    chunks of the kept events before it. *)
Lemma stream_loop_first_failure run_manager (pre : list (pyval F)) ev post chunks e :
  rmap_list Xinference._stream_response_to_generation_chunk (List.filter py_truthy pre)
  = Ok chunks ->
  py_truthy ev = true ->
  Xinference._stream_response_to_generation_chunk ev = Raise e ->
  gen_yields (Xinference.stream_loop run_manager (pre ++ ev :: post)) = chunks
  /\ gen_error (Xinference.stream_loop run_manager (pre ++ ev :: post)) = Some e.
Proof.
  intros Hconv Htruthy Hfail. revert chunks Hconv.
  induction pre as [|x pre IH]; intros chunks Hconv.
  - cbn in Hconv. inversion Hconv; subst.
    cbn [app Xinference.stream_loop]. rewrite Htruthy, Hfail. split; reflexivity.
  - cbn [List.filter] in Hconv.
    change ((x :: pre) ++ ev :: post) with (x :: (pre ++ ev :: post)).
    cbn [Xinference.stream_loop].
    destruct (py_truthy x); [|exact (IH chunks Hconv)].
    cbn [rmap_list] in Hconv.
    destruct (Xinference._stream_response_to_generation_chunk x) as [chunk|e'];
      cbn [rbind] in Hconv; [|discriminate Hconv].
    destruct (rmap_list Xinference._stream_response_to_generation_chunk
                (List.filter py_truthy pre)) as [rest|e'];
      cbn [rbind] in Hconv; [|discriminate Hconv].
    inversion Hconv; subst.
    destruct (IH rest eq_refl) as [Hy He].
    cbn [gen_yields gen_error]. rewrite Hy, He. split; reflexivity.
Qed.

(** *** Unfolding the four operations *)

Lemma gen_after_nil {A} (g : gen F A) : gen_after [] g = g.
Proof. destruct g; reflexivity. Qed.

Lemma gen_after_after {A} evs1 evs2 (g : gen F A) :
  gen_after evs1 (gen_after evs2 g) = gen_after (evs1 ++ evs2) g.
Proof. destruct g; simpl; rewrite app_assoc; reflexivity. Qed.

Lemma merge_run (self : Xinference.adapter F) kwargs g :
  call_config kwargs g ->
  py_dict_merge (Xinference.model_kwargs self) (dict_get kwargs "generate_config" (PDict ∅))
  = Ok (g ∪ Xinference.model_kwargs self).
Proof. unfold call_config. intros ->. reflexivity. Qed.


Lemma stream_eq (self : Xinference.adapter F) model prompt stop run_manager kwargs g :
  serves (Xinference.client self) (Xinference.model_uid self) model ->
  call_config kwargs g ->
  Xinference._stream self prompt stop run_manager kwargs
  = gen_after [EvGetModel (Xinference.model_uid self)]
      (stream_body_after model prompt run_manager
         (Xinference.force_stream (call_options self g stop))).
Proof.
  intros (c & Hc & Hm) Hcfg. unfold Xinference._stream.
  rewrite (merge_run self kwargs g Hcfg), Hc, Hm.
  unfold lift at 1. cbn [gen_bind]. rewrite gen_after_nil.
  unfold call at 1. cbn [gen_bind]. reflexivity.
Qed.

Lemma astream_eq (self : Xinference.adapter F) model prompt stop run_manager kwargs g :
  serves (Xinference.async_client self) (Xinference.model_uid self) model ->
  call_config kwargs g ->
  Xinference._astream self prompt stop run_manager kwargs
  = gen_after [EvGetModel (Xinference.model_uid self)]
      (stream_body_after model prompt run_manager
         (Xinference.force_stream (call_options self g stop))).
Proof.
  intros (c & Hc & Hm) Hcfg. unfold Xinference._astream.
  rewrite (merge_run self kwargs g Hcfg), Hc, Hm.
  unfold lift at 1. cbn [gen_bind]. rewrite gen_after_nil.
  unfold call at 1. cbn [gen_bind]. reflexivity.
Qed.

Lemma stream_body_calls model prompt run_manager opts :
  generate_calls (gen_events (stream_body_after model prompt run_manager opts))
  = [(prompt, opts)].
Proof.
  unfold stream_body_after.
  destruct (generate model prompt opts) as [response|e]; [|reflexivity].
  unfold call, lift. cbn [gen_bind].
  destruct (py_iter response) as [events|e]; [|reflexivity].
  cbn [gen_bind]. rewrite !gen_events_after, !generate_calls_app.
  rewrite stream_loop_no_generate. reflexivity.
Qed.

Lemma stream_body_events model prompt run_manager opts events :
  generate model prompt opts = Ok (PList events) ->
  stream_body_after model prompt run_manager opts
  = gen_after [EvGenerate prompt opts] (Xinference.stream_loop run_manager events).
Proof.
  intros Hgen. unfold stream_body_after. rewrite Hgen. unfold call, lift.
  cbn [gen_bind py_iter]. rewrite gen_after_after. reflexivity.
Qed.

Lemma stream_run (self : Xinference.adapter F) prompt stop run_manager kwargs events :
  streams self (Xinference.client self) prompt stop kwargs events ->
  exists evs, Xinference._stream self prompt stop run_manager kwargs
              = gen_after evs (Xinference.stream_loop run_manager events).
Proof.
  intros (model & g & Hs & Hcfg & Hgen).
  rewrite (stream_eq self model prompt stop run_manager kwargs g Hs Hcfg).
  rewrite (stream_body_events _ _ _ _ _ Hgen), gen_after_after.
  eexists. reflexivity.
Qed.

Lemma astream_run (self : Xinference.adapter F) prompt stop run_manager kwargs events :
  streams self (Xinference.async_client self) prompt stop kwargs events ->
  exists evs, Xinference._astream self prompt stop run_manager kwargs
              = gen_after evs (Xinference.stream_loop run_manager events).
Proof.
  intros (model & g & Hs & Hcfg & Hgen).
  rewrite (astream_eq self model prompt stop run_manager kwargs g Hs Hcfg).
  rewrite (stream_body_events _ _ _ _ _ Hgen), gen_after_after.
  eexists. reflexivity.
Qed.


Lemma call_eq (self : Xinference.adapter F) model prompt stop run_manager kwargs g :
  serves (Xinference.client self) (Xinference.model_uid self) model ->
  call_config kwargs g ->
  Xinference._call self prompt stop run_manager kwargs
  = mbind ([EvGetModel (Xinference.model_uid self)], Ok tt) (fun _ =>
      call_body_after Xinference._stream_generate model prompt run_manager
        (call_options self g stop)).
Proof.
  intros (c & Hc & Hm) Hcfg. unfold Xinference._call.
  rewrite (merge_run self kwargs g Hcfg), Hc, Hm.
  unfold call_body_after, call_options, lift, call.
  rewrite !mbind_ok. cbv beta. cbn [app fst snd]. reflexivity.
Qed.

Lemma acall_eq (self : Xinference.adapter F) model prompt stop run_manager kwargs g :
  serves (Xinference.async_client self) (Xinference.model_uid self) model ->
  call_config kwargs g ->
  Xinference._acall self prompt stop run_manager kwargs
  = mbind ([EvGetModel (Xinference.model_uid self)], Ok tt) (fun _ =>
      call_body_after Xinference._astream_generate model prompt run_manager
        (call_options self g stop)).
Proof.
  intros (c & Hc & Hm) Hcfg. unfold Xinference._acall.
  rewrite (merge_run self kwargs g Hcfg), Hc, Hm.
  unfold call_body_after, call_options, lift, call.
  rewrite !mbind_ok. cbv beta. cbn [app fst snd]. reflexivity.
Qed.

Lemma astream_generate_eq :
  Xinference._astream_generate (F:=F) = Xinference._stream_generate.
Proof. reflexivity. Qed.

Lemma mbind_events_mret {A B} (m : M F A) (f : A -> B) :
  (mbind m (fun x => mret (f x))).1 = m.1.
Proof. destruct m as [evs [a|e]]; simpl; [apply app_nil_r|reflexivity]. Qed.

Lemma stream_generate_events model prompt run_manager opts (acc : string) :
  generate_calls
    (for_each (Xinference._stream_generate model prompt run_manager opts) py_str_add acc).1
  = [(prompt, opts)].
Proof.
  unfold Xinference._stream_generate, call, lift.
  destruct (generate model prompt opts) as [response|e]; [|reflexivity].
  cbn [gen_bind]. destruct (py_iter response) as [chunks|e]; [|reflexivity].
  cbn [gen_bind]. rewrite gen_after_nil, for_each_after. cbn [fst].
  rewrite generate_calls_app, for_each_no_generate by apply generate_loop_no_generate.
  reflexivity.
Qed.

Lemma call_body_calls model prompt run_manager opts :
  generate_calls
    (call_body_after Xinference._stream_generate model prompt run_manager opts).1
  = [(prompt, opts)].
Proof.
  unfold call_body_after.
  destruct (py_truthy (PDict opts) && py_truthy (dict_get opts "stream" PNone)).
  - rewrite mbind_events_mret. apply stream_generate_events.
  - unfold call, lift. destruct (generate model prompt opts) as [completion|e];
      [|reflexivity].
    rewrite mbind_ok. reflexivity.
Qed.

Lemma stream_flag_nonempty (opts : gmap string (pyval F)) :
  py_truthy (dict_get opts "stream" PNone) = true -> py_truthy (PDict opts) = true.
Proof.
  unfold dict_get. destruct (opts !! "stream") as [v|] eqn:E.
  - intros _. eapply dict_truthy_lookup, E.
  - simpl. discriminate.
Qed.

Lemma call_body_stream_result model prompt run_manager opts frags :
  py_truthy (dict_get opts "stream" PNone) = true ->
  generate model prompt opts = Ok (PList frags) ->
  (call_body_after Xinference._stream_generate model prompt run_manager opts).2
  = rbind (for_each (Xinference.generate_loop run_manager frags) py_str_add EmptyString).2
          (fun s => Ok (PStr s)).
Proof.
  intros Hflag Hgen. unfold call_body_after.
  rewrite (stream_flag_nonempty _ Hflag), Hflag. cbn [andb].
  unfold Xinference._stream_generate. rewrite Hgen. unfold call, lift.
  cbn [gen_bind py_iter]. rewrite gen_after_nil, for_each_after.
  destruct (for_each (Xinference.generate_loop run_manager frags) py_str_add EmptyString)
    as [evs [s|e]]; reflexivity.
Qed.

Lemma call_stream_result (self : Xinference.adapter F) prompt stop run_manager kwargs frags :
  plain_streams self (Xinference.client self) prompt stop kwargs frags ->
  (Xinference._call self prompt stop run_manager kwargs).2
  = rbind (for_each (Xinference.generate_loop run_manager frags) py_str_add EmptyString).2
          (fun s => Ok (PStr s)).
Proof.
  intros (model & g & Hs & Hcfg & Hflag & Hgen).
  rewrite (call_eq self model prompt stop run_manager kwargs g Hs Hcfg), mbind_ok.
  cbn [snd]. apply call_body_stream_result; assumption.
Qed.

Lemma acall_stream_result (self : Xinference.adapter F) prompt stop run_manager kwargs frags :
  plain_streams self (Xinference.async_client self) prompt stop kwargs frags ->
  (Xinference._acall self prompt stop run_manager kwargs).2
  = rbind (for_each (Xinference.generate_loop run_manager frags) py_str_add EmptyString).2
          (fun s => Ok (PStr s)).
Proof.
  intros (model & g & Hs & Hcfg & Hflag & Hgen).
  rewrite (acall_eq self model prompt stop run_manager kwargs g Hs Hcfg), mbind_ok.
  cbn [snd]. rewrite astream_generate_eq. apply call_body_stream_result; assumption.
Qed.

(** *** The merged options *)

Lemma call_options_lookup (self : Xinference.adapter F) g stop key :
  call_options self g stop !! key
  = expected_option (Xinference.model_kwargs self) g stop key.
Proof.
  assert (Hm : (g ∪ Xinference.model_kwargs self) !! key
               = match g !! key with
                 | Some v => Some v
                 | None => Xinference.model_kwargs self !! key
                 end).
  { rewrite lookup_union. destruct (g !! key), (Xinference.model_kwargs self !! key);
      reflexivity. }
  unfold call_options, Xinference.with_stop, expected_option.
  destruct stop as [[|s l]|]; try exact Hm.
  destruct (decide (key = "stop")) as [->|Hne].
  - apply lookup_insert_eq.
  - rewrite lookup_insert_ne by congruence. exact Hm.
Qed.

Lemma force_stream_other (opts : gmap string (pyval F)) key :
  key <> "stream" -> Xinference.force_stream opts !! key = opts !! key.
Proof.
  intros Hne. unfold Xinference.force_stream.
  destruct (_ || _); [|reflexivity].
  apply lookup_insert_ne. congruence.
Qed.

Lemma force_stream_on (opts : gmap string (pyval F)) :
  py_truthy (dict_get (Xinference.force_stream opts) "stream" PNone) = true.
Proof.
  unfold Xinference.force_stream.
  destruct (_ || _) eqn:C.
  - unfold dict_get. rewrite lookup_insert_eq. reflexivity.
  - apply orb_false_elim in C as [C1 C2]. apply negb_false_iff in C2.
    unfold dict_get in *. destruct (opts !! "stream"); [exact C2|discriminate C1].
Qed.

Lemma force_stream_forced (opts : gmap string (pyval F)) :
  py_truthy (dict_get opts "stream" PNone) = false ->
  Xinference.force_stream opts !! "stream" = Some (PBool true).
Proof.
  intros Hoff. unfold Xinference.force_stream.
  destruct (_ || _) eqn:C.
  - apply lookup_insert_eq.
  - apply orb_false_elim in C as [C1 C2]. apply negb_false_iff in C2.
    unfold dict_get in *. destruct (opts !! "stream"); [|discriminate C1].
    cbn [default] in *. congruence.
Qed.

Lemma force_stream_id (opts : gmap string (pyval F)) :
  py_truthy (dict_get opts "stream" PNone) = true ->
  Xinference.force_stream opts = opts.
Proof.
  intros Hon. unfold Xinference.force_stream.
  destruct (_ || _) eqn:C; [|reflexivity].
  unfold dict_get in *. destruct (opts !! "stream"); cbn [default] in *.
  - rewrite Hon in C. discriminate C.
  - discriminate Hon.
Qed.

Lemma plain_streams_streams (self : Xinference.adapter F) handle prompt stop kwargs frags :
  plain_streams self handle prompt stop kwargs frags ->
  streams self handle prompt stop kwargs frags.
Proof.
  intros (model & g & Hs & Hcfg & Hflag & Hgen).
  exists model, g. repeat split; try assumption.
  rewrite (force_stream_id _ Hflag). exact Hgen.
Qed.

(** *** Observations of the chunk stream and of the plain call *)

Lemma stream_obs (self : Xinference.adapter F) prompt stop run_manager kwargs events :
  streams self (Xinference.client self) prompt stop kwargs events ->
  gen_yields (Xinference._stream self prompt stop run_manager kwargs)
  = gen_yields (Xinference.stream_loop run_manager events)
  /\ gen_error (Xinference._stream self prompt stop run_manager kwargs)
     = gen_error (Xinference.stream_loop run_manager events).
Proof.
  intros Hs. destruct (stream_run self prompt stop run_manager kwargs events Hs) as [evs ->].
  rewrite gen_yields_after, gen_error_after. split; reflexivity.
Qed.

Lemma astream_obs (self : Xinference.adapter F) prompt stop run_manager kwargs events :
  streams self (Xinference.async_client self) prompt stop kwargs events ->
  gen_yields (Xinference._astream self prompt stop run_manager kwargs)
  = gen_yields (Xinference.stream_loop run_manager events)
  /\ gen_error (Xinference._astream self prompt stop run_manager kwargs)
     = gen_error (Xinference.stream_loop run_manager events).
Proof.
  intros Hs. destruct (astream_run self prompt stop run_manager kwargs events Hs) as [evs ->].
  rewrite gen_yields_after, gen_error_after. split; reflexivity.
Qed.

Lemma stream_loop_not_mapping run_manager (pre : list (pyval F)) frag post texts1 :
  Forall2 first_choice_text pre texts1 ->
  first_choice_not_mapping frag ->
  Xinference.text <$> gen_yields (Xinference.stream_loop run_manager (pre ++ frag :: post))
  = texts1
  /\ gen_error (Xinference.stream_loop run_manager (pre ++ frag :: post))
     = Some (TypeError "choice type error!").
Proof.
  intros Hpre Hbad.
  destruct (stream_loop_wf_app run_manager pre texts1 (frag :: post) Hpre)
    as (chunks & Ht & Hy & He).
  destruct (not_mapping_fragment frag Hbad) as (Htruthy & Hconv & _).
  rewrite Hy, He. cbn [Xinference.stream_loop]. rewrite Htruthy, Hconv.
  cbn [gen_yields gen_error]. rewrite app_nil_r. split; [exact Ht|reflexivity].
Qed.

Lemma stream_loop_empty_choices run_manager (pre : list (pyval F)) frag post texts1 texts2 :
  Forall2 first_choice_text pre texts1 ->
  Forall2 first_choice_text post texts2 ->
  empty_choices frag ->
  gen_error (Xinference.stream_loop run_manager (pre ++ frag :: post)) = None
  /\ Xinference.text <$> gen_yields (Xinference.stream_loop run_manager (pre ++ frag :: post))
     = texts1 ++ EmptyString :: texts2
  /\ gen_yields (Xinference.stream_loop run_manager (pre ++ frag :: post)) !! length pre
     = Some empty_chunk.
Proof.
  intros Hpre Hpost Hempty.
  destruct (stream_loop_wf_app run_manager pre texts1 (frag :: post) Hpre)
    as (chunks & Ht & Hy & He).
  destruct (empty_choices_fragment frag Hempty) as (Htruthy & Hconv & _).
  destruct (stream_loop_wf run_manager post texts2 Hpost) as (He2 & Ht2 & _).
  rewrite Hy, He. cbn [Xinference.stream_loop]. rewrite Htruthy, Hconv.
  cbn [gen_yields gen_error]. split; [exact He2|]. split.
  - rewrite fmap_app. cbn [fmap list_fmap]. fold (fmap (M:=list) (Xinference.text (F:=F))).
    rewrite Ht, Ht2. reflexivity.
  - assert (Hlen : length pre = length chunks).
    { apply Forall2_length in Hpre. rewrite Hpre, <- Ht, length_fmap. reflexivity. }
    rewrite Hlen. apply list_lookup_middle. reflexivity.
Qed.


Lemma generate_loop_skips run_manager (pre : list (pyval F)) frag post texts1 texts2 :
  Forall2 first_choice_text pre texts1 ->
  Forall2 first_choice_text post texts2 ->
  (forall rest, Xinference.generate_loop run_manager (frag :: rest)
                = Xinference.generate_loop run_manager rest) ->
  (for_each (Xinference.generate_loop run_manager (pre ++ frag :: post))
            py_str_add EmptyString).2
  = Ok (concat_strings (texts1 ++ texts2)).
Proof.
  intros Hpre Hpost Hskip.
  rewrite (generate_loop_wf_app run_manager pre texts1 (frag :: post) _ Hpre).
  rewrite Hskip, (generate_loop_wf run_manager post texts2 _ Hpost).
  rewrite concat_strings_app. reflexivity.
Qed.

(** *** Claims about completion *)

(** C1, amended. When the merged options carry a truthy ["stream"] flag and
    every fragment the remote streams is a mapping whose ["choices"] list
    starts with a mapping that has a string ["text"], the plain call returns
    the concatenation of those texts in emission order, and the chunked
    stream ends normally after yielding one chunk per fragment, in the same
    order, each with the text of its fragment.  The same holds for the
    asynchronous pair. *)
Theorem streamed_texts_reach_caller
    (self : Xinference.adapter F) prompt stop run_manager kwargs frags texts :
  Forall2 first_choice_text frags texts ->
  (plain_streams self (Xinference.client self) prompt stop kwargs frags ->
     (Xinference._call self prompt stop run_manager kwargs).2
     = Ok (PStr (concat_strings texts))
     /\ gen_error (Xinference._stream self prompt stop run_manager kwargs) = None
     /\ length (gen_yields (Xinference._stream self prompt stop run_manager kwargs))
        = length frags
     /\ Xinference.text <$> gen_yields (Xinference._stream self prompt stop run_manager kwargs)
        = texts)
  /\ (plain_streams self (Xinference.async_client self) prompt stop kwargs frags ->
     (Xinference._acall self prompt stop run_manager kwargs).2
     = Ok (PStr (concat_strings texts))
     /\ gen_error (Xinference._astream self prompt stop run_manager kwargs) = None
     /\ length (gen_yields (Xinference._astream self prompt stop run_manager kwargs))
        = length frags
     /\ Xinference.text <$> gen_yields (Xinference._astream self prompt stop run_manager kwargs)
        = texts).
Proof.
  intros Hwf.
  destruct (stream_loop_wf run_manager frags texts Hwf) as (He & Ht & Hl).
  split; intros Hp.
  - split.
    + rewrite (call_stream_result self prompt stop run_manager kwargs frags Hp).
      rewrite (generate_loop_wf run_manager frags texts _ Hwf). reflexivity.
    + destruct (stream_obs self prompt stop run_manager kwargs frags
                  (plain_streams_streams _ _ _ _ _ _ Hp)) as [-> ->].
      repeat split; assumption.
  - split.
    + rewrite (acall_stream_result self prompt stop run_manager kwargs frags Hp).
      rewrite (generate_loop_wf run_manager frags texts _ Hwf). reflexivity.
    + destruct (astream_obs self prompt stop run_manager kwargs frags
                  (plain_streams_streams _ _ _ _ _ _ Hp)) as [-> ->].
      repeat split; assumption.
Qed.

(** C2, amended. Among fragments that each have a first choice with a text,
    let one fragment [frag] be different.  If the first entry of its
    non-empty ["choices"] is not a mapping, the chunked stream yields the
    chunks of the fragments before it and then raises
    [TypeError "choice type error!"], while the plain call ignores the
    fragment.  If its ["choices"] list is empty, the chunked stream yields at
    its position exactly one chunk with empty text and no metadata and goes
    on, while the plain call gets nothing from it. *)
Theorem malformed_and_empty_choices
    (self : Xinference.adapter F) prompt stop run_manager kwargs
    pre frag post texts1 texts2 :
  Forall2 first_choice_text pre texts1 ->
  Forall2 first_choice_text post texts2 ->
  (first_choice_not_mapping frag ->
     (streams self (Xinference.client self) prompt stop kwargs (pre ++ frag :: post) ->
        Xinference.text <$> gen_yields (Xinference._stream self prompt stop run_manager kwargs)
        = texts1
        /\ gen_error (Xinference._stream self prompt stop run_manager kwargs)
           = Some (TypeError "choice type error!"))
     /\ (streams self (Xinference.async_client self) prompt stop kwargs (pre ++ frag :: post) ->
        Xinference.text <$> gen_yields (Xinference._astream self prompt stop run_manager kwargs)
        = texts1
        /\ gen_error (Xinference._astream self prompt stop run_manager kwargs)
           = Some (TypeError "choice type error!"))
     /\ (plain_streams self (Xinference.client self) prompt stop kwargs (pre ++ frag :: post) ->
        (Xinference._call self prompt stop run_manager kwargs).2
        = Ok (PStr (concat_strings (texts1 ++ texts2))))
     /\ (plain_streams self (Xinference.async_client self) prompt stop kwargs
           (pre ++ frag :: post) ->
        (Xinference._acall self prompt stop run_manager kwargs).2
        = Ok (PStr (concat_strings (texts1 ++ texts2)))))
  /\ (empty_choices frag ->
     (streams self (Xinference.client self) prompt stop kwargs (pre ++ frag :: post) ->
        gen_error (Xinference._stream self prompt stop run_manager kwargs) = None
        /\ Xinference.text <$> gen_yields (Xinference._stream self prompt stop run_manager kwargs)
           = texts1 ++ EmptyString :: texts2
        /\ gen_yields (Xinference._stream self prompt stop run_manager kwargs) !! length pre
           = Some empty_chunk)
     /\ (streams self (Xinference.async_client self) prompt stop kwargs (pre ++ frag :: post) ->
        gen_error (Xinference._astream self prompt stop run_manager kwargs) = None
        /\ Xinference.text <$> gen_yields (Xinference._astream self prompt stop run_manager kwargs)
           = texts1 ++ EmptyString :: texts2
        /\ gen_yields (Xinference._astream self prompt stop run_manager kwargs) !! length pre
           = Some empty_chunk)
     /\ (plain_streams self (Xinference.client self) prompt stop kwargs (pre ++ frag :: post) ->
        (Xinference._call self prompt stop run_manager kwargs).2
        = Ok (PStr (concat_strings (texts1 ++ texts2))))
     /\ (plain_streams self (Xinference.async_client self) prompt stop kwargs
           (pre ++ frag :: post) ->
        (Xinference._acall self prompt stop run_manager kwargs).2
        = Ok (PStr (concat_strings (texts1 ++ texts2))))).
Proof.
  intros Hpre Hpost. split.
  - intros Hbad.
    destruct (not_mapping_fragment frag Hbad) as (_ & _ & Hskip).
    pose proof (stream_loop_not_mapping run_manager pre frag post texts1 Hpre Hbad) as Hloop.
    pose proof (generate_loop_skips run_manager pre frag post texts1 texts2 Hpre Hpost
                  (Hskip run_manager)) as Hplain.
    split; [|split; [|split]].
    + intros Hs. destruct (stream_obs self prompt stop run_manager kwargs _ Hs) as [-> ->].
      exact Hloop.
    + intros Hs. destruct (astream_obs self prompt stop run_manager kwargs _ Hs) as [-> ->].
      exact Hloop.
    + intros Hp. rewrite (call_stream_result self prompt stop run_manager kwargs _ Hp), Hplain.
      reflexivity.
    + intros Hp. rewrite (acall_stream_result self prompt stop run_manager kwargs _ Hp), Hplain.
      reflexivity.
  - intros Hempty.
    destruct (empty_choices_fragment frag Hempty) as (_ & _ & Hskip).
    pose proof (stream_loop_empty_choices run_manager pre frag post texts1 texts2
                  Hpre Hpost Hempty) as (He & Ht & Hk).
    pose proof (generate_loop_skips run_manager pre frag post texts1 texts2 Hpre Hpost
                  (Hskip run_manager)) as Hplain.
    split; [|split; [|split]].
    + intros Hs. destruct (stream_obs self prompt stop run_manager kwargs _ Hs) as [-> ->].
      repeat split; assumption.
    + intros Hs. destruct (astream_obs self prompt stop run_manager kwargs _ Hs) as [-> ->].
      repeat split; assumption.
    + intros Hp. rewrite (call_stream_result self prompt stop run_manager kwargs _ Hp), Hplain.
      reflexivity.
    + intros Hp. rewrite (acall_stream_result self prompt stop run_manager kwargs _ Hp), Hplain.
      reflexivity.
Qed.

(** C4, amended. A plain call makes exactly one remote generate call, and
    the options it passes hold, under every key, the explicit stop list if
    the key is ["stop"] and a non-empty list was supplied, otherwise the
    caller's entry, otherwise the construction-time default.  The chunked
    stream passes the same entries under every key other than ["stream"];
    its ["stream"] entry is the merged one when that is truthy and [True]
    otherwise. *)
Theorem options_passed_to_generate
    (self : Xinference.adapter F) model prompt stop run_manager kwargs g :
  call_config kwargs g ->
  (serves (Xinference.client self) (Xinference.model_uid self) model ->
     exists opts,
       generate_calls (Xinference._call self prompt stop run_manager kwargs).1
       = [(prompt, opts)]
       /\ (forall key, opts !! key
                       = expected_option (Xinference.model_kwargs self) g stop key)
       /\ (forall s l, stop = Some (s :: l) ->
                       opts !! "stop" = Some (PList (PStr <$> s :: l))))
  /\ (serves (Xinference.async_client self) (Xinference.model_uid self) model ->
     exists opts,
       generate_calls (Xinference._acall self prompt stop run_manager kwargs).1
       = [(prompt, opts)]
       /\ (forall key, opts !! key
                       = expected_option (Xinference.model_kwargs self) g stop key)
       /\ (forall s l, stop = Some (s :: l) ->
                       opts !! "stop" = Some (PList (PStr <$> s :: l))))
  /\ (serves (Xinference.client self) (Xinference.model_uid self) model ->
     exists opts,
       generate_calls (gen_events (Xinference._stream self prompt stop run_manager kwargs))
       = [(prompt, opts)]
       /\ (forall key, key <> "stream" ->
             opts !! key = expected_option (Xinference.model_kwargs self) g stop key)
       /\ (forall s l, stop = Some (s :: l) ->
                       opts !! "stop" = Some (PList (PStr <$> s :: l)))
       /\ opts !! "stream"
          = match expected_option (Xinference.model_kwargs self) g stop "stream" with
            | Some v => if py_truthy v then Some v else Some (PBool true)
            | None => Some (PBool true)
            end)
  /\ (serves (Xinference.async_client self) (Xinference.model_uid self) model ->
     exists opts,
       generate_calls (gen_events (Xinference._astream self prompt stop run_manager kwargs))
       = [(prompt, opts)]
       /\ (forall key, key <> "stream" ->
             opts !! key = expected_option (Xinference.model_kwargs self) g stop key)
       /\ (forall s l, stop = Some (s :: l) ->
                       opts !! "stop" = Some (PList (PStr <$> s :: l)))
       /\ opts !! "stream"
          = match expected_option (Xinference.model_kwargs self) g stop "stream" with
            | Some v => if py_truthy v then Some v else Some (PBool true)
            | None => Some (PBool true)
            end).
Proof.
  intros Hcfg.
  assert (Hstop : forall s l, stop = Some (s :: l) ->
            call_options self g stop !! "stop" = Some (PList (PStr <$> s :: l))).
  { intros s l ->. apply lookup_insert_eq. }
  assert (Hflag : Xinference.force_stream (call_options self g stop) !! "stream"
            = match expected_option (Xinference.model_kwargs self) g stop "stream" with
              | Some v => if py_truthy v then Some v else Some (PBool true)
              | None => Some (PBool true)
              end).
  { rewrite <- call_options_lookup.
    destruct (call_options self g stop !! "stream") as [v|] eqn:E.
    - pose proof (dict_get_Some _ _ _ PNone E) as Hd.
      destruct (py_truthy v) eqn:Hv.
      + rewrite force_stream_id by (rewrite Hd; exact Hv). exact E.
      + apply force_stream_forced. rewrite Hd. exact Hv.
    - apply force_stream_forced. unfold dict_get. rewrite E. reflexivity. }
  split; [|split; [|split]]; intros Hs.
  - exists (call_options self g stop). split; [|split].
    + rewrite (call_eq self model prompt stop run_manager kwargs g Hs Hcfg), mbind_ok.
      cbn [fst]. rewrite generate_calls_app, call_body_calls. reflexivity.
    + apply call_options_lookup.
    + exact Hstop.
  - exists (call_options self g stop). split; [|split].
    + rewrite (acall_eq self model prompt stop run_manager kwargs g Hs Hcfg), mbind_ok.
      cbn [fst]. rewrite astream_generate_eq, generate_calls_app, call_body_calls.
      reflexivity.
    + apply call_options_lookup.
    + exact Hstop.
  - exists (Xinference.force_stream (call_options self g stop)). split; [|split; [|split]].
    + rewrite (stream_eq self model prompt stop run_manager kwargs g Hs Hcfg).
      rewrite gen_events_after, generate_calls_app, stream_body_calls. reflexivity.
    + intros key Hne. rewrite force_stream_other by exact Hne. apply call_options_lookup.
    + intros s l Hst. rewrite force_stream_other by discriminate. exact (Hstop s l Hst).
    + exact Hflag.
  - exists (Xinference.force_stream (call_options self g stop)). split; [|split; [|split]].
    + rewrite (astream_eq self model prompt stop run_manager kwargs g Hs Hcfg).
      rewrite gen_events_after, generate_calls_app, stream_body_calls. reflexivity.
    + intros key Hne. rewrite force_stream_other by exact Hne. apply call_options_lookup.
    + intros s l Hst. rewrite force_stream_other by discriminate. exact (Hstop s l Hst).
    + exact Hflag.
Qed.

(** C9. Whatever [generate_config] the caller supplies, [_stream] and
    [_astream] make exactly one remote generate call, and the ["stream"]
    entry of the options they pass is truthy.  The chunks they yield are, in
    the order received, the conversions of the remote events that are not
    skipped: all of them, and the stream ends normally, when each of these
    converts; otherwise those before the first one that does not convert,
    and the stream ends with the error of that conversion. *)
Theorem stream_forces_flag_and_keeps_order
    (self : Xinference.adapter F) model prompt stop run_manager kwargs g :
  call_config kwargs g ->
  (serves (Xinference.client self) (Xinference.model_uid self) model ->
     exists opts,
       generate_calls (gen_events (Xinference._stream self prompt stop run_manager kwargs))
       = [(prompt, opts)]
       /\ py_truthy (dict_get opts "stream" PNone) = true
       /\ (forall events chunks,
             generate model prompt opts = Ok (PList events) ->
             rmap_list Xinference._stream_response_to_generation_chunk
                       (List.filter py_truthy events) = Ok chunks ->
             gen_yields (Xinference._stream self prompt stop run_manager kwargs) = chunks
             /\ gen_error (Xinference._stream self prompt stop run_manager kwargs) = None)
       /\ (forall pre ev post chunks e,
             generate model prompt opts = Ok (PList (pre ++ ev :: post)) ->
             rmap_list Xinference._stream_response_to_generation_chunk
                       (List.filter py_truthy pre) = Ok chunks ->
             py_truthy ev = true ->
             Xinference._stream_response_to_generation_chunk ev = Raise e ->
             gen_yields (Xinference._stream self prompt stop run_manager kwargs) = chunks
             /\ gen_error (Xinference._stream self prompt stop run_manager kwargs)
                = Some e))
  /\ (serves (Xinference.async_client self) (Xinference.model_uid self) model ->
     exists opts,
       generate_calls (gen_events (Xinference._astream self prompt stop run_manager kwargs))
       = [(prompt, opts)]
       /\ py_truthy (dict_get opts "stream" PNone) = true
       /\ (forall events chunks,
             generate model prompt opts = Ok (PList events) ->
             rmap_list Xinference._stream_response_to_generation_chunk
                       (List.filter py_truthy events) = Ok chunks ->
             gen_yields (Xinference._astream self prompt stop run_manager kwargs) = chunks
             /\ gen_error (Xinference._astream self prompt stop run_manager kwargs) = None)
       /\ (forall pre ev post chunks e,
             generate model prompt opts = Ok (PList (pre ++ ev :: post)) ->
             rmap_list Xinference._stream_response_to_generation_chunk
                       (List.filter py_truthy pre) = Ok chunks ->
             py_truthy ev = true ->
             Xinference._stream_response_to_generation_chunk ev = Raise e ->
             gen_yields (Xinference._astream self prompt stop run_manager kwargs) = chunks
             /\ gen_error (Xinference._astream self prompt stop run_manager kwargs)
                = Some e)).
Proof.
  intros Hcfg. split; intros Hs;
    exists (Xinference.force_stream (call_options self g stop)).
  - split; [|split; [|split]].
    + rewrite (stream_eq self model prompt stop run_manager kwargs g Hs Hcfg).
      rewrite gen_events_after, generate_calls_app, stream_body_calls. reflexivity.
    + apply force_stream_on.
    + intros events chunks Hgen Hconv.
      rewrite (stream_eq self model prompt stop run_manager kwargs g Hs Hcfg).
      rewrite (stream_body_events _ _ _ _ _ Hgen), gen_after_after.
      rewrite gen_yields_after, gen_error_after.
      apply stream_loop_all_convert, Hconv.
    + intros pre ev post chunks e Hgen Hconv Htruthy Hfail.
      rewrite (stream_eq self model prompt stop run_manager kwargs g Hs Hcfg).
      rewrite (stream_body_events _ _ _ _ _ Hgen), gen_after_after.
      rewrite gen_yields_after, gen_error_after.
      apply stream_loop_first_failure; assumption.
  - split; [|split; [|split]].
    + rewrite (astream_eq self model prompt stop run_manager kwargs g Hs Hcfg).
      rewrite gen_events_after, generate_calls_app, stream_body_calls. reflexivity.
    + apply force_stream_on.
    + intros events chunks Hgen Hconv.
      rewrite (astream_eq self model prompt stop run_manager kwargs g Hs Hcfg).
      rewrite (stream_body_events _ _ _ _ _ Hgen), gen_after_after.
      rewrite gen_yields_after, gen_error_after.
      apply stream_loop_all_convert, Hconv.
    + intros pre ev post chunks e Hgen Hconv Htruthy Hfail.
      rewrite (astream_eq self model prompt stop run_manager kwargs g Hs Hcfg).
      rewrite (stream_body_events _ _ _ _ _ Hgen), gen_after_after.
      rewrite gen_yields_after, gen_error_after.
      apply stream_loop_first_failure; assumption.
Qed.


(** * Further properties of the two constructors *)

(** X1. The authentication probe calls [requests.get] exactly once, on
    [server_url ++ "/v1/cluster/auth"], and contacts nothing else, whatever
    comes back: a 404, a 200 with or without an ["auth"] field, another
    status with or without a ["detail"] field, a body that is not JSON, or a
    request that itself raises.  (What the client constructors called later
    by [__init__] send is outside this model.) *)
Theorem auth_probe_is_one_get env
    (emb : XinferenceEmbeddings.adapter F) (llm : Xinference.adapter F) :
  (XinferenceEmbeddings._check_cluster_authenticated env emb).1
  = [EvHttpGet (XinferenceEmbeddings.server_url emb +:+ "/v1/cluster/auth")]
  /\ (Xinference._check_cluster_authenticated env llm).1
     = [EvHttpGet (Xinference.server_url llm +:+ "/v1/cluster/auth")].
Proof.
  split.
  - unfold XinferenceEmbeddings._check_cluster_authenticated, call, lift, raise, mret.
    destruct (requests_get env _) as [resp|e]; [|reflexivity].
    rewrite mbind_ok. cbn [fst].
    destruct (status_code resp =? 404)%Z; [reflexivity|].
    destruct (status_code resp =? 200)%Z; cbn [negb];
      destruct (json resp) as [body|e]; try reflexivity.
    + rewrite !mbind_ok. cbn [fst].
      destruct (py_getitem body "auth"); reflexivity.
    + rewrite !mbind_ok. cbn [fst].
      destruct (py_getitem body "detail"); reflexivity.
  - unfold Xinference._check_cluster_authenticated, call, lift, raise, mret.
    destruct (requests_get env _) as [resp|e]; [|reflexivity].
    rewrite mbind_ok. cbn [fst].
    destruct (status_code resp =? 404)%Z; [reflexivity|].
    destruct (status_code resp =? 200)%Z; cbn [negb];
      destruct (json resp) as [body|e]; try reflexivity.
    + rewrite !mbind_ok. cbn [fst].
      destruct (py_getitem body "auth"); reflexivity.
    + rewrite !mbind_ok. cbn [fst].
      destruct (py_getitem body "detail"); reflexivity.
Qed.

Lemma emb_init_run env url uid api_key :
  xinference_installed env || xinference_client_installed env = true ->
  XinferenceEmbeddings.__init__ env (Some url) (Some uid) api_key
  = (self <- XinferenceEmbeddings._check_cluster_authenticated env (emb_blank url uid);;
     c <- lift (RESTfulClient env url api_key);;
     a <- match AsyncRESTfulClient env url api_key with
          | Ok a => mret (Some a)
          | Raise (RuntimeError _) => mret None
          | Raise e => raise e
          end;;
     mret (XinferenceEmbeddings.set_clients (emb_with_header self api_key) (Some c) a)).
Proof.
  intros Hi. unfold XinferenceEmbeddings.__init__.
  rewrite (import_clients_ok _ Hi), mbind_mret. reflexivity.
Qed.

Lemma llm_init_run env url uid api_key kw :
  xinference_installed env || xinference_client_installed env = true ->
  Xinference.__init__ env (Some url) (Some uid) api_key kw
  = (self <- Xinference._check_cluster_authenticated env (llm_blank url uid kw);;
     c <- lift (RESTfulClient env url api_key);;
     a <- match AsyncRESTfulClient env url api_key with
          | Ok a => mret (Some a)
          | Raise (RuntimeError _) => mret None
          | Raise e => raise e
          end;;
     mret (Xinference.set_clients (llm_with_header self api_key) (Some c) a)).
Proof.
  intros Hi. unfold Xinference.__init__.
  rewrite (import_clients_ok _ Hi), mbind_mret. reflexivity.
Qed.

Lemma emb_probe_passes env url uid :
  probe_passes env url ->
  exists b, XinferenceEmbeddings._check_cluster_authenticated env (emb_blank url uid)
            = ([EvHttpGet (url +:+ "/v1/cluster/auth")],
               Ok (XinferenceEmbeddings.set_cluster_authed (emb_blank url uid) b)).
Proof.
  intros (resp & Hget & [H404 | (H200 & body & auth & Hjs & Hauth)]).
  - exists false. exact (emb_check_404 env (emb_blank url uid) resp Hget H404).
  - exists (py_truthy auth).
    apply (emb_check_200 env (emb_blank url uid) resp (PDict body) auth Hget H200 Hjs).
    simpl. rewrite Hauth. reflexivity.
Qed.

Lemma llm_probe_passes env url uid kw :
  probe_passes env url ->
  exists b, Xinference._check_cluster_authenticated env (llm_blank url uid kw)
            = ([EvHttpGet (url +:+ "/v1/cluster/auth")],
               Ok (Xinference.set_cluster_authed (llm_blank url uid kw) b)).
Proof.
  intros (resp & Hget & [H404 | (H200 & body & auth & Hjs & Hauth)]).
  - exists false. exact (llm_check_404 env (llm_blank url uid kw) resp Hget H404).
  - exists (py_truthy auth).
    apply (llm_check_200 env (llm_blank url uid kw) resp (PDict body) auth Hget H200 Hjs).
    simpl. rewrite Hauth. reflexivity.
Qed.

(** X2. After a probe that ends normally, the blocking client decides
    whether construction succeeds, and the non-blocking one whether
    [async_client] is set: when the non-blocking constructor raises
    [RuntimeError], [async_client] is left at [None] beside a working
    [client]; when it succeeds, both handles are stored; and an error of the
    blocking client's constructor aborts construction with that error. *)
Theorem init_degrades_without_async env url uid api_key kw :
  xinference_installed env || xinference_client_installed env = true ->
  probe_passes env url ->
  (forall c msg,
     RESTfulClient env url api_key = Ok c ->
     AsyncRESTfulClient env url api_key = Raise (RuntimeError msg) ->
     (exists self,
        (XinferenceEmbeddings.__init__ env (Some url) (Some uid) api_key).2 = Ok self
        /\ XinferenceEmbeddings.client self = Some c
        /\ XinferenceEmbeddings.async_client self = None)
     /\ (exists self,
           (Xinference.__init__ env (Some url) (Some uid) api_key kw).2 = Ok self
           /\ Xinference.client self = Some c
           /\ Xinference.async_client self = None))
  /\ (forall c a,
        RESTfulClient env url api_key = Ok c ->
        AsyncRESTfulClient env url api_key = Ok a ->
        (exists self,
           (XinferenceEmbeddings.__init__ env (Some url) (Some uid) api_key).2 = Ok self
           /\ XinferenceEmbeddings.client self = Some c
           /\ XinferenceEmbeddings.async_client self = Some a)
        /\ (exists self,
              (Xinference.__init__ env (Some url) (Some uid) api_key kw).2 = Ok self
              /\ Xinference.client self = Some c
              /\ Xinference.async_client self = Some a))
  /\ (forall e,
        RESTfulClient env url api_key = Raise e ->
        (XinferenceEmbeddings.__init__ env (Some url) (Some uid) api_key).2 = Raise e
        /\ (Xinference.__init__ env (Some url) (Some uid) api_key kw).2 = Raise e).
Proof.
  intros Hi Hp.
  destruct (emb_probe_passes env url uid Hp) as [b Hb].
  destruct (llm_probe_passes env url uid kw Hp) as [b' Hb'].
  rewrite (emb_init_run env url uid api_key Hi), (llm_init_run env url uid api_key kw Hi).
  rewrite Hb, Hb', !mbind_ok. cbn [snd].
  split; [|split].
  - intros c msg Hc Ha. rewrite Hc, Ha. split; eexists; (split; [reflexivity|]);
      split; reflexivity.
  - intros c a Hc Ha. rewrite Hc, Ha. split; eexists; (split; [reflexivity|]);
      split; reflexivity.
  - intros e Hc. rewrite Hc. split; reflexivity.
Qed.

Lemma emb_init_constructible env url uid api_key b :
  constructible env url api_key ->
  XinferenceEmbeddings._check_cluster_authenticated env (emb_blank url uid)
  = ([EvHttpGet (url +:+ "/v1/cluster/auth")],
     Ok (XinferenceEmbeddings.set_cluster_authed (emb_blank url uid) b)) ->
  exists c a,
    (XinferenceEmbeddings.__init__ env (Some url) (Some uid) api_key).2
    = Ok (XinferenceEmbeddings.set_clients
            (emb_with_header
               (XinferenceEmbeddings.set_cluster_authed (emb_blank url uid) b) api_key)
            (Some c) a).
Proof.
  intros (Hi & _ & [c Hc] & Ha) Hb.
  rewrite (emb_init_run env url uid api_key Hi), Hb, mbind_ok, Hc. cbn [snd].
  destruct (AsyncRESTfulClient env url api_key) as [a|e].
  - exists c, (Some a). reflexivity.
  - destruct e; try contradiction. exists c, None. reflexivity.
Qed.

Lemma llm_init_constructible env url uid api_key kw b :
  constructible env url api_key ->
  Xinference._check_cluster_authenticated env (llm_blank url uid kw)
  = ([EvHttpGet (url +:+ "/v1/cluster/auth")],
     Ok (Xinference.set_cluster_authed (llm_blank url uid kw) b)) ->
  exists c a,
    (Xinference.__init__ env (Some url) (Some uid) api_key kw).2
    = Ok (Xinference.set_clients
            (llm_with_header
               (Xinference.set_cluster_authed (llm_blank url uid kw) b) api_key)
            (Some c) a).
Proof.
  intros (Hi & _ & [c Hc] & Ha) Hb.
  rewrite (llm_init_run env url uid api_key kw Hi), Hb, mbind_ok, Hc. cbn [snd].
  destruct (AsyncRESTfulClient env url api_key) as [a|e].
  - exists c, (Some a). reflexivity.
  - destruct e; try contradiction. exists c, None. reflexivity.
Qed.

Lemma or_empty_dict (kw : gmap string (pyval F)) :
  (if py_truthy (PDict kw) then kw else ∅) = kw.
Proof.
  simpl. destruct (bool_decide (size kw = 0)) eqn:E; [|reflexivity].
  apply bool_decide_eq_true in E. apply map_size_empty_inv in E. subst kw. reflexivity.
Qed.

(** X3. After a 200 answer, [_cluster_authed] is the truth value of the
    answer's ["auth"] field, whatever its type, and the bearer header is
    present exactly when that value is truthy and an API key was given. *)
Theorem header_follows_truthiness env url uid api_key kw resp body auth :
  constructible env url api_key ->
  requests_get env (url +:+ "/v1/cluster/auth") = Ok resp ->
  status_code resp = 200%Z ->
  json resp = Ok (PDict body) ->
  body !! "auth" = Some auth ->
  (exists self,
     (XinferenceEmbeddings.__init__ env (Some url) (Some uid) api_key).2 = Ok self
     /\ XinferenceEmbeddings._cluster_authed self = py_truthy auth
     /\ XinferenceEmbeddings._headers self = headers_after (py_truthy auth) api_key)
  /\ (exists self,
        (Xinference.__init__ env (Some url) (Some uid) api_key kw).2 = Ok self
        /\ Xinference._cluster_authed self = py_truthy auth
        /\ Xinference._headers self = headers_after (py_truthy auth) api_key).
Proof.
  intros Hc Hget H200 Hjs Hauth.
  assert (Hg : py_getitem (PDict body) "auth" = Ok auth)
    by (simpl; rewrite Hauth; reflexivity).
  split.
  - destruct (emb_init_constructible env url uid api_key (py_truthy auth) Hc
                (emb_check_200 env (emb_blank url uid) resp _ _ Hget H200 Hjs Hg))
      as (c & a & ->).
    eexists. split; [reflexivity|].
    unfold emb_with_header, headers_after.
    destruct api_key as [key|]; cbn; [|split; reflexivity].
    destruct (py_truthy auth); cbn; split; reflexivity.
  - destruct (llm_init_constructible env url uid api_key kw (py_truthy auth) Hc
                (llm_check_200 env (llm_blank url uid kw) resp _ _ Hget H200 Hjs Hg))
      as (c & a & ->).
    eexists. split; [reflexivity|].
    unfold llm_with_header, headers_after.
    destruct api_key as [key|]; cbn; [|split; reflexivity].
    destruct (py_truthy auth); cbn; split; reflexivity.
Qed.

(** X4. A constructed adapter holds the URL and the model UID it was given
    and a blocking client; the completion adapter also holds the keyword
    options unchanged, and [_identifying_params] reports the three of
    them. *)
Theorem init_keeps_arguments env url uid api_key kw :
  constructible env url api_key ->
  (exists self,
     (XinferenceEmbeddings.__init__ env (Some url) (Some uid) api_key).2 = Ok self
     /\ XinferenceEmbeddings.server_url self = url
     /\ XinferenceEmbeddings.model_uid self = uid
     /\ is_Some (XinferenceEmbeddings.client self))
  /\ (exists self,
        (Xinference.__init__ env (Some url) (Some uid) api_key kw).2 = Ok self
        /\ Xinference.server_url self = url
        /\ Xinference.model_uid self = uid
        /\ Xinference.model_kwargs self = kw
        /\ is_Some (Xinference.client self)
        /\ Xinference._identifying_params self !! "server_url" = Some (PStr url)
        /\ Xinference._identifying_params self !! "model_uid" = Some (PStr uid)
        /\ Xinference._identifying_params self !! "model_kwargs" = Some (PDict kw)
        /\ forall key, key <> "server_url" -> key <> "model_uid" -> key <> "model_kwargs" ->
                       Xinference._identifying_params self !! key = None).
Proof.
  intros Hc. pose proof Hc as (_ & Hp & _).
  destruct (emb_probe_passes env url uid Hp) as [b Hb].
  destruct (llm_probe_passes env url uid kw Hp) as [b' Hb'].
  split.
  - destruct (emb_init_constructible env url uid api_key b Hc Hb) as (c & a & ->).
    eexists. split; [reflexivity|].
    unfold emb_with_header. destruct api_key as [key|]; cbn; [destruct b; cbn|];
      repeat split; eexists; reflexivity.
  - destruct (llm_init_constructible env url uid api_key kw b' Hc Hb') as (c & a & ->).
    eexists. split; [reflexivity|].
    assert (Hsame : forall self : Xinference.adapter F,
              Xinference.server_url self = url ->
              Xinference.model_uid self = uid ->
              Xinference.model_kwargs self = kw ->
              Xinference._identifying_params self !! "server_url" = Some (PStr url)
              /\ Xinference._identifying_params self !! "model_uid" = Some (PStr uid)
              /\ Xinference._identifying_params self !! "model_kwargs" = Some (PDict kw)
              /\ forall key, key <> "server_url" -> key <> "model_uid" ->
                             key <> "model_kwargs" ->
                             Xinference._identifying_params self !! key = None).
    { intros self <- <- <-. unfold Xinference._identifying_params.
      split; [reflexivity|]. split; [reflexivity|]. split; [reflexivity|].
      intros key H1 H2 H3.
      rewrite lookup_union_r by (apply lookup_singleton_ne; congruence).
      rewrite lookup_union_r by (apply lookup_singleton_ne; congruence).
      apply lookup_singleton_ne. congruence. }
    assert (Hkw : Xinference.model_kwargs
                    (Xinference.set_clients
                       (llm_with_header
                          (Xinference.set_cluster_authed (llm_blank url uid kw) b') api_key)
                       (Some c) a) = kw).
    { unfold llm_with_header. destruct api_key as [key|]; cbn; [destruct b'; cbn|];
        apply or_empty_dict. }
    assert (Hurl : Xinference.server_url
                    (Xinference.set_clients
                       (llm_with_header
                          (Xinference.set_cluster_authed (llm_blank url uid kw) b') api_key)
                       (Some c) a) = url).
    { unfold llm_with_header. destruct api_key as [key|]; cbn; [destruct b'; cbn|];
        reflexivity. }
    assert (Huid : Xinference.model_uid
                    (Xinference.set_clients
                       (llm_with_header
                          (Xinference.set_cluster_authed (llm_blank url uid kw) b') api_key)
                       (Some c) a) = uid).
    { unfold llm_with_header. destruct api_key as [key|]; cbn; [destruct b'; cbn|];
        reflexivity. }
    split; [exact Hurl|]. split; [exact Huid|]. split; [exact Hkw|].
    split; [eexists; reflexivity|].
    exact (Hsame _ Hurl Huid Hkw).
Qed.

(** X5. The constructors report their failures in a fixed order: a missing
    client package before anything else, then a missing server URL, then a
    missing model UID, each before the cluster is contacted. *)
Theorem init_error_precedence env server_url model_uid api_key kw :
  (xinference_installed env = false -> xinference_client_installed env = false ->
     exists msg,
       XinferenceEmbeddings.__init__ env server_url model_uid api_key
       = ([], Raise (ImportError msg))
       /\ Xinference.__init__ env server_url model_uid api_key kw
          = ([], Raise (ImportError msg)))
  /\ (xinference_installed env || xinference_client_installed env = true ->
      server_url = None ->
      XinferenceEmbeddings.__init__ env server_url model_uid api_key
      = ([], Raise (ValueError "Please provide server URL"))
      /\ Xinference.__init__ env server_url model_uid api_key kw
         = ([], Raise (ValueError "Please provide server URL")))
  /\ (xinference_installed env || xinference_client_installed env = true ->
      is_Some server_url -> model_uid = None ->
      XinferenceEmbeddings.__init__ env server_url model_uid api_key
      = ([], Raise (ValueError "Please provide the model UID"))
      /\ Xinference.__init__ env server_url model_uid api_key kw
         = ([], Raise (ValueError "Please provide the model UID"))).
Proof.
  split; [|split].
  - intros H1 H2. eexists.
    unfold XinferenceEmbeddings.__init__, Xinference.__init__, import_clients.
    rewrite H1, H2. split; reflexivity.
  - intros Hi ->. split.
    + apply (emb_init_missing env None model_uid api_key Hi). left. reflexivity.
    + apply (llm_init_missing env None model_uid api_key kw Hi). left. reflexivity.
  - intros Hi [url ->] ->. split.
    + apply (emb_init_missing env (Some url) None api_key Hi). right. reflexivity.
    + apply (llm_init_missing env (Some url) None api_key kw Hi). right. reflexivity.
Qed.

(** * Further properties of the embedding operations *)

Lemma embed_query_run (self : XinferenceEmbeddings.adapter F) model text :
  serves (XinferenceEmbeddings.client self) (XinferenceEmbeddings.model_uid self) model ->
  XinferenceEmbeddings.embed_query self text
  = ([EvGetModel (XinferenceEmbeddings.model_uid self); EvCreateEmbedding text],
     rbind (embedding_request model text) XinferenceEmbeddings.float_list).
Proof.
  intros (c & Hc & Hm).
  unfold XinferenceEmbeddings.embed_query, call_get_model, embedding_request.
  rewrite Hc, Hm. unfold call at 1. rewrite mbind_ok. unfold call, lift.
  destruct (create_embedding model text) as [r|e]; [|reflexivity].
  rewrite mbind_ok. cbn [rbind].
  destruct (XinferenceEmbeddings.embedding_of_response r) as [emb|e]; reflexivity.
Qed.

Lemma aembed_query_run (self : XinferenceEmbeddings.adapter F) model text :
  serves (XinferenceEmbeddings.async_client self) (XinferenceEmbeddings.model_uid self) model ->
  XinferenceEmbeddings.aembed_query self text
  = ([EvGetModel (XinferenceEmbeddings.model_uid self); EvCreateEmbedding text],
     rbind (embedding_request model text) XinferenceEmbeddings.float_list).
Proof.
  intros (c & Hc & Hm).
  unfold XinferenceEmbeddings.aembed_query, call_get_model, embedding_request.
  rewrite Hc, Hm. unfold call at 1. rewrite mbind_ok. unfold call, lift.
  destruct (create_embedding model text) as [r|e]; [|reflexivity].
  rewrite mbind_ok. cbn [rbind].
  destruct (XinferenceEmbeddings.embedding_of_response r) as [emb|e]; reflexivity.
Qed.

Lemma float_list_run (e : list (pyval F)) vec :
  floats_of e vec -> XinferenceEmbeddings.float_list (PList e) = Ok vec.
Proof. intros Hv. unfold XinferenceEmbeddings.float_list. simpl. apply floats_of_run, Hv. Qed.

(** X6. When the remote answers [text] with a well-shaped embedding whose
    numbers convert, [embed_query] (and [aembed_query] through the
    non-blocking handle) fetches the model, sends one embedding request and
    returns the converted embedding. *)
Theorem embed_query_returns_embedding
    (self : XinferenceEmbeddings.adapter F) model text r e vec :
  create_embedding model text = Ok r ->
  has_embedding r e ->
  floats_of e vec ->
  (serves (XinferenceEmbeddings.client self) (XinferenceEmbeddings.model_uid self) model ->
     XinferenceEmbeddings.embed_query self text
     = ([EvGetModel (XinferenceEmbeddings.model_uid self); EvCreateEmbedding text], Ok vec))
  /\ (serves (XinferenceEmbeddings.async_client self)
             (XinferenceEmbeddings.model_uid self) model ->
      XinferenceEmbeddings.aembed_query self text
      = ([EvGetModel (XinferenceEmbeddings.model_uid self); EvCreateEmbedding text], Ok vec)).
Proof.
  intros Hr He Hv.
  assert (Hreq : rbind (embedding_request model text) XinferenceEmbeddings.float_list = Ok vec).
  { unfold embedding_request. rewrite Hr. cbn [rbind].
    rewrite (has_embedding_extract _ _ He). cbn [rbind]. apply float_list_run, Hv. }
  split; intros Hs.
  - rewrite (embed_query_run self model text Hs), Hreq. reflexivity.
  - rewrite (aembed_query_run self model text Hs), Hreq. reflexivity.
Qed.

(** X7. Whatever the remote does, embedding a one-element list is embedding
    that element: the same calls are made, and [embed_documents [text]]
    returns the one-element list of what [embed_query text] returns or
    raises what it raises.  The asynchronous pair agrees in the same way. *)
Theorem embed_documents_singleton (self : XinferenceEmbeddings.adapter F) text :
  XinferenceEmbeddings.embed_documents self [text]
  = ((XinferenceEmbeddings.embed_query self text).1,
     rbind (XinferenceEmbeddings.embed_query self text).2 (fun vec => Ok [vec]))
  /\ XinferenceEmbeddings.aembed_documents self [text]
     = ((XinferenceEmbeddings.aembed_query self text).1,
        rbind (XinferenceEmbeddings.aembed_query self text).2 (fun vec => Ok [vec])).
Proof.
  unfold XinferenceEmbeddings.embed_documents, XinferenceEmbeddings.aembed_documents,
    XinferenceEmbeddings.embed_query, XinferenceEmbeddings.aembed_query, call_get_model.
  split.
  - destruct (XinferenceEmbeddings.client self) as [c|]; [|reflexivity].
    destruct (get_model c _) as [model|e]; [|reflexivity].
    cbn [mbind call lift mret mmap_list fst snd rbind rmap_list].
    destruct (create_embedding model text) as [r|e]; [|reflexivity].
    destruct (XinferenceEmbeddings.embedding_of_response r) as [emb|e]; [|reflexivity].
    cbn [mbind call lift mret mmap_list fst snd rbind rmap_list app].
    destruct (XinferenceEmbeddings.float_list emb) as [vec|e]; reflexivity.
  - destruct (XinferenceEmbeddings.async_client self) as [c|]; [|reflexivity].
    destruct (get_model c _) as [model|e]; [|reflexivity].
    cbn [mbind call lift mret mmap_list fst snd rbind rmap_list].
    destruct (create_embedding model text) as [r|e]; [|reflexivity].
    destruct (XinferenceEmbeddings.embedding_of_response r) as [emb|e]; [|reflexivity].
    cbn [mbind call lift mret mmap_list fst snd rbind rmap_list app].
    destruct (XinferenceEmbeddings.float_list emb) as [vec|e]; reflexivity.
Qed.

Lemma embed_documents_run (self : XinferenceEmbeddings.adapter F) model texts :
  serves (XinferenceEmbeddings.client self) (XinferenceEmbeddings.model_uid self) model ->
  XinferenceEmbeddings.embed_documents self texts
  = (EvGetModel (XinferenceEmbeddings.model_uid self) :: (embedding_requests model texts).1,
     rbind (embedding_requests model texts).2 (rmap_list XinferenceEmbeddings.float_list)).
Proof.
  intros (c & Hc & Hm).
  unfold XinferenceEmbeddings.embed_documents, call_get_model.
  rewrite Hc, Hm. unfold call at 1. rewrite mbind_ok.
  fold (embedding_requests model texts).
  destruct (embedding_requests model texts) as [evs [embs|e]]; [|reflexivity].
  rewrite mbind_ok. unfold lift. cbn [fst snd rbind]. rewrite app_nil_r. reflexivity.
Qed.

Lemma aembed_documents_run (self : XinferenceEmbeddings.adapter F) model texts :
  serves (XinferenceEmbeddings.async_client self) (XinferenceEmbeddings.model_uid self) model ->
  XinferenceEmbeddings.aembed_documents self texts
  = (EvGetModel (XinferenceEmbeddings.model_uid self) :: (embedding_requests model texts).1,
     rbind (embedding_requests model texts).2 (rmap_list XinferenceEmbeddings.float_list)).
Proof.
  intros (c & Hc & Hm).
  unfold XinferenceEmbeddings.aembed_documents, call_get_model.
  rewrite Hc, Hm. unfold call at 1. rewrite mbind_ok.
  fold (embedding_requests model texts).
  destruct (embedding_requests model texts) as [evs [embs|e]]; [|reflexivity].
  rewrite mbind_ok. unfold lift. cbn [fst snd rbind]. rewrite app_nil_r. reflexivity.
Qed.

Lemma embedding_requests_ok model (texts : list string) embs :
  Forall2 (fun t e => exists r, create_embedding model t = Ok r /\ has_embedding r e)
          texts embs ->
  embedding_requests model texts = (EvCreateEmbedding <$> texts, Ok (PList <$> embs)).
Proof. apply embedding_requests_run. Qed.

Lemma embedding_requests_fail model (pre : list string) embs t post e :
  Forall2 (fun t e => exists r, create_embedding model t = Ok r /\ has_embedding r e)
          pre embs ->
  embedding_request model t = Raise e ->
  embedding_requests model (pre ++ t :: post)
  = (EvCreateEmbedding <$> (pre ++ [t]), Raise e).
Proof.
  intros Hpre Ht. unfold embedding_requests.
  induction Hpre as [|t0 e0 pre embs (r & Hr & He) _ IH].
  - cbn [app mmap_list]. unfold embedding_request in Ht. unfold call, lift.
    destruct (create_embedding model t) as [r|e']; cbn [rbind] in Ht.
    + rewrite mbind_ok. cbn [fst snd]. rewrite Ht. reflexivity.
    + inversion Ht; subst. reflexivity.
  - change ((t0 :: pre) ++ t :: post) with (t0 :: (pre ++ t :: post)).
    cbn [mmap_list]. rewrite IH, Hr. unfold call, lift. cbn [mbind].
    rewrite (has_embedding_extract _ _ He). reflexivity.
Qed.

(** X8. [embed_documents] stops at the first text whose request fails,
    whether the remote call raises or its answer lacks the expected fields:
    the texts before it and that text have been requested, the texts after
    it never are, and the error is passed on.  [aembed_documents] does the
    same through the non-blocking handle. *)
Theorem embed_documents_stops_at_first_failure
    (self : XinferenceEmbeddings.adapter F) model pre t post embs e :
  Forall2 (fun t e => exists r, create_embedding model t = Ok r /\ has_embedding r e)
          pre embs ->
  embedding_request model t = Raise e ->
  (serves (XinferenceEmbeddings.client self) (XinferenceEmbeddings.model_uid self) model ->
     XinferenceEmbeddings.embed_documents self (pre ++ t :: post)
     = (EvGetModel (XinferenceEmbeddings.model_uid self)
          :: (EvCreateEmbedding <$> (pre ++ [t])), Raise e))
  /\ (serves (XinferenceEmbeddings.async_client self)
             (XinferenceEmbeddings.model_uid self) model ->
      XinferenceEmbeddings.aembed_documents self (pre ++ t :: post)
      = (EvGetModel (XinferenceEmbeddings.model_uid self)
           :: (EvCreateEmbedding <$> (pre ++ [t])), Raise e)).
Proof.
  intros Hpre Ht. split; intros Hs.
  - rewrite (embed_documents_run self model _ Hs).
    rewrite (embedding_requests_fail model pre embs t post e Hpre Ht). reflexivity.
  - rewrite (aembed_documents_run self model _ Hs).
    rewrite (embedding_requests_fail model pre embs t post e Hpre Ht). reflexivity.
Qed.

Lemma float_lists_fail (embs1 : list (list (pyval F))) vecs1 bad embs2 e :
  Forall2 floats_of embs1 vecs1 ->
  rmap_list py_float bad = Raise e ->
  rmap_list XinferenceEmbeddings.float_list (PList <$> (embs1 ++ bad :: embs2)) = Raise e.
Proof.
  intros H1 Hbad. induction H1 as [|e1 fs embs1 vecs1 He1 _ IH].
  - cbn [app fmap list_fmap rmap_list]. unfold XinferenceEmbeddings.float_list at 1.
    cbn [py_iter rbind]. rewrite Hbad. reflexivity.
  - change (rmap_list XinferenceEmbeddings.float_list
              (PList <$> (e1 :: embs1) ++ bad :: embs2))
      with (rbind (XinferenceEmbeddings.float_list (PList e1)) (fun y =>
            rbind (rmap_list XinferenceEmbeddings.float_list
                     (PList <$> embs1 ++ bad :: embs2)) (fun ys => Ok (y :: ys)))).
    rewrite IH, (float_list_run _ _ He1). reflexivity.
Qed.

(** X9. The numbers are converted only after every text has been
    requested: when all answers are well shaped but some embedding holds a
    value that [float] rejects, [embed_documents] has already sent one
    request per text when it raises the conversion error. *)
Theorem embed_documents_converts_after_requests
    (self : XinferenceEmbeddings.adapter F) model texts embs1 vecs1 bad embs2 e :
  Forall2 (fun t e => exists r, create_embedding model t = Ok r /\ has_embedding r e)
          texts (embs1 ++ bad :: embs2) ->
  Forall2 floats_of embs1 vecs1 ->
  rmap_list py_float bad = Raise e ->
  (serves (XinferenceEmbeddings.client self) (XinferenceEmbeddings.model_uid self) model ->
     XinferenceEmbeddings.embed_documents self texts
     = (EvGetModel (XinferenceEmbeddings.model_uid self) :: (EvCreateEmbedding <$> texts),
        Raise e))
  /\ (serves (XinferenceEmbeddings.async_client self)
             (XinferenceEmbeddings.model_uid self) model ->
      XinferenceEmbeddings.aembed_documents self texts
      = (EvGetModel (XinferenceEmbeddings.model_uid self) :: (EvCreateEmbedding <$> texts),
         Raise e)).
Proof.
  intros Hreq H1 Hbad. split; intros Hs.
  - rewrite (embed_documents_run self model _ Hs), (embedding_requests_ok _ _ _ Hreq).
    cbn [fst snd rbind]. rewrite (float_lists_fail _ _ _ _ _ H1 Hbad). reflexivity.
  - rewrite (aembed_documents_run self model _ Hs), (embedding_requests_ok _ _ _ Hreq).
    cbn [fst snd rbind]. rewrite (float_lists_fail _ _ _ _ _ H1 Hbad). reflexivity.
Qed.

(** X10. An answer without the expected fields makes [embed_query] raise a
    lookup error after its one request: [KeyError] for a missing ["data"],
    [IndexError] for an empty ["data"] list, [KeyError] for a first entry
    without ["embedding"]. *)
Theorem embed_query_malformed_answer
    (self : XinferenceEmbeddings.adapter F) model text d :
  serves (XinferenceEmbeddings.client self) (XinferenceEmbeddings.model_uid self) model ->
  create_embedding model text = Ok (PDict d) ->
  (d !! "data" = None ->
     XinferenceEmbeddings.embed_query self text
     = ([EvGetModel (XinferenceEmbeddings.model_uid self); EvCreateEmbedding text],
        Raise (KeyError "data")))
  /\ (d !! "data" = Some (PList []) ->
      XinferenceEmbeddings.embed_query self text
      = ([EvGetModel (XinferenceEmbeddings.model_uid self); EvCreateEmbedding text],
         Raise (IndexError "list index out of range")))
  /\ (forall item others,
        d !! "data" = Some (PList (PDict item :: others)) ->
        item !! "embedding" = None ->
        XinferenceEmbeddings.embed_query self text
        = ([EvGetModel (XinferenceEmbeddings.model_uid self); EvCreateEmbedding text],
           Raise (KeyError "embedding"))).
Proof.
  intros Hs Hr. rewrite (embed_query_run self model text Hs).
  unfold embedding_request, XinferenceEmbeddings.embedding_of_response. rewrite Hr.
  cbn [rbind py_getitem].
  split; [|split].
  - intros ->. reflexivity.
  - intros ->. reflexivity.
  - intros item others -> Hitem. cbn [rbind py_getitem0 py_getitem]. rewrite Hitem.
    reflexivity.
Qed.

(** X11. Through a present non-blocking handle, [aembed_documents] does what
    [embed_documents] does through the blocking one: with well-shaped
    answers whose numbers convert, one request per text in input order and
    the converted embeddings in that order. *)
Theorem aembed_documents_one_call_per_text
    (self : XinferenceEmbeddings.adapter F) model (texts : list string) embs vecs :
  serves (XinferenceEmbeddings.async_client self) (XinferenceEmbeddings.model_uid self) model ->
  Forall2 (fun t e => exists r, create_embedding model t = Ok r /\ has_embedding r e)
          texts embs ->
  Forall2 floats_of embs vecs ->
  XinferenceEmbeddings.aembed_documents self texts
  = (EvGetModel (XinferenceEmbeddings.model_uid self) :: (EvCreateEmbedding <$> texts),
     Ok vecs)
  /\ length vecs = length texts.
Proof.
  intros Hs Hreq Hfl. split.
  - rewrite (aembed_documents_run self model _ Hs), (embedding_requests_ok _ _ _ Hreq).
    cbn [fst snd rbind]. rewrite (float_lists_run _ _ Hfl). reflexivity.
  - apply Forall2_length in Hreq. apply Forall2_length in Hfl. congruence.
Qed.

(** * Further properties of the completion operations *)

Lemma call_body_plain stream_generate model prompt run_manager opts :
  py_truthy (dict_get opts "stream" PNone) = false ->
  call_body_after stream_generate model prompt run_manager opts
  = ([EvGenerate prompt opts], rbind (generate model prompt opts) completion_text).
Proof.
  intros Hoff. unfold call_body_after. rewrite Hoff, andb_false_r.
  unfold call, lift. destruct (generate model prompt opts) as [completion|e];
    [|reflexivity].
  rewrite mbind_ok. reflexivity.
Qed.

Lemma call_plain_run (self : Xinference.adapter F) model prompt stop run_manager kwargs g :
  call_config kwargs g ->
  py_truthy (dict_get (call_options self g stop) "stream" PNone) = false ->
  (serves (Xinference.client self) (Xinference.model_uid self) model ->
     Xinference._call self prompt stop run_manager kwargs
     = ([EvGetModel (Xinference.model_uid self);
         EvGenerate prompt (call_options self g stop)],
        rbind (generate model prompt (call_options self g stop)) completion_text))
  /\ (serves (Xinference.async_client self) (Xinference.model_uid self) model ->
      Xinference._acall self prompt stop run_manager kwargs
      = ([EvGetModel (Xinference.model_uid self);
          EvGenerate prompt (call_options self g stop)],
         rbind (generate model prompt (call_options self g stop)) completion_text)).
Proof.
  intros Hcfg Hoff. split; intros Hs.
  - rewrite (call_eq self model prompt stop run_manager kwargs g Hs Hcfg), mbind_ok.
    rewrite (call_body_plain _ _ _ _ _ Hoff). reflexivity.
  - rewrite (acall_eq self model prompt stop run_manager kwargs g Hs Hcfg), mbind_ok.
    rewrite (call_body_plain _ _ _ _ _ Hoff). reflexivity.
Qed.

(** X12. When the merged options do not switch streaming on, the plain call
    makes one remote generate call and returns the text of the first choice
    of its answer as it is; the progress observer, present or not, is never
    notified. *)
Theorem call_without_streaming
    (self : Xinference.adapter F) model prompt stop run_manager kwargs g d choice others v :
  call_config kwargs g ->
  py_truthy (dict_get (call_options self g stop) "stream" PNone) = false ->
  generate model prompt (call_options self g stop) = Ok (PDict d) ->
  d !! "choices" = Some (PList (PDict choice :: others)) ->
  choice !! "text" = Some v ->
  (serves (Xinference.client self) (Xinference.model_uid self) model ->
     Xinference._call self prompt stop run_manager kwargs
     = ([EvGetModel (Xinference.model_uid self);
         EvGenerate prompt (call_options self g stop)], Ok v))
  /\ (serves (Xinference.async_client self) (Xinference.model_uid self) model ->
      Xinference._acall self prompt stop run_manager kwargs
      = ([EvGetModel (Xinference.model_uid self);
          EvGenerate prompt (call_options self g stop)], Ok v)).
Proof.
  intros Hcfg Hoff Hgen Hch Htext.
  destruct (call_plain_run self model prompt stop run_manager kwargs g Hcfg Hoff)
    as [Hsync Hasync].
  assert (Hres : rbind (generate model prompt (call_options self g stop)) completion_text
                 = Ok v).
  { rewrite Hgen. unfold completion_text. cbn [rbind py_getitem]. rewrite Hch.
    cbn [rbind py_getitem0 py_getitem]. rewrite Htext. reflexivity. }
  split; intros Hs.
  - rewrite (Hsync Hs), Hres. reflexivity.
  - rewrite (Hasync Hs), Hres. reflexivity.
Qed.

(** X13. Without streaming the plain call does not tolerate a malformed
    answer: a missing ["choices"] raises [KeyError], an empty ["choices"]
    list raises [IndexError], and a first choice without ["text"] raises
    [KeyError], where the streaming paths skip or default. *)
Theorem call_without_streaming_malformed
    (self : Xinference.adapter F) model prompt stop run_manager kwargs g d :
  call_config kwargs g ->
  py_truthy (dict_get (call_options self g stop) "stream" PNone) = false ->
  generate model prompt (call_options self g stop) = Ok (PDict d) ->
  serves (Xinference.client self) (Xinference.model_uid self) model ->
  (d !! "choices" = None ->
     (Xinference._call self prompt stop run_manager kwargs).2 = Raise (KeyError "choices"))
  /\ (d !! "choices" = Some (PList []) ->
      (Xinference._call self prompt stop run_manager kwargs).2
      = Raise (IndexError "list index out of range"))
  /\ (forall choice others,
        d !! "choices" = Some (PList (PDict choice :: others)) ->
        choice !! "text" = None ->
        (Xinference._call self prompt stop run_manager kwargs).2 = Raise (KeyError "text")).
Proof.
  intros Hcfg Hoff Hgen Hs.
  destruct (call_plain_run self model prompt stop run_manager kwargs g Hcfg Hoff)
    as [Hsync _].
  rewrite (Hsync Hs), Hgen. unfold completion_text. cbn [snd rbind py_getitem].
  split; [|split].
  - intros ->. reflexivity.
  - intros ->. reflexivity.
  - intros choice others -> Htext. cbn [rbind py_getitem0 py_getitem]. rewrite Htext.
    reflexivity.
Qed.

(** X14. A completion adapter whose handle is [None] refuses the call with
    [ValueError "Client is not initialized!"] before any collaborator is
    contacted: [_call] and [_stream] for the blocking handle, [_acall] and
    [_astream] for the non-blocking one. *)
Theorem llm_handle_guard (self : Xinference.adapter F) prompt stop run_manager kwargs g :
  call_config kwargs g ->
  (Xinference.client self = None ->
     Xinference._call self prompt stop run_manager kwargs
     = ([], Raise (ValueError "Client is not initialized!"))
     /\ Xinference._stream self prompt stop run_manager kwargs
        = GRaise [] (ValueError "Client is not initialized!"))
  /\ (Xinference.async_client self = None ->
      Xinference._acall self prompt stop run_manager kwargs
      = ([], Raise (ValueError "Client is not initialized!"))
      /\ Xinference._astream self prompt stop run_manager kwargs
         = GRaise [] (ValueError "Client is not initialized!")).
Proof.
  intros Hcfg. unfold call_config in Hcfg.
  unfold Xinference._call, Xinference._stream, Xinference._acall, Xinference._astream.
  rewrite Hcfg. split; intros ->; split; reflexivity.
Qed.

(** X15. A [generate_config] that is not a mapping is rejected with
    [TypeError] when the options are merged.  The plain calls merge after
    fetching the model, so they have contacted the client once and made no
    generate call; the chunked streams merge first, so they contact nothing
    and raise this error even when their handle is [None]. *)
Theorem non_mapping_generate_config
    (self : Xinference.adapter F) model prompt stop run_manager kwargs v :
  kwargs !! "generate_config" = Some v ->
  (forall m, v <> PDict m) ->
  (serves (Xinference.client self) (Xinference.model_uid self) model ->
     Xinference._call self prompt stop run_manager kwargs
     = ([EvGetModel (Xinference.model_uid self)], Raise (TypeError (not_a_mapping v))))
  /\ (serves (Xinference.async_client self) (Xinference.model_uid self) model ->
      Xinference._acall self prompt stop run_manager kwargs
      = ([EvGetModel (Xinference.model_uid self)], Raise (TypeError (not_a_mapping v))))
  /\ Xinference._stream self prompt stop run_manager kwargs
     = GRaise [] (TypeError (not_a_mapping v))
  /\ Xinference._astream self prompt stop run_manager kwargs
     = GRaise [] (TypeError (not_a_mapping v)).
Proof.
  intros Hk Hv.
  assert (Hmerge : py_dict_merge (Xinference.model_kwargs self)
                     (dict_get kwargs "generate_config" (PDict ∅))
                   = Raise (TypeError (not_a_mapping v))).
  { rewrite (dict_get_Some _ _ _ _ Hk). unfold py_dict_merge, not_a_mapping.
    destruct v; try reflexivity. exfalso. eapply Hv. reflexivity. }
  unfold Xinference._call, Xinference._stream, Xinference._acall, Xinference._astream.
  rewrite Hmerge. split; [|split; [|split]]; try reflexivity.
  - intros (c & -> & ->). reflexivity.
  - intros (c & -> & ->). reflexivity.
Qed.

Lemma notified_tokens_app (l1 l2 : list (event F)) :
  notified_tokens (l1 ++ l2) = notified_tokens l1 ++ notified_tokens l2.
Proof.
  induction l1 as [|ev l1 IH]; [reflexivity|].
  destruct ev; cbn [app notified_tokens]; rewrite IH; reflexivity.
Qed.

Lemma stream_loop_notified (events : list (pyval F)) :
  notified_tokens (gen_events (Xinference.stream_loop true events))
  = (fun chunk => PStr (Xinference.text chunk))
      <$> gen_yields (Xinference.stream_loop true events)
  /\ notified_tokens (gen_events (Xinference.stream_loop false events)) = []
  /\ gen_yields (Xinference.stream_loop true events)
     = gen_yields (Xinference.stream_loop false events).
Proof.
  induction events as [|ev events (IH1 & IH2 & IH3)]; [repeat split|].
  cbn [Xinference.stream_loop].
  destruct (py_truthy ev); [|repeat split; assumption].
  destruct (Xinference._stream_response_to_generation_chunk ev) as [chunk|e];
    [|repeat split].
  cbn [gen_events gen_yields app notified_tokens fmap list_fmap].
  split; [|split].
  - f_equal. exact IH1.
  - exact IH2.
  - f_equal. exact IH3.
Qed.

Lemma stream_body_notified model prompt opts :
  notified_tokens (gen_events (stream_body_after model prompt true opts))
  = (fun chunk => PStr (Xinference.text chunk))
      <$> gen_yields (stream_body_after model prompt true opts)
  /\ notified_tokens (gen_events (stream_body_after model prompt false opts)) = []
  /\ gen_yields (stream_body_after model prompt true opts)
     = gen_yields (stream_body_after model prompt false opts).
Proof.
  unfold stream_body_after, call, lift.
  destruct (generate model prompt opts) as [response|e]; [|repeat split].
  cbn [gen_bind]. destruct (py_iter response) as [events|e]; [|repeat split].
  cbn [gen_bind]. rewrite !gen_after_nil, !gen_events_after, !gen_yields_after.
  rewrite !notified_tokens_app. cbn [notified_tokens app].
  apply stream_loop_notified.
Qed.

Lemma stream_cases (self : Xinference.adapter F) prompt stop kwargs :
  (exists evs e, notified_tokens evs = []
                 /\ forall run_manager,
                      Xinference._stream self prompt stop run_manager kwargs = GRaise evs e)
  \/ (exists model opts,
        forall run_manager,
          Xinference._stream self prompt stop run_manager kwargs
          = gen_after [EvGetModel (Xinference.model_uid self)]
              (stream_body_after model prompt run_manager opts)).
Proof.
  unfold Xinference._stream.
  destruct (py_dict_merge (Xinference.model_kwargs self)
              (dict_get kwargs "generate_config" (PDict ∅))) as [cfg|e].
  - destruct (Xinference.client self) as [c|].
    + destruct (get_model c (Xinference.model_uid self)) as [model|e] eqn:Hm.
      * right. exists model, (Xinference.force_stream (Xinference.with_stop stop cfg)).
        intros run_manager. unfold lift at 1. cbn [gen_bind]. rewrite gen_after_nil.
        unfold call at 1. cbn [gen_bind]. reflexivity.
      * left. exists [EvGetModel (Xinference.model_uid self)], e.
        split; [reflexivity|]. intros run_manager. reflexivity.
    + left. exists [], (ValueError "Client is not initialized!").
      split; [reflexivity|]. intros run_manager. reflexivity.
  - left. exists [], e. split; [reflexivity|]. intros run_manager. reflexivity.
Qed.

Lemma astream_cases (self : Xinference.adapter F) prompt stop kwargs :
  (exists evs e, notified_tokens evs = []
                 /\ forall run_manager,
                      Xinference._astream self prompt stop run_manager kwargs = GRaise evs e)
  \/ (exists model opts,
        forall run_manager,
          Xinference._astream self prompt stop run_manager kwargs
          = gen_after [EvGetModel (Xinference.model_uid self)]
              (stream_body_after model prompt run_manager opts)).
Proof.
  unfold Xinference._astream.
  destruct (py_dict_merge (Xinference.model_kwargs self)
              (dict_get kwargs "generate_config" (PDict ∅))) as [cfg|e].
  - destruct (Xinference.async_client self) as [c|].
    + destruct (get_model c (Xinference.model_uid self)) as [model|e] eqn:Hm.
      * right. exists model, (Xinference.force_stream (Xinference.with_stop stop cfg)).
        intros run_manager. unfold lift at 1. cbn [gen_bind]. rewrite gen_after_nil.
        unfold call at 1. cbn [gen_bind]. reflexivity.
      * left. exists [EvGetModel (Xinference.model_uid self)], e.
        split; [reflexivity|]. intros run_manager. reflexivity.
    + left. exists [], (ValueError "Client is not initialized!").
      split; [reflexivity|]. intros run_manager. reflexivity.
  - left. exists [], e. split; [reflexivity|]. intros run_manager. reflexivity.
Qed.

(** X16. In [_stream] and [_astream] the progress observer is told exactly
    the texts of the chunks that are yielded, in the order in which they are
    yielded, whatever the remote sends; without an observer nothing is
    notified and the same chunks are yielded. *)
Theorem stream_observer_sees_the_chunks
    (self : Xinference.adapter F) prompt stop kwargs :
  (notified_tokens (gen_events (Xinference._stream self prompt stop true kwargs))
   = (fun chunk => PStr (Xinference.text chunk))
       <$> gen_yields (Xinference._stream self prompt stop true kwargs)
   /\ notified_tokens (gen_events (Xinference._stream self prompt stop false kwargs)) = []
   /\ gen_yields (Xinference._stream self prompt stop true kwargs)
      = gen_yields (Xinference._stream self prompt stop false kwargs))
  /\ (notified_tokens (gen_events (Xinference._astream self prompt stop true kwargs))
      = (fun chunk => PStr (Xinference.text chunk))
          <$> gen_yields (Xinference._astream self prompt stop true kwargs)
      /\ notified_tokens (gen_events (Xinference._astream self prompt stop false kwargs)) = []
      /\ gen_yields (Xinference._astream self prompt stop true kwargs)
         = gen_yields (Xinference._astream self prompt stop false kwargs)).
Proof.
  split.
  - destruct (stream_cases self prompt stop kwargs)
      as [(evs & e & Hevs & Hrun) | (model & opts & Hrun)]; rewrite !Hrun.
    + cbn [gen_events gen_yields]. rewrite Hevs. repeat split.
    + rewrite !gen_events_after, !gen_yields_after, !notified_tokens_app.
      cbn [notified_tokens app]. apply stream_body_notified.
  - destruct (astream_cases self prompt stop kwargs)
      as [(evs & e & Hevs & Hrun) | (model & opts & Hrun)]; rewrite !Hrun.
    + cbn [gen_events gen_yields]. rewrite Hevs. repeat split.
    + rewrite !gen_events_after, !gen_yields_after, !notified_tokens_app.
      cbn [notified_tokens app]. apply stream_body_notified.
Qed.

Lemma call_body_stream_run model prompt run_manager opts frags :
  py_truthy (dict_get opts "stream" PNone) = true ->
  generate model prompt opts = Ok (PList frags) ->
  call_body_after Xinference._stream_generate model prompt run_manager opts
  = (EvGenerate prompt opts
       :: (for_each (Xinference.generate_loop run_manager frags) py_str_add EmptyString).1,
     rbind (for_each (Xinference.generate_loop run_manager frags) py_str_add EmptyString).2
           (fun s => Ok (PStr s))).
Proof.
  intros Hflag Hgen. unfold call_body_after.
  rewrite (stream_flag_nonempty _ Hflag), Hflag. cbn [andb].
  unfold Xinference._stream_generate. rewrite Hgen. unfold call, lift.
  cbn [gen_bind py_iter]. rewrite gen_after_nil, for_each_after.
  destruct (for_each (Xinference.generate_loop run_manager frags) py_str_add EmptyString)
    as [evs [s|e]]; cbn [fst snd]; [|reflexivity].
  rewrite mbind_ok. cbn [fst snd mret rbind app]. rewrite app_nil_r. reflexivity.
Qed.

Lemma call_stream_run (self : Xinference.adapter F) prompt stop run_manager kwargs frags :
  (plain_streams self (Xinference.client self) prompt stop kwargs frags ->
     exists opts,
       Xinference._call self prompt stop run_manager kwargs
       = (EvGetModel (Xinference.model_uid self) :: EvGenerate prompt opts
            :: (for_each (Xinference.generate_loop run_manager frags)
                         py_str_add EmptyString).1,
          rbind (for_each (Xinference.generate_loop run_manager frags)
                          py_str_add EmptyString).2
                (fun s => Ok (PStr s))))
  /\ (plain_streams self (Xinference.async_client self) prompt stop kwargs frags ->
      exists opts,
        Xinference._acall self prompt stop run_manager kwargs
        = (EvGetModel (Xinference.model_uid self) :: EvGenerate prompt opts
             :: (for_each (Xinference.generate_loop run_manager frags)
                          py_str_add EmptyString).1,
           rbind (for_each (Xinference.generate_loop run_manager frags)
                           py_str_add EmptyString).2
                 (fun s => Ok (PStr s)))).
Proof.
  split; intros (model & g & Hs & Hcfg & Hflag & Hgen); exists (call_options self g stop).
  - rewrite (call_eq self model prompt stop run_manager kwargs g Hs Hcfg), mbind_ok.
    rewrite (call_body_stream_run _ _ _ _ _ Hflag Hgen). reflexivity.
  - rewrite (acall_eq self model prompt stop run_manager kwargs g Hs Hcfg), mbind_ok.
    rewrite astream_generate_eq, (call_body_stream_run _ _ _ _ _ Hflag Hgen). reflexivity.
Qed.

Lemma generate_loop_observed (frags : list (pyval F)) acc evs s :
  for_each (Xinference.generate_loop true frags) py_str_add acc = (evs, Ok s) ->
  exists texts, notified_tokens evs = PStr <$> texts /\ s = acc +:+ concat_strings texts.
Proof.
  revert acc evs s. induction frags as [|chunk frags IH]; intros acc evs s.
  - cbn. intros Heq. inversion Heq; subst. exists []. split; [reflexivity|].
    cbn [concat_strings]. rewrite string_append_nil_r. reflexivity.
  - cbn [Xinference.generate_loop].
    destruct chunk; try apply IH.
    destruct (py_truthy (dict_get d "choices" (PList []))); [|apply IH].
    destruct (py_getitem0 (dict_get d "choices" (PList []))) as [c|e];
      [|cbn; discriminate].
    destruct c; try apply IH.
    cbn [for_each].
    destruct (dict_get d0 "text" (PStr EmptyString)) as [| | | |t| |] eqn:Htok;
      try (cbn; discriminate).
    cbn [py_str_add]. rewrite mbind_ok.
    destruct (for_each (Xinference.generate_loop true frags) py_str_add (acc +:+ t))
      as [evs' r] eqn:Hrest.
    cbn [fst snd]. intros Heq. inversion Heq; subst.
    destruct (IH _ _ _ Hrest) as (texts & Hn & Hs).
    exists (t :: texts). split.
    + cbn [app notified_tokens fmap list_fmap]. f_equal. exact Hn.
    + cbn [concat_strings]. rewrite <- string_append_assoc. exact Hs.
Qed.

Lemma for_each_no_notify {A S} (g : gen F A) (body : S -> A -> result S) acc :
  notified_tokens (gen_events g) = [] ->
  notified_tokens (for_each g body acc).1 = [].
Proof.
  revert acc. induction g as [evs|evs e|evs a k IH]; intros acc Hg; simpl in *;
    try assumption.
  rewrite notified_tokens_app in Hg. apply app_eq_nil in Hg as [Hevs Hk].
  destruct (body acc a) as [acc'|e]; simpl; [|assumption].
  specialize (IH acc' Hk). destruct (for_each k body acc') as [evs' r]. simpl in *.
  rewrite notified_tokens_app, Hevs, IH. reflexivity.
Qed.

Lemma generate_loop_silent (chunks : list (pyval F)) :
  notified_tokens (gen_events (Xinference.generate_loop false chunks)) = [].
Proof.
  induction chunks as [|chunk chunks IH]; [reflexivity|].
  cbn [Xinference.generate_loop].
  destruct chunk; try exact IH.
  destruct (py_truthy (dict_get d "choices" (PList []))); [|exact IH].
  destruct (py_getitem0 (dict_get d "choices" (PList []))) as [c|e]; [|reflexivity].
  destruct c; exact IH.
Qed.

(** X17. Whatever fragments the remote streams, a streaming plain call that
    returns has returned the concatenation of exactly the tokens its
    progress observer was told, in that order; without an observer nothing
    is notified. *)
Theorem plain_call_returns_what_observer_saw
    (self : Xinference.adapter F) prompt stop kwargs frags :
  (plain_streams self (Xinference.client self) prompt stop kwargs frags ->
     (forall evs r,
        Xinference._call self prompt stop true kwargs = (evs, Ok r) ->
        exists texts, notified_tokens evs = PStr <$> texts
                      /\ r = PStr (concat_strings texts))
     /\ notified_tokens (Xinference._call self prompt stop false kwargs).1 = [])
  /\ (plain_streams self (Xinference.async_client self) prompt stop kwargs frags ->
     (forall evs r,
        Xinference._acall self prompt stop true kwargs = (evs, Ok r) ->
        exists texts, notified_tokens evs = PStr <$> texts
                      /\ r = PStr (concat_strings texts))
     /\ notified_tokens (Xinference._acall self prompt stop false kwargs).1 = []).
Proof.
  split; intros Hp.
  - split.
    + intros evs r.
      destruct (proj1 (call_stream_run self prompt stop true kwargs frags) Hp) as [opts ->].
      destruct (for_each (Xinference.generate_loop true frags) py_str_add EmptyString)
        as [evs' [s|e]] eqn:Hrun; cbn [fst snd rbind]; intros Heq; inversion Heq; subst.
      destruct (generate_loop_observed _ _ _ _ Hrun) as (texts & Hn & Hs).
      exists texts. split; [exact Hn|]. rewrite Hs. reflexivity.
    + destruct (proj1 (call_stream_run self prompt stop false kwargs frags) Hp) as [opts ->].
      cbn [fst notified_tokens].
      apply for_each_no_notify, generate_loop_silent.
  - split.
    + intros evs r.
      destruct (proj2 (call_stream_run self prompt stop true kwargs frags) Hp) as [opts ->].
      destruct (for_each (Xinference.generate_loop true frags) py_str_add EmptyString)
        as [evs' [s|e]] eqn:Hrun; cbn [fst snd rbind]; intros Heq; inversion Heq; subst.
      destruct (generate_loop_observed _ _ _ _ Hrun) as (texts & Hn & Hs).
      exists texts. split; [exact Hn|]. rewrite Hs. reflexivity.
    + destruct (proj2 (call_stream_run self prompt stop false kwargs frags) Hp) as [opts ->].
      cbn [fst notified_tokens].
      apply for_each_no_notify, generate_loop_silent.
Qed.

Lemma non_mapping_event (ev : pyval F) :
  (forall m, ev <> PDict m) ->
  Xinference._stream_response_to_generation_chunk ev
  = Raise (TypeError "stream_response type error!")
  /\ forall run_manager rest,
       Xinference.generate_loop run_manager (ev :: rest)
       = Xinference.generate_loop run_manager rest.
Proof.
  intros Hne. destruct ev; try (split; [reflexivity|intros; reflexivity]).
  exfalso. eapply Hne. reflexivity.
Qed.

(** X18. Among fragments that each have a first choice with a text, a truthy
    event that is not a mapping makes the chunked stream raise
    [TypeError "stream_response type error!"] after yielding the chunks of
    the fragments before it, while the plain call leaves it out and goes
    on. *)
Theorem non_mapping_event_in_stream
    (self : Xinference.adapter F) prompt stop run_manager kwargs
    pre ev post texts1 texts2 :
  Forall2 first_choice_text pre texts1 ->
  Forall2 first_choice_text post texts2 ->
  py_truthy ev = true ->
  (forall m, ev <> PDict m) ->
  (streams self (Xinference.client self) prompt stop kwargs (pre ++ ev :: post) ->
     Xinference.text <$> gen_yields (Xinference._stream self prompt stop run_manager kwargs)
     = texts1
     /\ gen_error (Xinference._stream self prompt stop run_manager kwargs)
        = Some (TypeError "stream_response type error!"))
  /\ (streams self (Xinference.async_client self) prompt stop kwargs (pre ++ ev :: post) ->
     Xinference.text <$> gen_yields (Xinference._astream self prompt stop run_manager kwargs)
     = texts1
     /\ gen_error (Xinference._astream self prompt stop run_manager kwargs)
        = Some (TypeError "stream_response type error!"))
  /\ (plain_streams self (Xinference.client self) prompt stop kwargs (pre ++ ev :: post) ->
     (Xinference._call self prompt stop run_manager kwargs).2
     = Ok (PStr (concat_strings (texts1 ++ texts2))))
  /\ (plain_streams self (Xinference.async_client self) prompt stop kwargs
        (pre ++ ev :: post) ->
     (Xinference._acall self prompt stop run_manager kwargs).2
     = Ok (PStr (concat_strings (texts1 ++ texts2)))).
Proof.
  intros Hpre Hpost Htruthy Hne.
  destruct (non_mapping_event ev Hne) as [Hconv Hskip].
  assert (Hloop : Xinference.text
                    <$> gen_yields (Xinference.stream_loop run_manager (pre ++ ev :: post))
                  = texts1
                  /\ gen_error (Xinference.stream_loop run_manager (pre ++ ev :: post))
                     = Some (TypeError "stream_response type error!")).
  { destruct (stream_loop_wf_app run_manager pre texts1 (ev :: post) Hpre)
      as (chunks & Ht & Hy & He).
    rewrite Hy, He. cbn [Xinference.stream_loop]. rewrite Htruthy, Hconv.
    cbn [gen_yields gen_error]. rewrite app_nil_r. split; [exact Ht|reflexivity]. }
  pose proof (generate_loop_skips run_manager pre ev post texts1 texts2 Hpre Hpost
                (Hskip run_manager)) as Hplain.
  split; [|split; [|split]].
  - intros Hs. destruct (stream_obs self prompt stop run_manager kwargs _ Hs) as [-> ->].
    exact Hloop.
  - intros Hs. destruct (astream_obs self prompt stop run_manager kwargs _ Hs) as [-> ->].
    exact Hloop.
  - intros Hp. rewrite (call_stream_result self prompt stop run_manager kwargs _ Hp), Hplain.
    reflexivity.
  - intros Hp. rewrite (acall_stream_result self prompt stop run_manager kwargs _ Hp), Hplain.
    reflexivity.
Qed.

(** X19. A fragment whose first choice is a mapping becomes a chunk whose
    metadata has exactly the two entries ["finish_reason"] and ["logprobs"],
    each the choice's value or [None] when the choice lacks it; later
    choices are ignored, and a choice without ["text"] gives the empty
    text. *)
Theorem chunk_metadata (d choice : gmap string (pyval F)) others s :
  d !! "choices" = Some (PList (PDict choice :: others)) ->
  choice !! "text" = Some (PStr s) \/ choice !! "text" = None /\ s = EmptyString ->
  exists info,
    Xinference._stream_response_to_generation_chunk (PDict d)
    = Ok {| Xinference.text := s; Xinference.generation_info := Some info |}
    /\ info !! "finish_reason" = Some (dict_get choice "finish_reason" PNone)
    /\ info !! "logprobs" = Some (dict_get choice "logprobs" PNone)
    /\ forall key, key <> "finish_reason" -> key <> "logprobs" -> info !! key = None.
Proof.
  intros Hch Htext.
  assert (Htok : dict_get choice "text" (PStr EmptyString) = PStr s).
  { unfold dict_get. destruct Htext as [-> | [-> ->]]; reflexivity. }
  eexists. split; [|split; [|split]].
  - unfold Xinference._stream_response_to_generation_chunk.
    rewrite (dict_get_Some _ _ _ _ Hch). cbn [py_truthy length bool_decide].
    cbn [py_getitem0 rbind]. rewrite Htok. reflexivity.
  - apply lookup_insert_eq.
  - rewrite lookup_insert_ne by discriminate. apply lookup_insert_eq.
  - intros key H1 H2. rewrite !lookup_insert_ne by congruence. apply lookup_empty.
Qed.

Lemma wf_fragment_generate_step_full (frag : pyval F) s run_manager rest :
  first_choice_text frag s ->
  exists lp, Xinference.generate_loop run_manager (frag :: rest)
             = GYield (if run_manager then [EvNewToken (PStr s) (Some lp)] else [])
                      (PStr s) (Xinference.generate_loop run_manager rest).
Proof.
  intros (d & choice & others & -> & Hch & Htext).
  eexists. cbn [Xinference.generate_loop].
  rewrite (dict_get_Some _ _ _ _ Hch). cbn [py_truthy length bool_decide].
  cbn [py_getitem0]. rewrite (dict_get_Some _ _ _ _ Htext).
  reflexivity.
Qed.

Lemma generate_loop_wf_app_full (run_manager : bool) (pre : list (pyval F)) texts rest acc :
  Forall2 first_choice_text pre texts ->
  exists evs,
    notified_tokens evs = (if run_manager then PStr (F:=F) <$> texts else [])
    /\ for_each (Xinference.generate_loop run_manager (pre ++ rest)) py_str_add acc
       = (evs ++ (for_each (Xinference.generate_loop run_manager rest) py_str_add
                    (acc +:+ concat_strings texts)).1,
          (for_each (Xinference.generate_loop run_manager rest) py_str_add
             (acc +:+ concat_strings texts)).2).
Proof.
  intros Hwf. revert acc.
  induction Hwf as [|frag s pre texts Hwf _ IH]; intros acc.
  - exists []. split; [destruct run_manager; reflexivity|].
    cbn [app concat_strings]. rewrite string_append_nil_r.
    destruct (for_each _ _ _); reflexivity.
  - destruct (wf_fragment_generate_step_full _ _ run_manager (pre ++ rest) Hwf)
      as [lp Hstep].
    destruct (IH (acc +:+ s)) as (evs & Hn & Hrun).
    exists ((if run_manager then [EvNewToken (PStr s) (Some lp)] else []) ++ evs).
    split.
    + rewrite notified_tokens_app, Hn. destruct run_manager; reflexivity.
    + change ((frag :: pre) ++ rest) with (frag :: (pre ++ rest)).
      rewrite Hstep. cbn [for_each py_str_add]. rewrite mbind_ok, Hrun.
      cbn [fst snd concat_strings]. rewrite string_append_assoc, app_assoc.
      reflexivity.
Qed.

(** X20. A first choice whose ["text"] is present but not a string (a JSON
    [null], a number) breaks a streaming plain call: after the fragments
    before it, the observer is still told the offending token, then the
    concatenation raises [TypeError] and nothing of the later fragments is
    notified or returned. *)
Theorem plain_call_rejects_non_string_text
    (self : Xinference.adapter F) prompt stop kwargs pre d choice others v post texts1 :
  Forall2 first_choice_text pre texts1 ->
  d !! "choices" = Some (PList (PDict choice :: others)) ->
  choice !! "text" = Some v ->
  (forall s, v <> PStr s) ->
  (plain_streams self (Xinference.client self) prompt stop kwargs (pre ++ PDict d :: post) ->
     (exists msg, (Xinference._call self prompt stop true kwargs).2 = Raise (TypeError msg))
     /\ notified_tokens (Xinference._call self prompt stop true kwargs).1
        = (PStr <$> texts1) ++ [v])
  /\ (plain_streams self (Xinference.async_client self) prompt stop kwargs
        (pre ++ PDict d :: post) ->
     (exists msg, (Xinference._acall self prompt stop true kwargs).2 = Raise (TypeError msg))
     /\ notified_tokens (Xinference._acall self prompt stop true kwargs).1
        = (PStr <$> texts1) ++ [v]).
Proof.
  intros Hpre Hch Htext Hv.
  assert (Hbad : forall acc,
            exists lp msg,
              for_each (Xinference.generate_loop true (PDict d :: post)) py_str_add acc
              = ([EvNewToken v (Some lp)], Raise (TypeError msg))).
  { intros acc. eexists _, _. cbn [Xinference.generate_loop].
    rewrite (dict_get_Some _ _ _ _ Hch). cbn [py_truthy length bool_decide].
    cbn [py_getitem0]. rewrite (dict_get_Some _ _ _ _ Htext).
    cbn [for_each]. unfold py_str_add.
    destruct v; try reflexivity. exfalso. eapply Hv. reflexivity. }
  assert (Hloop : exists evs msg,
            notified_tokens evs = (PStr <$> texts1) ++ [v]
            /\ for_each (Xinference.generate_loop true (pre ++ PDict d :: post))
                        py_str_add EmptyString
               = (evs, Raise (TypeError msg))).
  { destruct (generate_loop_wf_app_full true pre texts1 (PDict d :: post) EmptyString Hpre)
      as (evs & Hn & Hrun).
    destruct (Hbad (EmptyString +:+ concat_strings texts1)) as (lp & msg & Hb).
    rewrite Hb in Hrun. cbn [fst snd] in Hrun.
    exists (evs ++ [EvNewToken v (Some lp)]), msg. split; [|exact Hrun].
    rewrite notified_tokens_app, Hn. reflexivity. }
  destruct Hloop as (evs & msg & Hn & Hrun).
  split; intros Hp.
  - destruct (proj1 (call_stream_run self prompt stop true kwargs _) Hp) as [opts ->].
    rewrite Hrun. cbn [fst snd rbind notified_tokens].
    split; [exists msg; reflexivity|exact Hn].
  - destruct (proj2 (call_stream_run self prompt stop true kwargs _) Hp) as [opts ->].
    rewrite Hrun. cbn [fst snd rbind notified_tokens].
    split; [exists msg; reflexivity|exact Hn].
Qed.

End Properties.

(** * The claims on concrete runs *)

(** A server URL and a model UID are both missing. *)
Lemma init_without_url_or_uid_fails_witness :
  (exists msg, XinferenceEmbeddings.__init__
                 (sample_env {| status_code := 404; json := Ok PNone |}) None None None
               = ([], Raise (ValueError msg)))
  /\ (exists msg, Xinference.__init__
                    (sample_env {| status_code := 404; json := Ok PNone |}) None None None ∅
                  = ([], Raise (ValueError msg))).
Proof.
  apply (init_without_url_or_uid_fails
           (sample_env {| status_code := 404; json := Ok PNone |}) None None None ∅).
  - reflexivity.
  - left. reflexivity.
Defined.

(** The cluster enforces authentication and an API key is supplied. *)
Lemma bearer_header_follows_probe_witness :
  built_with XinferenceEmbeddings._headers
    (XinferenceEmbeddings.__init__
       (sample_env {| status_code := 200; json := Ok (PDict {[ "auth" := PBool true ]}) |})
       (Some "http://0.0.0.0:9997") (Some "bge") (Some "sk-1"))
    {[ "Authorization" := "Bearer sk-1" ]}
  /\ built_with Xinference._headers
       (Xinference.__init__
          (sample_env {| status_code := 200; json := Ok (PDict {[ "auth" := PBool true ]}) |})
          (Some "http://0.0.0.0:9997") (Some "bge") (Some "sk-1") ∅)
       {[ "Authorization" := "Bearer sk-1" ]}.
Proof.
  assert (Hb : buildable
                 (sample_env {| status_code := 200;
                                json := Ok (PDict {[ "auth" := PBool true ]}) |})
                 "http://0.0.0.0:9997" (Some "sk-1")
                 {| status_code := 200; json := Ok (PDict {[ "auth" := PBool true ]}) |}).
  { split; [reflexivity|]. split; [reflexivity|]. split; [|exact I].
    eexists. reflexivity. }
  destruct (bearer_header_follows_probe _ _ "bge" _ ∅ _ Hb) as (_ & Hauth & _).
  apply (Hauth {[ "auth" := PBool true ]} "sk-1"); reflexivity.
Defined.

(** A 500 answer with a detail. *)
Lemma auth_probe_outcomes_witness :
  (XinferenceEmbeddings.__init__
     (sample_env {| status_code := 500; json := Ok (PDict {[ "detail" := PStr "boom" ]}) |})
     (Some "http://0.0.0.0:9997") (Some "bge") None).2
  = Raise (RuntimeError "Failed to get cluster information, detail: boom")
  /\ (Xinference.__init__
        (sample_env {| status_code := 500; json := Ok (PDict {[ "detail" := PStr "boom" ]}) |})
        (Some "http://0.0.0.0:9997") (Some "bge") None ∅).2
     = Raise (RuntimeError "Failed to get cluster information, detail: boom").
Proof.
  destruct (auth_probe_outcomes
              (sample_env {| status_code := 500;
                             json := Ok (PDict {[ "detail" := PStr "boom" ]}) |})
              "http://0.0.0.0:9997" "bge" None ∅
              {| status_code := 500; json := Ok (PDict {[ "detail" := PStr "boom" ]}) |}
              eq_refl eq_refl) as (Hfatal & _ & _).
  apply (Hfatal {[ "detail" := PStr "boom" ]} (PStr "boom")).
  - simpl. lia.
  - simpl. lia.
  - reflexivity.
  - reflexivity.
Defined.

(** C5, as stated, fails: a 200 answer whose body lacks ["auth"] makes the
    construction of both adapters raise [KeyError], and a 204 answer, a
    success status other than 200, makes it raise [RuntimeError]. *)
Lemma success_probe_may_raise :
  (XinferenceEmbeddings.__init__
     (sample_env {| status_code := 200; json := Ok (PDict ∅) |})
     (Some "http://0.0.0.0:9997") (Some "bge") None).2
  = Raise (KeyError "auth")
  /\ (Xinference.__init__
        (sample_env {| status_code := 200; json := Ok (PDict ∅) |})
        (Some "http://0.0.0.0:9997") (Some "bge") None ∅).2
     = Raise (KeyError "auth")
  /\ (XinferenceEmbeddings.__init__
        (sample_env {| status_code := 204; json := Ok (PDict {[ "detail" := PStr "none" ]}) |})
        (Some "http://0.0.0.0:9997") (Some "bge") None).2
     = Raise (RuntimeError "Failed to get cluster information, detail: none")
  /\ (Xinference.__init__
        (sample_env {| status_code := 204; json := Ok (PDict {[ "detail" := PStr "none" ]}) |})
        (Some "http://0.0.0.0:9997") (Some "bge") None ∅).2
     = Raise (RuntimeError "Failed to get cluster information, detail: none").
Proof. repeat split; vm_compute; reflexivity. Qed.

(** C3. An [XinferenceEmbeddings] instance built while the non-blocking
    client cannot be created stores [None] in [async_client]; on it
    [aembed_query] and [aembed_documents] raise [AttributeError] from the
    attribute access on [None], not the error
    [ValueError "Client is not initialized!"] with which [Xinference._acall]
    answers the same situation. *)
Theorem embeddings_async_raises_attribute_error :
  exists self,
    (XinferenceEmbeddings.__init__
       (sample_env {| status_code := 404; json := Ok PNone |})
       (Some "http://0.0.0.0:9997") (Some "bge") None).2 = Ok self
    /\ XinferenceEmbeddings.async_client self = None
    /\ XinferenceEmbeddings.aembed_query self "a"
       = ([], Raise (AttributeError "'NoneType' object has no attribute 'get_model'"))
    /\ XinferenceEmbeddings.aembed_documents self ["a"; "b"]
       = ([], Raise (AttributeError "'NoneType' object has no attribute 'get_model'"))
    /\ exists llm,
         (Xinference.__init__
            (sample_env {| status_code := 404; json := Ok PNone |})
            (Some "http://0.0.0.0:9997") (Some "orca") None ∅).2 = Ok llm
         /\ Xinference.async_client llm = None
         /\ Xinference._acall llm "p" None false ∅
            = ([], Raise (ValueError "Client is not initialized!")).
Proof.
  eexists. split; [vm_compute; reflexivity|].
  repeat split. eexists. split; [vm_compute; reflexivity|].
  repeat split.
Qed.

(** Two texts. *)
Lemma embed_documents_one_call_per_text_witness :
  XinferenceEmbeddings.embed_documents sample_embeddings ["a"; "b"]
  = ([EvGetModel "bge"; EvCreateEmbedding "a"; EvCreateEmbedding "b"],
     Ok [[1%Z; 2%Z]; [1%Z; 2%Z]]).
Proof.
  apply (embed_documents_one_call_per_text sample_embeddings (sample_model []) ["a"; "b"]
           [[PInt 1; PInt 2]; [PInt 1; PInt 2]] [[1%Z; 2%Z]; [1%Z; 2%Z]]).
  - eexists. split; reflexivity.
  - repeat constructor; eexists; (split; [reflexivity|]);
      eexists _, _, _; (split; [reflexivity|]); split; reflexivity.
  - repeat constructor.
Defined.

(** Two fragments, streamed to a caller who asked for streaming. *)
Lemma streamed_texts_reach_caller_witness :
  (Xinference._call (sample_llm [text_fragment "Hel"; text_fragment "lo"])
     "hi" None false (stream_kwargs true)).2
  = Ok (PStr "Hello")
  /\ Xinference.text <$> gen_yields
       (Xinference._stream (sample_llm [text_fragment "Hel"; text_fragment "lo"])
          "hi" None false (stream_kwargs true))
     = ["Hel"; "lo"].
Proof.
  assert (Hwf : Forall2 first_choice_text
                  [text_fragment "Hel"; text_fragment "lo"] ["Hel"; "lo"]).
  { repeat constructor; eexists _, _, _; (split; [reflexivity|]); split; reflexivity. }
  assert (Hp : plain_streams (sample_llm [text_fragment "Hel"; text_fragment "lo"])
                 (Xinference.client (sample_llm [text_fragment "Hel"; text_fragment "lo"]))
                 "hi" None (stream_kwargs true)
                 [text_fragment "Hel"; text_fragment "lo"]).
  { exists (sample_model [text_fragment "Hel"; text_fragment "lo"]),
           {[ "stream" := PBool true ]}.
    split; [eexists; split; reflexivity|].
    split; [reflexivity|]. split; [vm_compute; reflexivity|reflexivity]. }
  destruct (streamed_texts_reach_caller
              (sample_llm [text_fragment "Hel"; text_fragment "lo"])
              "hi" None false (stream_kwargs true) _ _ Hwf) as [Hsync _].
  destruct (Hsync Hp) as (Hcall & _ & _ & Htexts).
  split; [exact Hcall|exact Htexts].
Defined.

(** C1, as stated, fails on the chunked stream: with a truthy ["stream"]
    flag the remote streams three fragments, the second an empty mapping;
    [_stream] and [_astream] end normally and have yielded two chunks, not
    one per fragment. *)
Lemma falsy_fragment_gets_no_chunk :
  plain_streams (sample_llm [text_fragment "Hel"; PDict ∅; text_fragment "lo"])
    (Xinference.client (sample_llm [text_fragment "Hel"; PDict ∅; text_fragment "lo"]))
    "hi" None (stream_kwargs true) [text_fragment "Hel"; PDict ∅; text_fragment "lo"]
  /\ length [text_fragment "Hel"; PDict ∅; text_fragment "lo"] = 3
  /\ gen_error
       (Xinference._stream (sample_llm [text_fragment "Hel"; PDict ∅; text_fragment "lo"])
          "hi" None false (stream_kwargs true))
     = None
  /\ length
       (gen_yields
          (Xinference._stream (sample_llm [text_fragment "Hel"; PDict ∅; text_fragment "lo"])
             "hi" None false (stream_kwargs true)))
     = 2
  /\ gen_error
       (Xinference._astream (sample_llm [text_fragment "Hel"; PDict ∅; text_fragment "lo"])
          "hi" None false (stream_kwargs true))
     = None
  /\ length
       (gen_yields
          (Xinference._astream (sample_llm [text_fragment "Hel"; PDict ∅; text_fragment "lo"])
             "hi" None false (stream_kwargs true)))
     = 2.
Proof.
  split.
  - exists (sample_model [text_fragment "Hel"; PDict ∅; text_fragment "lo"]),
           {[ "stream" := PBool true ]}.
    split; [eexists; split; reflexivity|].
    split; [reflexivity|]. split; [vm_compute; reflexivity|reflexivity].
  - repeat split; vm_compute; reflexivity.
Qed.

(** C2, as stated, fails on the plain call: the fragment [{"choices": [5]}]
    has a non-empty choices list whose first entry is not a mapping, and the
    streaming plain call that receives it returns the empty string instead
    of raising. *)
Lemma plain_call_skips_malformed_choice :
  first_choice_not_mapping bad_choice_fragment
  /\ plain_streams (sample_llm [bad_choice_fragment])
       (Xinference.client (sample_llm [bad_choice_fragment]))
       "p" None (stream_kwargs true) [bad_choice_fragment]
  /\ (Xinference._call (sample_llm [bad_choice_fragment]) "p" None false
        (stream_kwargs true)).2
     = Ok (PStr EmptyString)
  /\ (Xinference._acall (sample_llm [bad_choice_fragment]) "p" None false
        (stream_kwargs true)).2
     = Ok (PStr EmptyString).
Proof.
  split; [|split; [|split]].
  - eexists _, _, _. split; [reflexivity|]. split; [reflexivity|].
    intros m. discriminate.
  - exists (sample_model [bad_choice_fragment]), {[ "stream" := PBool true ]}.
    split; [eexists; split; reflexivity|].
    split; [reflexivity|]. split; [vm_compute; reflexivity|reflexivity].
  - vm_compute. reflexivity.
  - vm_compute. reflexivity.
Qed.

(** A fragment with an empty choices list between two ordinary ones, and a
    fragment with a malformed first choice after an ordinary one. *)
Lemma malformed_and_empty_choices_witness :
  (Xinference.text <$> gen_yields
     (Xinference._stream
        (sample_llm [text_fragment "a"; no_choice_fragment; text_fragment "b"])
        "p" None false ∅)
   = ["a"; EmptyString; "b"]
   /\ gen_yields
        (Xinference._stream
           (sample_llm [text_fragment "a"; no_choice_fragment; text_fragment "b"])
           "p" None false ∅) !! 1
      = Some empty_chunk)
  /\ (Xinference._call
        (sample_llm [text_fragment "a"; no_choice_fragment; text_fragment "b"])
        "p" None false (stream_kwargs true)).2
     = Ok (PStr "ab")
  /\ gen_error
       (Xinference._stream (sample_llm [text_fragment "a"; bad_choice_fragment])
          "p" None false ∅)
     = Some (TypeError "choice type error!").
Proof.
  assert (Ha : Forall2 first_choice_text [text_fragment "a"] ["a"]).
  { repeat constructor; eexists _, _, _; (split; [reflexivity|]); split; reflexivity. }
  assert (Hb : Forall2 first_choice_text [text_fragment "b"] ["b"]).
  { repeat constructor; eexists _, _, _; (split; [reflexivity|]); split; reflexivity. }
  assert (Hnil : Forall2 (first_choice_text (F:=Z)) [] []) by constructor.
  assert (Hempty : empty_choices no_choice_fragment).
  { eexists. split; reflexivity. }
  assert (Hbad : first_choice_not_mapping bad_choice_fragment).
  { eexists _, _, _. split; [reflexivity|]. split; [reflexivity|].
    intros m. discriminate. }
  destruct (malformed_and_empty_choices
              (sample_llm [text_fragment "a"; no_choice_fragment; text_fragment "b"])
              "p" None false ∅
              [text_fragment "a"] no_choice_fragment [text_fragment "b"] ["a"] ["b"]
              Ha Hb) as [_ Hcase].
  destruct (Hcase Hempty) as (Hstream & _ & _ & _).
  destruct (malformed_and_empty_choices
              (sample_llm [text_fragment "a"; no_choice_fragment; text_fragment "b"])
              "p" None false (stream_kwargs true)
              [text_fragment "a"] no_choice_fragment [text_fragment "b"] ["a"] ["b"]
              Ha Hb) as [_ Hcase'].
  destruct (Hcase' Hempty) as (_ & _ & Hplain & _).
  destruct (malformed_and_empty_choices
              (sample_llm [text_fragment "a"; bad_choice_fragment])
              "p" None false ∅
              [text_fragment "a"] bad_choice_fragment [] ["a"] []
              Ha Hnil) as [Hcase'' _].
  destruct (Hcase'' Hbad) as (Hfail & _ & _ & _).
  split; [|split].
  - assert (Hs : streams
                   (sample_llm [text_fragment "a"; no_choice_fragment; text_fragment "b"])
                   (Xinference.client
                      (sample_llm [text_fragment "a"; no_choice_fragment; text_fragment "b"]))
                   "p" None ∅
                   ([text_fragment "a"] ++ no_choice_fragment :: [text_fragment "b"])).
    { exists (sample_model [text_fragment "a"; no_choice_fragment; text_fragment "b"]), ∅.
      split; [eexists; split; reflexivity|]. split; reflexivity. }
    destruct (Hstream Hs) as (_ & Ht & Hk). split; [exact Ht|exact Hk].
  - apply Hplain.
    exists (sample_model [text_fragment "a"; no_choice_fragment; text_fragment "b"]),
           {[ "stream" := PBool true ]}.
    split; [eexists; split; reflexivity|].
    split; [reflexivity|]. split; [vm_compute; reflexivity|reflexivity].
  - apply Hfail.
    exists (sample_model [text_fragment "a"; bad_choice_fragment]), ∅.
    split; [eexists; split; reflexivity|]. split; reflexivity.
Defined.

(** C4, as stated, fails on the chunked stream: the caller's
    [generate_config] says ["stream": False], no default says otherwise, and
    the options passed to the remote generate call say ["stream": True]. *)
Lemma stream_overrides_call_time_flag :
  expected_option ∅ {[ "stream" := PBool false ]} None "stream" = Some (PBool (F:=Z) false)
  /\ generate_calls
       (gen_events (Xinference._stream (sample_llm []) "p" None false (stream_kwargs false)))
     = [("p", {[ "stream" := PBool true ]})]
  /\ generate_calls
       (gen_events (Xinference._astream (sample_llm []) "p" None false (stream_kwargs false)))
     = [("p", {[ "stream" := PBool true ]})].
Proof. repeat split; vm_compute; reflexivity. Qed.

(** An explicit stop list against a stop entry of the caller. *)
Lemma options_passed_to_generate_witness :
  exists opts,
    generate_calls
      (Xinference._call (sample_llm []) "p" (Some ["END"]) false
         {[ "generate_config" := PDict {[ "stop" := PList [PStr "x"] ]} ]}).1
    = [("p", opts)]
    /\ opts !! "stop" = Some (PList [PStr "END"]).
Proof.
  assert (Hcfg : call_config (F:=Z)
                   {[ "generate_config" := PDict {[ "stop" := PList [PStr "x"] ]} ]}
                   {[ "stop" := PList [PStr "x"] ]}) by reflexivity.
  destruct (options_passed_to_generate (sample_llm []) (sample_model [])
              "p" (Some ["END"]) false _ _ Hcfg) as (Hcall & _ & _ & _).
  destruct Hcall as (opts & Hcalls & _ & Hstop).
  { eexists. split; reflexivity. }
  exists opts. split; [exact Hcalls|].
  exact (Hstop "END" [] eq_refl).
Defined.

(** A caller who switches streaming off, once with a skipped event between
    two ordinary fragments and once with a fragment that does not convert. *)
Lemma stream_forces_flag_and_keeps_order_witness :
  (exists opts,
     generate_calls
       (gen_events
          (Xinference._stream (sample_llm [text_fragment "a"; PDict ∅; text_fragment "b"])
             "p" None false (stream_kwargs false)))
     = [("p", opts)]
     /\ py_truthy (dict_get opts "stream" PNone) = true
     /\ gen_yields
          (Xinference._stream (sample_llm [text_fragment "a"; PDict ∅; text_fragment "b"])
             "p" None false (stream_kwargs false))
        = [text_chunk "a"; text_chunk "b"]
     /\ gen_error
          (Xinference._stream (sample_llm [text_fragment "a"; PDict ∅; text_fragment "b"])
             "p" None false (stream_kwargs false))
        = None)
  /\ gen_yields
       (Xinference._stream
          (sample_llm [text_fragment "a"; bad_choice_fragment; text_fragment "b"])
          "p" None false (stream_kwargs false))
     = [text_chunk "a"]
  /\ gen_error
       (Xinference._stream
          (sample_llm [text_fragment "a"; bad_choice_fragment; text_fragment "b"])
          "p" None false (stream_kwargs false))
     = Some (TypeError "choice type error!").
Proof.
  assert (Hcfg : call_config (stream_kwargs false) {[ "stream" := PBool false ]})
    by reflexivity.
  split.
  - destruct (stream_forces_flag_and_keeps_order
                (sample_llm [text_fragment "a"; PDict ∅; text_fragment "b"])
                (sample_model [text_fragment "a"; PDict ∅; text_fragment "b"])
                "p" None false _ _ Hcfg) as (Hsync & _).
    destruct Hsync as (opts & Hcalls & Hflag & Hall & _).
    { eexists. split; reflexivity. }
    destruct (Hall [text_fragment "a"; PDict ∅; text_fragment "b"]
                   [text_chunk "a"; text_chunk "b"]) as [Hy He].
    { reflexivity. }
    { vm_compute. reflexivity. }
    exists opts. split; [exact Hcalls|]. split; [exact Hflag|].
    split; [exact Hy|exact He].
  - destruct (stream_forces_flag_and_keeps_order
                (sample_llm [text_fragment "a"; bad_choice_fragment; text_fragment "b"])
                (sample_model [text_fragment "a"; bad_choice_fragment; text_fragment "b"])
                "p" None false _ _ Hcfg) as (Hsync & _).
    destruct Hsync as (opts & _ & _ & _ & Hfail).
    { eexists. split; reflexivity. }
    apply (Hfail [text_fragment "a"] bad_choice_fragment [text_fragment "b"]
                 [text_chunk "a"] (TypeError "choice type error!")).
    + reflexivity.
    + vm_compute. reflexivity.
    + reflexivity.
    + reflexivity.
Defined.


(** * The further properties on concrete runs *)

Lemma init_degrades_without_async_witness :
  exists self,
    (XinferenceEmbeddings.__init__
       (env_of (answer_of 404 ∅) (Raise (RuntimeError "no running event loop")))
       (Some "http://0.0.0.0:9997") (Some "bge") None).2 = Ok self
    /\ XinferenceEmbeddings.client self = Some (sample_client [])
    /\ XinferenceEmbeddings.async_client self = None.
Proof.
  assert (Hp : probe_passes
                 (env_of (answer_of 404 ∅) (Raise (RuntimeError "no running event loop")))
                 "http://0.0.0.0:9997").
  { exists (answer_of 404 ∅). split; [reflexivity|]. left. reflexivity. }
  destruct (init_degrades_without_async
              (env_of (answer_of 404 ∅) (Raise (RuntimeError "no running event loop")))
              "http://0.0.0.0:9997" "bge" None ∅ eq_refl Hp) as (Hdegrade & _).
  destruct (Hdegrade (sample_client []) "no running event loop" eq_refl eq_refl)
    as [Hemb _].
  exact Hemb.
Defined.

Lemma header_follows_truthiness_witness :
  exists self,
    (XinferenceEmbeddings.__init__
       (env_of (answer_of 200 {[ "auth" := PInt 1 ]}) (Ok (sample_client [])))
       (Some "http://0.0.0.0:9997") (Some "bge") (Some "sk-1")).2 = Ok self
    /\ XinferenceEmbeddings._cluster_authed self = true
    /\ XinferenceEmbeddings._headers self = {[ "Authorization" := "Bearer sk-1" ]}.
Proof.
  assert (Hc : constructible
                 (env_of (answer_of 200 {[ "auth" := PInt 1 ]}) (Ok (sample_client [])))
                 "http://0.0.0.0:9997" (Some "sk-1")).
  { split; [reflexivity|]. split; [|split; [eexists; reflexivity|exact I]].
    exists (answer_of 200 {[ "auth" := PInt 1 ]}). split; [reflexivity|].
    right. split; [reflexivity|].
    exists {[ "auth" := PInt 1 ]}, (PInt 1). split; reflexivity. }
  destruct (header_follows_truthiness
              (env_of (answer_of 200 {[ "auth" := PInt 1 ]}) (Ok (sample_client [])))
              "http://0.0.0.0:9997" "bge" (Some "sk-1") ∅
              (answer_of 200 {[ "auth" := PInt 1 ]}) {[ "auth" := PInt 1 ]} (PInt 1)
              Hc eq_refl eq_refl eq_refl eq_refl) as [Hemb _].
  exact Hemb.
Defined.

Lemma init_keeps_arguments_witness :
  exists self,
    (Xinference.__init__
       (env_of (answer_of 404 ∅) (Ok (sample_client [])))
       (Some "http://0.0.0.0:9997") (Some "orca") None {[ "max_tokens" := PInt 64 ]}).2
    = Ok self
    /\ Xinference.model_kwargs self = {[ "max_tokens" := PInt 64 ]}
    /\ Xinference._identifying_params self !! "model_uid" = Some (PStr "orca").
Proof.
  assert (Hc : constructible (env_of (answer_of 404 ∅) (Ok (sample_client [])))
                 "http://0.0.0.0:9997" None).
  { split; [reflexivity|]. split; [|split; [eexists; reflexivity|exact I]].
    exists (answer_of 404 ∅). split; [reflexivity|]. left. reflexivity. }
  destruct (init_keeps_arguments
              (env_of (answer_of 404 ∅) (Ok (sample_client [])))
              "http://0.0.0.0:9997" "orca" None {[ "max_tokens" := PInt 64 ]} Hc)
    as [_ (self & Hok & _ & _ & Hkw & _ & _ & Huid & _)].
  exists self. split; [exact Hok|]. split; [exact Hkw|exact Huid].
Defined.

Lemma init_error_precedence_witness :
  exists msg,
    XinferenceEmbeddings.__init__ env_without_packages None None None
    = ([], Raise (ImportError msg))
    /\ Xinference.__init__ env_without_packages None None None ∅
       = ([], Raise (ImportError msg)).
Proof.
  destruct (init_error_precedence env_without_packages None None None ∅) as (Himport & _).
  exact (Himport eq_refl eq_refl).
Defined.

Lemma embed_query_returns_embedding_witness :
  XinferenceEmbeddings.embed_query (embeddings_on (embedding_model [PInt 3; PFloat 4%Z])) "a"
  = ([EvGetModel "bge"; EvCreateEmbedding "a"], Ok [3%Z; 4%Z]).
Proof.
  destruct (embed_query_returns_embedding
              (embeddings_on (embedding_model [PInt 3; PFloat 4%Z]))
              (embedding_model [PInt 3; PFloat 4%Z]) "a"
              (embedding_answer [PInt 3; PFloat 4%Z]) [PInt 3; PFloat 4%Z] [3%Z; 4%Z])
    as [Hsync _].
  - reflexivity.
  - eexists _, _, _. split; [reflexivity|]. split; reflexivity.
  - repeat constructor.
  - apply Hsync. eexists. split; reflexivity.
Defined.

Lemma embed_documents_stops_at_first_failure_witness :
  XinferenceEmbeddings.embed_documents (embeddings_on flaky_model) ["a"; "b"; "c"]
  = ([EvGetModel "bge"; EvCreateEmbedding "a"; EvCreateEmbedding "b"],
     Raise (ConnectionError "connection reset")).
Proof.
  destruct (embed_documents_stops_at_first_failure
              (embeddings_on flaky_model) flaky_model ["a"] "b" ["c"] [[PInt 1]]
              (ConnectionError "connection reset")) as [Hsync _].
  - repeat constructor. eexists. split; [reflexivity|].
    eexists _, _, _. split; [reflexivity|]. split; reflexivity.
  - reflexivity.
  - apply Hsync. eexists. split; reflexivity.
Defined.

Lemma embed_documents_converts_after_requests_witness :
  XinferenceEmbeddings.embed_documents (embeddings_on null_model) ["a"; "b"; "c"]
  = ([EvGetModel "bge"; EvCreateEmbedding "a"; EvCreateEmbedding "b"; EvCreateEmbedding "c"],
     Raise (TypeError "float() argument must be a string or a real number, not 'NoneType'")).
Proof.
  destruct (embed_documents_converts_after_requests
              (embeddings_on null_model) null_model ["a"; "b"; "c"]
              [[PInt 1]] [[1%Z]] [PNone] [[PInt 1]]
              (TypeError "float() argument must be a string or a real number, not 'NoneType'"))
    as [Hsync _].
  - repeat constructor; eexists; (split; [reflexivity|]);
      eexists _, _, _; (split; [reflexivity|]); split; reflexivity.
  - repeat constructor.
  - reflexivity.
  - apply Hsync. eexists. split; reflexivity.
Defined.

Lemma embed_query_malformed_answer_witness :
  XinferenceEmbeddings.embed_query
    (embeddings_on (model_of (fun _ => Ok (PDict ∅)) (Ok PNone))) "a"
  = ([EvGetModel "bge"; EvCreateEmbedding "a"], Raise (KeyError "data")).
Proof.
  destruct (embed_query_malformed_answer
              (embeddings_on (model_of (fun _ => Ok (PDict ∅)) (Ok PNone)))
              (model_of (fun _ => Ok (PDict ∅)) (Ok PNone)) "a" ∅) as (Hmissing & _).
  - eexists. split; reflexivity.
  - reflexivity.
  - apply Hmissing. reflexivity.
Defined.

Lemma aembed_documents_one_call_per_text_witness :
  XinferenceEmbeddings.aembed_documents (embeddings_on (embedding_model [PInt 7])) ["a"; "b"]
  = ([EvGetModel "bge"; EvCreateEmbedding "a"; EvCreateEmbedding "b"],
     Ok [[7%Z]; [7%Z]]).
Proof.
  apply (aembed_documents_one_call_per_text
           (embeddings_on (embedding_model [PInt 7])) (embedding_model [PInt 7])
           ["a"; "b"] [[PInt 7]; [PInt 7]] [[7%Z]; [7%Z]]).
  - eexists. split; reflexivity.
  - repeat constructor; eexists; (split; [reflexivity|]);
      eexists _, _, _; (split; [reflexivity|]); split; reflexivity.
  - repeat constructor.
Defined.

Lemma call_without_streaming_witness :
  Xinference._call
    (llm_on (completion_model
               (PDict {[ "choices" := PList [PDict {[ "text" := PStr "Paris" ]}] ]})))
    "Q" None true (stream_kwargs false)
  = ([EvGetModel "orca"; EvGenerate "Q" {[ "stream" := PBool false ]}], Ok (PStr "Paris")).
Proof.
  assert (Hcfg : call_config (stream_kwargs false) {[ "stream" := PBool false ]})
    by reflexivity.
  destruct (call_without_streaming
              (llm_on (completion_model
                         (PDict {[ "choices" := PList [PDict {[ "text" := PStr "Paris" ]}] ]})))
              (completion_model
                 (PDict {[ "choices" := PList [PDict {[ "text" := PStr "Paris" ]}] ]}))
              "Q" None true (stream_kwargs false) {[ "stream" := PBool false ]}
              {[ "choices" := PList [PDict {[ "text" := PStr "Paris" ]}] ]}
              {[ "text" := PStr "Paris" ]} [] (PStr "Paris") Hcfg) as [Hsync _].
  - vm_compute. reflexivity.
  - reflexivity.
  - reflexivity.
  - reflexivity.
  - apply Hsync. eexists. split; reflexivity.
Defined.

Lemma call_without_streaming_malformed_witness :
  (Xinference._call
     (llm_on (completion_model (PDict {[ "choices" := PList [] ]})))
     "Q" None false ∅).2
  = Raise (IndexError "list index out of range").
Proof.
  assert (Hcfg : call_config (F:=Z) ∅ ∅) by reflexivity.
  destruct (call_without_streaming_malformed
              (llm_on (completion_model (PDict {[ "choices" := PList [] ]})))
              (completion_model (PDict {[ "choices" := PList [] ]}))
              "Q" None false ∅ ∅ {[ "choices" := PList [] ]} Hcfg) as (_ & Hempty & _).
  - vm_compute. reflexivity.
  - reflexivity.
  - eexists. split; reflexivity.
  - apply Hempty. reflexivity.
Defined.

Lemma llm_handle_guard_witness :
  Xinference._call llm_without_handles "Q" None false ∅
  = ([], Raise (ValueError "Client is not initialized!"))
  /\ Xinference._stream llm_without_handles "Q" None false ∅
     = GRaise [] (ValueError "Client is not initialized!").
Proof.
  assert (Hcfg : call_config (F:=Z) ∅ ∅) by reflexivity.
  destruct (llm_handle_guard llm_without_handles "Q" None false ∅ ∅ Hcfg) as [Hsync _].
  apply Hsync. reflexivity.
Defined.

Lemma non_mapping_generate_config_witness :
  Xinference._call (sample_llm []) "Q" None false {[ "generate_config" := PInt 5 ]}
  = ([EvGetModel "orca"], Raise (TypeError "'int' object is not a mapping"))
  /\ Xinference._stream llm_without_handles "Q" None false {[ "generate_config" := PInt 5 ]}
     = GRaise [] (TypeError "'int' object is not a mapping").
Proof.
  split.
  - destruct (non_mapping_generate_config (sample_llm []) (sample_model [])
                "Q" None false {[ "generate_config" := PInt 5 ]} (PInt 5)) as (Hsync & _).
    + reflexivity.
    + intros m. discriminate.
    + apply Hsync. eexists. split; reflexivity.
  - destruct (non_mapping_generate_config llm_without_handles (sample_model [])
                "Q" None false {[ "generate_config" := PInt 5 ]} (PInt 5))
      as (_ & _ & Hstream & _).
    + reflexivity.
    + intros m. discriminate.
    + exact Hstream.
Defined.

Lemma plain_call_returns_what_observer_saw_witness :
  exists texts,
    notified_tokens
      (Xinference._call (sample_llm [text_fragment "a"; PDict ∅; text_fragment "b"])
         "Q" None true (stream_kwargs true)).1
    = PStr <$> texts
    /\ (Xinference._call (sample_llm [text_fragment "a"; PDict ∅; text_fragment "b"])
          "Q" None true (stream_kwargs true)).2
       = Ok (PStr (concat_strings texts)).
Proof.
  assert (Hp : plain_streams (sample_llm [text_fragment "a"; PDict ∅; text_fragment "b"])
                 (Xinference.client
                    (sample_llm [text_fragment "a"; PDict ∅; text_fragment "b"]))
                 "Q" None (stream_kwargs true)
                 [text_fragment "a"; PDict ∅; text_fragment "b"]).
  { exists (sample_model [text_fragment "a"; PDict ∅; text_fragment "b"]),
           {[ "stream" := PBool true ]}.
    split; [eexists; split; reflexivity|].
    split; [reflexivity|]. split; [vm_compute; reflexivity|reflexivity]. }
  destruct (plain_call_returns_what_observer_saw
              (sample_llm [text_fragment "a"; PDict ∅; text_fragment "b"])
              "Q" None (stream_kwargs true)
              [text_fragment "a"; PDict ∅; text_fragment "b"]) as [Hsync _].
  destruct (Hsync Hp) as [Hobs _].
  destruct (Xinference._call (sample_llm [text_fragment "a"; PDict ∅; text_fragment "b"])
              "Q" None true (stream_kwargs true)) as [evs r] eqn:Hrun.
  assert (Hok : exists r', r = Ok r').
  { apply (f_equal snd) in Hrun. vm_compute in Hrun. eexists. symmetry. exact Hrun. }
  destruct Hok as [r' ->].
  destruct (Hobs evs r' eq_refl) as (texts & Hn & Hr).
  exists texts. split; [exact Hn|]. cbn [snd]. rewrite Hr. reflexivity.
Defined.

Lemma non_mapping_event_in_stream_witness :
  gen_error
    (Xinference._stream (sample_llm [text_fragment "a"; PStr "ping"; text_fragment "b"])
       "Q" None false ∅)
  = Some (TypeError "stream_response type error!")
  /\ (Xinference._call (sample_llm [text_fragment "a"; PStr "ping"; text_fragment "b"])
        "Q" None false (stream_kwargs true)).2
     = Ok (PStr "ab").
Proof.
  assert (Ha : Forall2 first_choice_text [text_fragment "a"] ["a"]).
  { repeat constructor; eexists _, _, _; (split; [reflexivity|]); split; reflexivity. }
  assert (Hb : Forall2 first_choice_text [text_fragment "b"] ["b"]).
  { repeat constructor; eexists _, _, _; (split; [reflexivity|]); split; reflexivity. }
  assert (Hne : forall m, PStr (F:=Z) "ping" <> PDict m) by (intros m; discriminate).
  split.
  - destruct (non_mapping_event_in_stream
                (sample_llm [text_fragment "a"; PStr "ping"; text_fragment "b"])
                "Q" None false ∅ [text_fragment "a"] (PStr "ping") [text_fragment "b"]
                ["a"] ["b"] Ha Hb eq_refl Hne) as (Hsync & _).
    apply Hsync.
    exists (sample_model [text_fragment "a"; PStr "ping"; text_fragment "b"]), ∅.
    split; [eexists; split; reflexivity|]. split; reflexivity.
  - destruct (non_mapping_event_in_stream
                (sample_llm [text_fragment "a"; PStr "ping"; text_fragment "b"])
                "Q" None false (stream_kwargs true)
                [text_fragment "a"] (PStr "ping") [text_fragment "b"]
                ["a"] ["b"] Ha Hb eq_refl Hne) as (_ & _ & Hplain & _).
    apply Hplain.
    exists (sample_model [text_fragment "a"; PStr "ping"; text_fragment "b"]),
           {[ "stream" := PBool true ]}.
    split; [eexists; split; reflexivity|].
    split; [reflexivity|]. split; [vm_compute; reflexivity|reflexivity].
Defined.

Lemma chunk_metadata_witness :
  exists info,
    Xinference._stream_response_to_generation_chunk
      (PDict {[ "choices" :=
                  PList [PDict {[ "finish_reason" := PStr (F:=Z) "stop" ]}; PInt 0] ]})
    = Ok {| Xinference.text := EmptyString; Xinference.generation_info := Some info |}
    /\ info !! "finish_reason" = Some (PStr "stop")
    /\ info !! "logprobs" = Some PNone.
Proof.
  destruct (chunk_metadata
              {[ "choices" :=
                   PList [PDict {[ "finish_reason" := PStr (F:=Z) "stop" ]}; PInt 0] ]}
              {[ "finish_reason" := PStr "stop" ]} [PInt 0] EmptyString)
    as (info & Hconv & Hfr & Hlp & _).
  - reflexivity.
  - right. split; reflexivity.
  - exists info. split; [exact Hconv|]. split; [exact Hfr|exact Hlp].
Defined.

Lemma plain_call_rejects_non_string_text_witness :
  (exists msg,
     (Xinference._call (sample_llm [text_fragment "a"; null_text_fragment; text_fragment "b"])
        "Q" None true (stream_kwargs true)).2
     = Raise (TypeError msg))
  /\ notified_tokens
       (Xinference._call (sample_llm [text_fragment "a"; null_text_fragment; text_fragment "b"])
          "Q" None true (stream_kwargs true)).1
     = [PStr "a"; PNone].
Proof.
  assert (Ha : Forall2 first_choice_text [text_fragment "a"] ["a"]).
  { repeat constructor; eexists _, _, _; (split; [reflexivity|]); split; reflexivity. }
  destruct (plain_call_rejects_non_string_text
              (sample_llm [text_fragment "a"; null_text_fragment; text_fragment "b"])
              "Q" None (stream_kwargs true)
              [text_fragment "a"]
              {[ "choices" := PList [PDict {[ "text" := PNone ]}] ]}
              {[ "text" := PNone ]} [] PNone [text_fragment "b"] ["a"] Ha)
    as [Hsync _].
  - reflexivity.
  - reflexivity.
  - intros s. discriminate.
  - apply Hsync.
    exists (sample_model [text_fragment "a"; null_text_fragment; text_fragment "b"]),
           {[ "stream" := PBool true ]}.
    split; [eexists; split; reflexivity|].
    split; [reflexivity|]. split; [vm_compute; reflexivity|reflexivity].
Defined.
